(** * TestCafe configuration resolver

    A shallow embedding of [src/configuration/testcafe-configuration.ts]
    (class [TestCafeConfiguration]) and of the JavaScript values and
    built-ins it manipulates, followed by the properties of the
    option-resolution pipeline.

    Layout:
    - [JS]: JavaScript values, truthiness, property access, [Object.assign],
      [Promise.all], lodash [castArray] and [flatten];
    - the option store (base class [Configuration]) and the collaborators of
      the resolver;
    - the methods of [TestCafeConfiguration];
    - sample environments used to run the embedding on concrete inputs;
    - the properties. *)

From Stdlib Require Import ZArith String List Floats.SpecFloat.
From stdpp Require Import base option gmap strings list pretty.

Set Warnings "-register-all".

(** ** Errors *)

(** Modelled from the spec: the code in [RUNTIME_ERRORS] (errors/types) of the
    "configuration file not found" error, the one code the resolver raises. *)
Inductive RUNTIME_ERRORS := cannotFindTestcafeConfigurationFile.

(** What a [throw] (or a rejected promise) carries: a [GeneralError]
    (errors/runtime) made of a code and the argument of its message, the
    [TypeError] of the language, or whatever a collaborator throws, which
    the resolver never inspects. *)
Inductive Error :=
| GeneralError (code : RUNTIME_ERRORS) (arg : string)
| TypeError
| ExternalError (origin : string) (detail : string).

(** The completion of a call: a normal result or a thrown error. *)
Inductive Completion (A : Type) :=
| Normal (x : A)
| Throw (e : Error).
Arguments Normal {A} x.
Arguments Throw {A} e.

(** ** JavaScript values and built-ins *)
Module JS.

Inductive ObjectClass :=
| PlainObject
| FunctionObject (id : nat)
| ClassInstance (ctor : string).

(** A number is an IEEE 754 double ([spec_float] keeps NaN, both zeros and
    the infinities apart).  Objects and arrays carry their own enumerable
    string-keyed properties; an array carries its elements as well. *)
Inductive JsValue :=
| VUndefined
| VNull
| VBool (b : bool)
| VNumber (x : spec_float)
| VBigInt (n : Z)
| VString (s : string)
| VSymbol (id : nat)
| VObject (cls : ObjectClass) (props : gmap string JsValue)
| VArray (elems : list JsValue) (props : gmap string JsValue).

Definition array (elems : list JsValue) : JsValue := VArray elems ∅.
Definition object (props : gmap string JsValue) : JsValue := VObject PlainObject props.

(** ToBoolean: the falsy values are [undefined], [null], [false], [+0], [-0],
    [NaN], [0n] and the empty string. *)
Definition ToBoolean (v : JsValue) : bool :=
  match v with
  | VUndefined | VNull => false
  | VBool b => b
  | VNumber (S754_zero _) | VNumber S754_nan => false
  | VNumber _ => true
  | VBigInt n => negb (n =? 0)%Z
  | VString s => negb (String.eqb s EmptyString)
  | VSymbol _ | VObject _ _ | VArray _ _ => true
  end.

(** [!v] and [!!v]. *)
Definition not (v : JsValue) : bool := negb (ToBoolean v).
Definition notnot (v : JsValue) : bool := negb (not v).

(** [v === void 0]. *)
Definition isUndefined (v : JsValue) : bool :=
  match v with VUndefined => true | _ => false end.

(** [Array.isArray]. *)
Definition isArray (v : JsValue) : bool :=
  match v with VArray _ _ => true | _ => false end.

(** [a || b]. *)
Definition or (a b : JsValue) : JsValue := if ToBoolean a then a else b.

(** [v[key]], for a key that is neither an array index, nor [length], nor a
    member of a built-in prototype (the resolver reads [path],
    [thumbnails], [testGrep], [fixtureGrep] and [typescript]). *)
Definition Get (v : JsValue) (key : string) : Completion JsValue :=
  match v with
  | VUndefined | VNull => Throw TypeError
  | VObject _ props | VArray _ props => Normal (default VUndefined (props !! key))
  | _ => Normal VUndefined
  end.

(** [v[key] = x] in strict mode, giving the updated [v]: assigning to a
    property of a primitive, of [undefined] or of [null] throws. *)
Definition Put (v : JsValue) (key : string) (x : JsValue) : Completion JsValue :=
  match v with
  | VObject cls props => Normal (VObject cls (<[key := x]> props))
  | VArray elems props => Normal (VArray elems (<[key := x]> props))
  | _ => Throw TypeError
  end.

(** The index-keyed properties of a sequence: ["0"], ["1"], ... *)
Definition indexed (elems : list JsValue) : gmap string JsValue :=
  list_to_map (imap (fun i x => (pretty i, x)) elems).

Definition characters (s : string) : list JsValue :=
  map (fun c => VString (String c EmptyString)) (list_ascii_of_string s).

(** The own enumerable string-keyed properties [Object.assign] copies from a
    source. *)
Definition ownEnumerable (v : JsValue) : gmap string JsValue :=
  match v with
  | VObject _ props => props
  | VArray elems props => indexed elems ∪ props
  | VString s => indexed (characters s)
  | _ => ∅
  end.

(** [Object.assign(target, source)] on a fresh plain [target]: the
    properties of [source] are written over those of [target]. *)
Definition Object_assign (target : gmap string JsValue) (source : JsValue) : JsValue :=
  object (ownEnumerable source ∪ target).

(** lodash [castArray]. *)
Definition castArray (v : JsValue) : JsValue :=
  if isArray v then v else array [v].

(** lodash [flatten]: one level deep, arrays are spread and every other value
    is kept. *)
Fixpoint flatten (l : list JsValue) : list JsValue :=
  match l with
  | [] => []
  | VArray elems _ :: rest => elems ++ flatten rest
  | v :: rest => v :: flatten rest
  end.

(** A promise that has settled, with the moment at which it did. *)
Record Promise (A : Type) := settled { settledAt : nat; outcome : Completion A }.
Arguments settled {A} settledAt outcome.
Arguments settledAt {A} p.
Arguments outcome {A} p.

(** The rejection that settles first (the earliest position on a tie). *)
Fixpoint firstRejection {A} (ps : list (Promise A)) : option (nat * Error) :=
  match ps with
  | [] => None
  | p :: rest =>
      match outcome p, firstRejection rest with
      | Throw e, Some (t, e') => if (t <? settledAt p)%nat then Some (t, e') else Some (settledAt p, e)
      | Throw e, None => Some (settledAt p, e)
      | Normal _, r => r
      end
  end.

Fixpoint fulfilled {A} (ps : list (Promise A)) : list A :=
  match ps with
  | [] => []
  | p :: rest =>
      match outcome p with
      | Normal x => x :: fulfilled rest
      | Throw _ => fulfilled rest
      end
  end.

(** [Promise.all]: the values in input order, or the first rejection. *)
Definition Promise_all {A} (ps : list (Promise A)) : Completion (list A) :=
  match firstRejection ps with
  | Some (_, e) => Throw e
  | None => Normal (fulfilled ps)
  end.

End JS.
Export JS.

(** ** The option store *)

(** Modelled from the spec: the enum of configuration/option-source, which is
    not among the sources.  "[OptionSource] is an ordered enum:
    Default < Configuration-file < DirectlySet." *)
Module OptionSource.
Inductive t := Default | Configuration | DirectlySet.

Definition rank (s : t) : nat :=
  match s with Default => 0 | Configuration => 1 | DirectlySet => 2 end.
End OptionSource.

(** Modelled from the spec: the class of configuration/option, which is not
    among the sources.  "Option: { value: Any, source: OptionSource }." *)
Record Option := mkOption { value : JsValue; source : OptionSource.t }.

(** The own enumerable entries of an object, in property order: the shape in
    which a runtime option bag and a parsed configuration file are read. *)
Definition Entries : Type := list (string * JsValue).

(** Modelled from the spec: the name catalogue of configuration/option-names
    ("a fixed enumerated name catalog"), which is not among the sources.
    The source reads [this._options.browsers] where it means
    [OPTION_NAMES.browsers]: each name is taken to be its own identifier. *)
Module OPTION_NAMES.
Definition skipJsErrors := "skipJsErrors".
Definition debugMode := "debugMode".
Definition debugOnFail := "debugOnFail".
Definition skipUncaughtErrors := "skipUncaughtErrors".
Definition stopOnFirstFail := "stopOnFirstFail".
Definition takeScreenshotsOnFails := "takeScreenshotsOnFails".
Definition disablePageCaching := "disablePageCaching".
Definition disablePageReloads := "disablePageReloads".
Definition disableScreenshots := "disableScreenshots".
Definition disableMultipleWindows := "disableMultipleWindows".
Definition developmentMode := "developmentMode".
Definition retryTestPages := "retryTestPages".
Definition cache := "cache".
Definition disableHttp2 := "disableHttp2".
Definition proxyless := "proxyless".
Definition ssl := "ssl".
Definition filter := "filter".
Definition filterTestGrep := "filter.testGrep".
Definition filterFixtureGrep := "filter.fixtureGrep".
Definition src := "src".
Definition browsers := "browsers".
Definition clientScripts := "clientScripts".
Definition reporter := "reporter".
Definition screenshots := "screenshots".
Definition selectorTimeout := "selectorTimeout".
Definition assertionTimeout := "assertionTimeout".
Definition pageLoadTimeout := "pageLoadTimeout".
Definition speed := "speed".
Definition appInitDelay := "appInitDelay".
Definition concurrency := "concurrency".
Definition compilerOptions := "compilerOptions".
Definition tsConfigPath := "tsConfigPath".
End OPTION_NAMES.

(** Modelled from the spec: [CustomizableCompilers.typescript], the key of
    "the typescript entry" of the compiler options. *)
Definition CustomizableCompilers_typescript := "typescript".

Definition BASE_CONFIGURATION_FILENAME := ".testcaferc".
Definition DEFAULT_SCREENSHOTS_DIRECTORY := "screenshots".

Definition OPTION_FLAG_NAMES : list string :=
  [ OPTION_NAMES.skipJsErrors;
    OPTION_NAMES.debugMode;
    OPTION_NAMES.debugOnFail;
    OPTION_NAMES.skipUncaughtErrors;
    OPTION_NAMES.stopOnFirstFail;
    OPTION_NAMES.takeScreenshotsOnFails;
    OPTION_NAMES.disablePageCaching;
    OPTION_NAMES.disablePageReloads;
    OPTION_NAMES.disableScreenshots;
    OPTION_NAMES.disableMultipleWindows ].

Definition OPTION_INIT_FLAG_NAMES : list string :=
  [ OPTION_NAMES.developmentMode;
    OPTION_NAMES.retryTestPages;
    OPTION_NAMES.cache;
    OPTION_NAMES.disableHttp2;
    OPTION_NAMES.proxyless ].

(** The modules the resolver imports and that lie outside
    testcafe-configuration.ts: the file system and the configuration-file
    loader behind the base class, the browser provider pool, the option
    parsers, the string utilities and the default-value catalogue.  Every
    property below holds for all of them. *)
Class Collaborators := {
  (** configuration/formats *)
  CONFIGURATION_EXTENSIONS : list string;
  (** whether [stat] succeeds on a path (base [_isConfigurationFileExists]) *)
  fileExists : string -> bool;
  (** reading and parsing the file at a path; [None] when it yields nothing *)
  readConfigurationFile : string -> Completion (option Entries);
  (** browser/provider/pool *)
  browserProviderPool_getBrowserInfo : JsValue -> Promise JsValue;
  (** utils/get-options *)
  getSSLOptions : JsValue -> Completion JsValue;
  getGrepOptions : string -> JsValue -> Completion JsValue;
  (** utils/get-filter-fn *)
  getFilterFn : JsValue -> Completion JsValue;
  (** utils/prepare-reporters *)
  prepareReporters : JsValue -> Completion JsValue;
  (** utils/resolve-path-relatively-cwd *)
  resolvePathRelativelyCwd : string -> string;
  (** utils/string, utils/render-template, notifications/warning-message *)
  getConcatenatedValuesString : list string -> string;
  getPluralSuffix : list string -> string;
  renderTemplate : string -> list string -> string;
  WARNING_MESSAGES_configOptionsWereOverridden : string;
  (** configuration/default-values *)
  DEFAULT_APP_INIT_DELAY : JsValue;
  DEFAULT_CONCURRENCY_VALUE : JsValue;
  DEFAULT_SPEED_VALUE : JsValue;
  DEFAULT_TIMEOUT_selector : JsValue;
  DEFAULT_TIMEOUT_assertion : JsValue;
  DEFAULT_TIMEOUT_pageLoad : JsValue;
  DEFAULT_SOURCE_DIRECTORIES : JsValue;
  DEFAULT_DEVELOPMENT_MODE : JsValue;
  DEFAULT_RETRY_TEST_PAGES : JsValue;
  DEFAULT_DISABLE_HTTP2 : JsValue;
  DEFAULT_PROXYLESS : JsValue;
  DEFAULT_SCREENSHOT_THUMBNAILS : JsValue;
  getDefaultCompilerOptions : JsValue
}.

(** An instance of the class: the fields of the base class [Configuration],
    the one field [TestCafeConfiguration] adds, and [log], the console the
    static [_showConsoleWarning] of the base class writes to. *)
Record TestCafeConfiguration := mkConfiguration {
  _options : gmap string Option;
  _filePath : option string;
  _overriddenOptions : list string;
  _defaultPaths : list string;
  _isExplicitConfig : bool;
  log : list string
}.

Definition with_options (o : gmap string Option) (this : TestCafeConfiguration) :=
  mkConfiguration o (_filePath this) (_overriddenOptions this) (_defaultPaths this)
    (_isExplicitConfig this) (log this).

Definition with_filePath (p : option string) (this : TestCafeConfiguration) :=
  mkConfiguration (_options this) p (_overriddenOptions this) (_defaultPaths this)
    (_isExplicitConfig this) (log this).

Definition with_overriddenOptions (l : list string) (this : TestCafeConfiguration) :=
  mkConfiguration (_options this) (_filePath this) l (_defaultPaths this)
    (_isExplicitConfig this) (log this).

Definition with_log (l : list string) (this : TestCafeConfiguration) :=
  mkConfiguration (_options this) (_filePath this) (_overriddenOptions this)
    (_defaultPaths this) (_isExplicitConfig this) l.

(** ** Methods as state transformers

    A method runs on an instance and leaves it in a new state together with
    its completion.  The instance is mutated in place, so what a method did
    before it threw stays done. *)
Definition M (A : Type) : Type :=
  TestCafeConfiguration -> TestCafeConfiguration * Completion A.

Definition ret {A} (x : A) : M A := fun this => (this, Normal x).

Definition throw {A} (e : Error) : M A := fun this => (this, Throw e).

Definition bind {A B} (c : M A) (k : A -> M B) : M B :=
  fun this =>
    match c this with
    | (this', Normal x) => k x this'
    | (this', Throw e) => (this', Throw e)
    end.

(** The completion of a call that does not touch the instance; also [await]
    on a promise of a collaborator that has settled with that completion. *)
Definition await {A} (r : Completion A) : M A := fun this => (this, r).

Definition modify (f : TestCafeConfiguration -> TestCafeConfiguration) : M unit :=
  fun this => (f this, Normal tt).

Declare Scope method_scope.
Delimit Scope method_scope with method.
Notation "x <- c ;; k" := (bind c (fun x => k))
  (at level 100, c at next level, k at level 200, right associativity) : method_scope.
Notation "c ;; k" := (bind c (fun _ => k))
  (at level 100, k at level 200, right associativity) : method_scope.
Open Scope method_scope.

(** [names.forEach(name => body(name))]. *)
Fixpoint forEach {A} (l : list A) (body : A -> M unit) : M unit :=
  match l with
  | [] => ret tt
  | x :: rest => body x ;; forEach rest body
  end.

(** [option.value = v] through the reference [this._options[name]] that
    [_ensureOption] or a lookup returned: the store sees the assignment. *)
Definition assignValue (name : string) (v : JsValue) : M unit :=
  modify (fun this =>
    with_options (alter (fun o => mkOption v (source o)) name (_options this)) this).

(** ** The base class [Configuration]

    configuration-base.ts is not among the sources; the members
    [TestCafeConfiguration] inherits or calls are modelled below. *)

Section Resolver.
Context `{Collaborators}.

(** Modelled from the spec: the constructor of the base class.  The resolver
    is "created empty" and keeps the path, or the "fixed ordered list of
    conventional filenames", it was given to search. *)
Definition Configuration_new (configurationFilesNames : list string) : TestCafeConfiguration :=
  mkConfiguration ∅ (head configurationFilesNames) [] configurationFilesNames false [].

(** Modelled from the spec: base [init], "Run base initialization (sets up
    search context)"; the search context is fixed by the constructor. *)
Definition Configuration_init : M unit := ret tt.

(** Modelled from the spec: static [_fromObj], "parse into an Option Set with
    source = Configuration-file". *)
Definition _fromObj (obj : Entries) : gmap string Option :=
  fold_left (fun acc '(key, v) => <[key := mkOption v OptionSource.Configuration]> acc) obj ∅.

(** Modelled from the spec: static [_showConsoleWarning], which "emits one
    human-readable message". *)
Definition _showConsoleWarning (message : string) : M unit :=
  modify (fun this => with_log (log this ++ [message]) this).

(** Modelled from the spec: [_ensureOption], "ensure(set, name, defaultValue,
    source) -> (newSet, option)": the option of that name, created with the
    given value and source when the set has none. *)
Definition _ensureOption (name : string) (v : JsValue) (src : OptionSource.t) : M Option :=
  fun this =>
    match _options this !! name with
    | Some option => (this, Normal option)
    | None =>
        let option := mkOption v src in
        (with_options (<[name := option]> (_options this)) this, Normal option)
    end.

(** Modelled from the spec: [_ensureOptionWithValue], "Fill defaults for any
    still-unset option", each fill using the given source. *)
Definition _ensureOptionWithValue (name : string) (defaultValue : JsValue)
    (src : OptionSource.t) : M unit :=
  option <- _ensureOption name defaultValue src ;;
  if isUndefined (value option)
  then modify (fun this => with_options (<[name := mkOption defaultValue src]> (_options this)) this)
  else ret tt.

(** Modelled from the spec: [_ensureArrayOption], "if the existing value is
    not an array-like sequence, wrap it in a single-element array; if absent,
    leave unset". *)
Definition _ensureArrayOption (name : string) : M unit :=
  fun this =>
    match _options this !! name with
    | None => (this, Normal tt)
    | Some options => assignValue name (castArray (value options)) this
    end.

(** Modelled from the spec: [getOption], the store's "get(name)". *)
Definition getOption (key : string) (this : TestCafeConfiguration) : JsValue :=
  match _options this !! key with
  | Some option => value option
  | None => VUndefined
  end.

(** Modelled from the spec: a prior option that "had a value already
    explicitly established (not merely defaulted)". *)
Definition explicitlyEstablished (prior : Option) : bool :=
  match source prior with
  | OptionSource.Configuration => negb (isUndefined (value prior))
  | _ => false
  end.

(** Modelled from the spec: one key of [mergeOptions].  "For each key
    present, set the Option Set entry's value with source = DirectlySet.
    Before overwriting, if the prior source for that key was strictly lower
    precedence (Default or Configuration-file) and had a value already
    explicitly established (not merely defaulted), record the key name into
    the Override Record exactly once." *)
Definition mergeOption (this : TestCafeConfiguration) (entry : string * JsValue) : TestCafeConfiguration :=
  let '(key, v) := entry in
  let overridden :=
    match _options this !! key with
    | Some prior =>
        if (OptionSource.rank (source prior) <? OptionSource.rank OptionSource.DirectlySet)%nat
           && explicitlyEstablished prior
           && negb (bool_decide (key ∈ _overriddenOptions this))
        then _overriddenOptions this ++ [key]
        else _overriddenOptions this
    | None => _overriddenOptions this
    end in
  with_overriddenOptions overridden
    (with_options (<[key := mkOption v OptionSource.DirectlySet]> (_options this)) this).

(** Modelled from the spec: [mergeOptions] of the base class, over the
    entries of the runtime option bag in property order. *)
Definition mergeOptions (options : Entries) : M unit :=
  modify (fun this => fold_left mergeOption options this).

(** Modelled from the spec: base [_isConfigurationFileExists], whether a
    "file exists at that path"; the file system is a collaborator. *)
Definition Configuration_isConfigurationFileExists (filePath : string) : M bool :=
  ret (fileExists filePath).

(** ** The class [TestCafeConfiguration] *)

Definition CONFIGURATION_FILENAMES : list string :=
  map (fun ext => BASE_CONFIGURATION_FILENAME +:+ ext) CONFIGURATION_EXTENSIONS.

(** [constructor (configFile = '')]. *)
Definition new (configFile : string) : TestCafeConfiguration :=
  let this :=
    Configuration_new (if ToBoolean (VString configFile) then [configFile] else CONFIGURATION_FILENAMES) in
  mkConfiguration (_options this) (_filePath this) (_overriddenOptions this)
    (_defaultPaths this) (notnot (VString configFile)) (log this).

(** [_isConfigurationFileExists (filePath = this.filePath)]. *)
Definition _isConfigurationFileExists (filePath : string) : M bool :=
  fileExists <- Configuration_isConfigurationFileExists filePath ;;
  fun this =>
    if negb fileExists && _isExplicitConfig this
    then throw (GeneralError cannotFindTestcafeConfigurationFile filePath) this
    else ret fileExists this.

(** Modelled from the spec: the search [_load] of the base class runs.  "The
    resolver searches a fixed ordered list of conventional filenames ...;
    the first found is used."  Existence is asked of
    [_isConfigurationFileExists], the method [TestCafeConfiguration]
    overrides for that purpose. *)
Fixpoint firstExisting (paths : list string) : M (option string) :=
  match paths with
  | [] => ret None
  | filePath :: rest =>
      found <- _isConfigurationFileExists filePath ;;
      if found then ret (Some filePath) else firstExisting rest
  end.

(** Modelled from the spec: [_load], "Attempt to load configuration-file
    content"; "any failure during file load/parse propagates". *)
Definition _load : M (option Entries) :=
  fun this =>
    (found <- firstExisting (_defaultPaths this) ;;
     match found with
     | None => ret None
     | Some filePath =>
         modify (with_filePath (Some filePath)) ;;
         await (readConfigurationFile filePath)
     end) this.

(** [_prepareFlag]. *)
Definition _prepareFlag (name : string) : M unit :=
  option <- _ensureOption name VUndefined OptionSource.Configuration ;;
  assignValue name (VBool (notnot (value option))).

Definition _prepareFlags : M unit :=
  forEach OPTION_FLAG_NAMES (fun name => _prepareFlag name).

Definition _prepareInitFlags : M unit :=
  forEach OPTION_INIT_FLAG_NAMES (fun name => _prepareFlag name).

(** [_prepareFilterFn].  The grep options are written into the filter value
    in place, so the store holds them even if a later call throws. *)
Definition _prepareFilterFn : M unit :=
  filterOption <- _ensureOption OPTION_NAMES.filter VNull OptionSource.Configuration ;;
  if not (value filterOption) then ret tt else
  let filterOptionValue := value filterOption in
  testGrep <- await (Get filterOptionValue "testGrep") ;;
  filterOptionValue <-
    (if ToBoolean testGrep
     then grep <- await (getGrepOptions OPTION_NAMES.filterTestGrep testGrep) ;;
          updated <- await (Put filterOptionValue "testGrep" grep) ;;
          assignValue OPTION_NAMES.filter updated ;;
          ret updated
     else ret filterOptionValue) ;;
  fixtureGrep <- await (Get filterOptionValue "fixtureGrep") ;;
  filterOptionValue <-
    (if ToBoolean fixtureGrep
     then grep <- await (getGrepOptions OPTION_NAMES.filterFixtureGrep fixtureGrep) ;;
          updated <- await (Put filterOptionValue "fixtureGrep" grep) ;;
          assignValue OPTION_NAMES.filter updated ;;
          ret updated
     else ret filterOptionValue) ;;
  filterFn <- await (getFilterFn filterOptionValue) ;;
  assignValue OPTION_NAMES.filter filterFn.

(** [_prepareReporters]. *)
Definition _prepareReporters : M unit :=
  fun this =>
    match _options this !! OPTION_NAMES.reporter with
    | None => (this, Normal tt)
    | Some reporterOption =>
        (let optionValue := castArray (value reporterOption) in
         reporters <- await (prepareReporters optionValue) ;;
         assignValue OPTION_NAMES.reporter reporters) this
    end.

(** [_prepareSslOptions]. *)
Definition _prepareSslOptions : M unit :=
  fun this =>
    match _options this !! OPTION_NAMES.ssl with
    | None => (this, Normal tt)
    | Some sslOptions =>
        (resolved <- await (getSSLOptions (value sslOptions)) ;;
         assignValue OPTION_NAMES.ssl resolved) this
    end.

(** [_normalizeOptionsAfterLoad]. *)
Definition _normalizeOptionsAfterLoad : M unit :=
  _prepareSslOptions ;;
  _prepareInitFlags ;;
  _prepareFilterFn ;;
  _ensureArrayOption OPTION_NAMES.src ;;
  _ensureArrayOption OPTION_NAMES.browsers ;;
  _ensureArrayOption OPTION_NAMES.clientScripts ;;
  _prepareReporters.

(** [_ensureScreenshotOptions].  The two fields are assigned on the object
    the option holds. *)
Definition _ensureScreenshotOptions : M unit :=
  let path := VString (resolvePathRelativelyCwd DEFAULT_SCREENSHOTS_DIRECTORY) in
  option <- _ensureOption OPTION_NAMES.screenshots (object ∅) OptionSource.Configuration ;;
  let screenshots := value option in
  current <- await (Get screenshots "path") ;;
  screenshots <-
    (if not current
     then updated <- await (Put screenshots "path" path) ;;
          assignValue OPTION_NAMES.screenshots updated ;;
          ret updated
     else ret screenshots) ;;
  current <- await (Get screenshots "thumbnails") ;;
  if isUndefined current
  then updated <- await (Put screenshots "thumbnails" DEFAULT_SCREENSHOT_THUMBNAILS) ;;
       assignValue OPTION_NAMES.screenshots updated
  else ret tt.

(** [_setDefaultValues]. *)
Definition _setDefaultValues : M unit :=
  _ensureOptionWithValue OPTION_NAMES.selectorTimeout DEFAULT_TIMEOUT_selector OptionSource.Configuration ;;
  _ensureOptionWithValue OPTION_NAMES.assertionTimeout DEFAULT_TIMEOUT_assertion OptionSource.Configuration ;;
  _ensureOptionWithValue OPTION_NAMES.pageLoadTimeout DEFAULT_TIMEOUT_pageLoad OptionSource.Configuration ;;
  _ensureOptionWithValue OPTION_NAMES.speed DEFAULT_SPEED_VALUE OptionSource.Configuration ;;
  _ensureOptionWithValue OPTION_NAMES.appInitDelay DEFAULT_APP_INIT_DELAY OptionSource.Configuration ;;
  _ensureOptionWithValue OPTION_NAMES.concurrency DEFAULT_CONCURRENCY_VALUE OptionSource.Configuration ;;
  _ensureOptionWithValue OPTION_NAMES.src DEFAULT_SOURCE_DIRECTORIES OptionSource.Configuration ;;
  _ensureOptionWithValue OPTION_NAMES.developmentMode DEFAULT_DEVELOPMENT_MODE OptionSource.Configuration ;;
  _ensureOptionWithValue OPTION_NAMES.retryTestPages DEFAULT_RETRY_TEST_PAGES OptionSource.Configuration ;;
  _ensureOptionWithValue OPTION_NAMES.disableHttp2 DEFAULT_DISABLE_HTTP2 OptionSource.Configuration ;;
  _ensureOptionWithValue OPTION_NAMES.proxyless DEFAULT_PROXYLESS OptionSource.Configuration ;;
  _ensureScreenshotOptions.

(** [_prepareCompilerOptions]. *)
Definition _prepareCompilerOptions : M unit :=
  compilerOptions <- _ensureOption OPTION_NAMES.compilerOptions getDefaultCompilerOptions
                       OptionSource.Configuration ;;
  let compilerOptionValue := or (value compilerOptions) getDefaultCompilerOptions in
  assignValue OPTION_NAMES.compilerOptions compilerOptionValue ;;
  tsConfigPath <- (fun this => ret (getOption OPTION_NAMES.tsConfigPath this) this) ;;
  if ToBoolean tsConfigPath
  then
    typeScriptCompilerOptions <- await (Get compilerOptionValue CustomizableCompilers_typescript) ;;
    let typeScriptCompilerOptions :=
      Object_assign {[ "configPath" := tsConfigPath ]} typeScriptCompilerOptions in
    updated <- await (Put compilerOptionValue CustomizableCompilers_typescript typeScriptCompilerOptions) ;;
    assignValue OPTION_NAMES.compilerOptions updated
  else ret tt.

(** [_getBrowserInfo].  Reading [this._options.browsers.value] throws when
    the option is missing. *)
Definition _getBrowserInfo : M (list JsValue) :=
  fun this =>
    match _options this !! "browsers" with
    | None => (this, Throw TypeError)
    | Some option =>
        if not (value option) then (this, Normal [])
        else
          let browsers :=
            match value option with
            | VArray elems _ => elems
            | single => [single]
            end in
          (browserInfo <-
             await (Promise_all (map (fun browser => browserProviderPool_getBrowserInfo browser) browsers)) ;;
           ret (flatten browserInfo)) this
    end.

(** [asyncMergeOptions (options?: object)]. *)
Definition asyncMergeOptions (options : option Entries) : M unit :=
  let options := default [] options in
  mergeOptions options ;;
  fun this =>
    match _options this !! "browsers" with
    | Some _ =>
        (resolved <- _getBrowserInfo ;;
         assignValue "browsers" (array resolved)) this
    | None => (this, Normal tt)
    end.

(** [init (options?: object)]. *)
Definition init (options : option Entries) : M unit :=
  Configuration_init ;;
  opts <- _load ;;
  match opts with
  | Some opts =>
      modify (with_options (_fromObj opts)) ;;
      _normalizeOptionsAfterLoad
  | None => ret tt
  end ;;
  asyncMergeOptions options.

(** [prepare]. *)
Definition prepare : M unit :=
  _prepareFlags ;;
  _setDefaultValues ;;
  _prepareCompilerOptions.

(** [notifyAboutOverriddenOptions]. *)
Definition notifyAboutOverriddenOptions : M unit :=
  fun this =>
    if (length (_overriddenOptions this) =? 0)%nat then (this, Normal tt)
    else
      (let optionsStr := getConcatenatedValuesString (_overriddenOptions this) in
       let optionsSuffix := getPluralSuffix (_overriddenOptions this) in
       _showConsoleWarning
         (renderTemplate WARNING_MESSAGES_configOptionsWereOverridden [optionsStr; optionsSuffix]) ;;
       modify (with_overriddenOptions [])) this.

End Resolver.

(** ** Vocabulary of the properties *)

(** The falsy values of JavaScript. *)
Definition falsy (v : JsValue) : Prop :=
  v = VUndefined \/ v = VNull \/ v = VBool false \/
  (exists s, v = VNumber (S754_zero s)) \/ v = VNumber S754_nan \/
  v = VBigInt 0 \/ v = VString EmptyString.

(** The specifiers a browsers value stands for: none when it is unset (or
    otherwise falsy), its elements when it is an array, itself otherwise. *)
Definition specifiers (v : JsValue) : list JsValue :=
  if ToBoolean v
  then match v with VArray elems _ => elems | single => [single] end
  else [].

(** What one resolved specifier contributes to the browser list. *)
Definition expansion (p : Promise JsValue) : list JsValue :=
  match outcome p with
  | Normal (VArray elems _) => elems
  | Normal info => [info]
  | Throw _ => []
  end.

Definition rejects (p : Promise JsValue) (e : Error) : Prop := outcome p = Throw e.

Definition fulfils (p : Promise JsValue) : Prop := exists info, outcome p = Normal info.

(** Steps run one after the other, a step that throws ending the run. *)
Definition inOrder (steps : list (M unit)) : M unit :=
  fold_right (fun step rest => bind step (fun _ => rest)) (ret tt) steps.

(** The screenshots object after the default fill. *)
Definition filledScreenshots (path thumbnails : JsValue) (props : gmap string JsValue) : gmap string JsValue :=
  let props := if ToBoolean (default VUndefined (props !! "path")) then props else <["path" := path]> props in
  if isUndefined (default VUndefined (props !! "thumbnails")) then <["thumbnails" := thumbnails]> props else props.

(** The browser list a sequence of specifiers resolves to when the pool
    rejects none of them: their expansions, in order. *)
Definition resolved `{Collaborators} (l : list JsValue) : list JsValue :=
  concat (map (fun s => expansion (browserProviderPool_getBrowserInfo s)) l).

(** The message [notifyAboutOverriddenOptions] renders for a record. *)
Definition overriddenMessage `{Collaborators} (names : list string) : string :=
  renderTemplate WARNING_MESSAGES_configOptionsWereOverridden
    [getConcatenatedValuesString names; getPluralSuffix names].

(** The part of [init] that precedes the merge of the runtime options. *)
Definition loadAndNormalize `{Collaborators} : M unit :=
  Configuration_init ;;
  opts <- _load ;;
  match opts with
  | Some opts =>
      modify (with_options (_fromObj opts)) ;;
      _normalizeOptionsAfterLoad
  | None => ret tt
  end.

(** A property of the option set that a method keeps, however it completes. *)
Definition stable {A} (I : gmap string Option -> Prop) (c : M A) : Prop :=
  forall this, I (_options this) -> I (_options (c this).1).

(** A property of the option set that no write to [key] can break. *)
Definition respects (I : gmap string Option -> Prop) (key : string) : Prop :=
  forall m o, I m -> I (<[key := o]> m).

(** A method that leaves the option of a name as it is. *)
Definition preserves {A} (name : string) (c : M A) : Prop :=
  forall this, _options (c this).1 !! name = _options this !! name.

(** A method that never throws. *)
Definition completes {A} (c : M A) : Prop :=
  forall this, exists x, (c this).2 = Normal x.

(** The options [_setDefaultValues] fills before the screenshots object. *)
Definition DEFAULTED_OPTION_NAMES : list string :=
  [ OPTION_NAMES.selectorTimeout;
    OPTION_NAMES.assertionTimeout;
    OPTION_NAMES.pageLoadTimeout;
    OPTION_NAMES.speed;
    OPTION_NAMES.appInitDelay;
    OPTION_NAMES.concurrency;
    OPTION_NAMES.src;
    OPTION_NAMES.developmentMode;
    OPTION_NAMES.retryTestPages;
    OPTION_NAMES.disableHttp2;
    OPTION_NAMES.proxyless ].

(** The array-shape step of the after-load sequence. *)
Definition ensureArrayShape : M unit :=
  inOrder [ _ensureArrayOption OPTION_NAMES.src;
            _ensureArrayOption OPTION_NAMES.browsers;
            _ensureArrayOption OPTION_NAMES.clientScripts ].

(** The after-load sequence in the words of the specification: (1) the SSL
    option, (2) the init-only flags, (3) the filter, (4) the array shape of
    src, browsers and clientScripts, (5) the reporter. *)
Definition afterLoadSequence `{Collaborators} : M unit :=
  inOrder [ _prepareSslOptions;
            inOrder (map _prepareFlag OPTION_INIT_FLAG_NAMES);
            _prepareFilterFn;
            ensureArrayShape;
            _prepareReporters ].

(** ** Sample environments *)

Definition chromeStable : JsValue :=
  object {[ "alias" := VString "chrome"; "browserName" := VString "chrome" ]}.

Definition chromeBeta : JsValue :=
  object {[ "alias" := VString "chrome"; "browserName" := VString "chrome-beta" ]}.

Definition firefoxInfo : JsValue :=
  object {[ "alias" := VString "firefox"; "browserName" := VString "firefox" ]}.

Definition cannotFindBrowser : Error := ExternalError "browserProviderPool" "cannotFindBrowser".

(** A pool in which "chrome" expands to two targets, "firefox" resolves to
    one and any other specifier is rejected. *)
Definition samplePool (browser : JsValue) : Promise JsValue :=
  match browser with
  | VString alias =>
      if String.eqb alias "chrome" then settled 2 (Normal (array [chromeStable; chromeBeta]))
      else if String.eqb alias "firefox" then settled 1 (Normal firefoxInfo)
      else settled 0 (Throw cannotFindBrowser)
  | _ => settled 0 (Throw cannotFindBrowser)
  end.

(** The collaborators over a file system holding the given configuration
    files. *)
Definition sampleCollaborators (files : list (string * Entries)) : Collaborators := {|
  CONFIGURATION_EXTENSIONS := [".js"; ".json"];
  fileExists := fun filePath => bool_decide (is_Some (list_to_map (M := gmap string Entries) files !! filePath));
  readConfigurationFile := fun filePath => Normal (list_to_map (M := gmap string Entries) files !! filePath);
  browserProviderPool_getBrowserInfo := samplePool;
  getSSLOptions := fun v =>
    if ToBoolean v then Normal (object {[ "key" := v ]})
    else Throw (ExternalError "getSSLOptions" "no certificate");
  getGrepOptions := fun _ v => Normal (VObject (ClassInstance "RegExp") {[ "source" := v ]});
  getFilterFn := fun _ => Normal (VObject (FunctionObject 0) ∅);
  prepareReporters := fun v => Normal v;
  resolvePathRelativelyCwd := fun p => "/home/user/project/" +:+ p;
  getConcatenatedValuesString := fun names => String.concat ", " names;
  getPluralSuffix := fun names => if (length names <=? 1)%nat then EmptyString else "s";
  renderTemplate := fun template args => template +:+ String.concat " " args;
  WARNING_MESSAGES_configOptionsWereOverridden := "overridden: ";
  DEFAULT_APP_INIT_DELAY := VNumber (S754_finite false 1000 0);
  DEFAULT_CONCURRENCY_VALUE := VNumber (S754_finite false 1 0);
  DEFAULT_SPEED_VALUE := VNumber (S754_finite false 1 0);
  DEFAULT_TIMEOUT_selector := VNumber (S754_finite false 10000 0);
  DEFAULT_TIMEOUT_assertion := VNumber (S754_finite false 3000 0);
  DEFAULT_TIMEOUT_pageLoad := VNumber (S754_finite false 3000 0);
  DEFAULT_SOURCE_DIRECTORIES := array [VString "tests"; VString "test"];
  DEFAULT_DEVELOPMENT_MODE := VBool false;
  DEFAULT_RETRY_TEST_PAGES := VBool false;
  DEFAULT_DISABLE_HTTP2 := VBool false;
  DEFAULT_PROXYLESS := VBool false;
  DEFAULT_SCREENSHOT_THUMBNAILS := VBool true;
  getDefaultCompilerOptions := object ∅
|}.

(** An instance holding the given options and nothing else. *)
Definition holding (options : gmap string Option) : TestCafeConfiguration :=
  mkConfiguration options None [] [] false [].

(** The given collaborators, with a grep parser that rejects the pattern
    "(" as an invalid regular expression. *)
Definition rejectingGrep (base : Collaborators) : Collaborators := {|
  CONFIGURATION_EXTENSIONS := @CONFIGURATION_EXTENSIONS base;
  fileExists := @fileExists base;
  readConfigurationFile := @readConfigurationFile base;
  browserProviderPool_getBrowserInfo := @browserProviderPool_getBrowserInfo base;
  getSSLOptions := @getSSLOptions base;
  getGrepOptions := fun name v =>
    match v with
    | VString "(" => Throw (ExternalError "getGrepOptions" name)
    | _ => @getGrepOptions base name v
    end;
  getFilterFn := @getFilterFn base;
  prepareReporters := @prepareReporters base;
  resolvePathRelativelyCwd := @resolvePathRelativelyCwd base;
  getConcatenatedValuesString := @getConcatenatedValuesString base;
  getPluralSuffix := @getPluralSuffix base;
  renderTemplate := @renderTemplate base;
  WARNING_MESSAGES_configOptionsWereOverridden := @WARNING_MESSAGES_configOptionsWereOverridden base;
  DEFAULT_APP_INIT_DELAY := @DEFAULT_APP_INIT_DELAY base;
  DEFAULT_CONCURRENCY_VALUE := @DEFAULT_CONCURRENCY_VALUE base;
  DEFAULT_SPEED_VALUE := @DEFAULT_SPEED_VALUE base;
  DEFAULT_TIMEOUT_selector := @DEFAULT_TIMEOUT_selector base;
  DEFAULT_TIMEOUT_assertion := @DEFAULT_TIMEOUT_assertion base;
  DEFAULT_TIMEOUT_pageLoad := @DEFAULT_TIMEOUT_pageLoad base;
  DEFAULT_SOURCE_DIRECTORIES := @DEFAULT_SOURCE_DIRECTORIES base;
  DEFAULT_DEVELOPMENT_MODE := @DEFAULT_DEVELOPMENT_MODE base;
  DEFAULT_RETRY_TEST_PAGES := @DEFAULT_RETRY_TEST_PAGES base;
  DEFAULT_DISABLE_HTTP2 := @DEFAULT_DISABLE_HTTP2 base;
  DEFAULT_PROXYLESS := @DEFAULT_PROXYLESS base;
  DEFAULT_SCREENSHOT_THUMBNAILS := @DEFAULT_SCREENSHOT_THUMBNAILS base;
  getDefaultCompilerOptions := @getDefaultCompilerOptions base
|}.

(** ** The start options *)

(** Modelled from the spec: the names of configuration/option-names that
    [startOptions] reads besides the ones above, each taken to be its own
    identifier. *)
Definition OPTION_NAMES_hostname := "hostname".
Definition OPTION_NAMES_port1 := "port1".
Definition OPTION_NAMES_port2 := "port2".

(** [TestCafeAdditionalStartOptions] and [TestCafeStartOptions]. *)
Module StartOptions.
Record additional := mkAdditional {
  retryTestPages : JsValue;
  ssl : JsValue;
  developmentMode : JsValue;
  cache : JsValue;
  disableHttp2 : JsValue
}.
Record t := mk {
  hostname : JsValue;
  port1 : JsValue;
  port2 : JsValue;
  options : additional
}.
End StartOptions.

(** [get startOptions]. *)
Definition startOptions (this : TestCafeConfiguration) : StartOptions.t :=
  {| StartOptions.hostname := getOption OPTION_NAMES_hostname this;
     StartOptions.port1 := getOption OPTION_NAMES_port1 this;
     StartOptions.port2 := getOption OPTION_NAMES_port2 this;
     StartOptions.options :=
       {| StartOptions.ssl := getOption OPTION_NAMES.ssl this;
          StartOptions.developmentMode := getOption OPTION_NAMES.developmentMode this;
          StartOptions.retryTestPages := getOption OPTION_NAMES.retryTestPages this;
          StartOptions.cache := getOption OPTION_NAMES.cache this;
          StartOptions.disableHttp2 := getOption OPTION_NAMES.disableHttp2 this |} |}.

(** [static get FILENAMES]. *)
Definition FILENAMES `{Collaborators} : list string := CONFIGURATION_FILENAMES.

(** ** The methods as functions of the option set

    What each step of [prepare] makes of the option set, written as a
    function of the set, to state what the methods do to it. *)

(** The value an option set holds for a name, [undefined] when it has none. *)
Definition valueOf (m : gmap string Option) (name : string) : JsValue :=
  match m !! name with
  | Some option => value option
  | None => VUndefined
  end.

(** An option set after the coercion of one flag. *)
Definition coercedFlag (m : gmap string Option) (name : string) : gmap string Option :=
  <[name := mkOption (VBool (notnot (valueOf m name)))
                     (default OptionSource.Configuration (source <$> m !! name))]> m.

(** An option set after the default fill of one option. *)
Definition filledDefault (m : gmap string Option) (entry : string * JsValue) : gmap string Option :=
  match m !! entry.1 with
  | Some option =>
      if isUndefined (value option)
      then <[entry.1 := mkOption entry.2 OptionSource.Configuration]> m
      else m
  | None => <[entry.1 := mkOption entry.2 OptionSource.Configuration]> m
  end.

(** The option a default fill leaves under the name it fills. *)
Definition defaulted (found : option Option) (d : JsValue) : Option :=
  match found with
  | Some option => if isUndefined (value option) then mkOption d OptionSource.Configuration else option
  | None => mkOption d OptionSource.Configuration
  end.

(** The options [_setDefaultValues] fills, each with its default, in the
    order of the source. *)
Definition DEFAULT_VALUES `{Collaborators} : list (string * JsValue) :=
  [ (OPTION_NAMES.selectorTimeout, DEFAULT_TIMEOUT_selector);
    (OPTION_NAMES.assertionTimeout, DEFAULT_TIMEOUT_assertion);
    (OPTION_NAMES.pageLoadTimeout, DEFAULT_TIMEOUT_pageLoad);
    (OPTION_NAMES.speed, DEFAULT_SPEED_VALUE);
    (OPTION_NAMES.appInitDelay, DEFAULT_APP_INIT_DELAY);
    (OPTION_NAMES.concurrency, DEFAULT_CONCURRENCY_VALUE);
    (OPTION_NAMES.src, DEFAULT_SOURCE_DIRECTORIES);
    (OPTION_NAMES.developmentMode, DEFAULT_DEVELOPMENT_MODE);
    (OPTION_NAMES.retryTestPages, DEFAULT_RETRY_TEST_PAGES);
    (OPTION_NAMES.disableHttp2, DEFAULT_DISABLE_HTTP2);
    (OPTION_NAMES.proxyless, DEFAULT_PROXYLESS) ].

(** A value that holds named properties: an object or an array. *)
Definition objectLike (v : JsValue) : bool :=
  match v with
  | VObject _ _ | VArray _ _ => true
  | _ => false
  end.

(** The screenshots value after [_ensureScreenshotOptions], with the
    completion of the method. *)
Definition preparedScreenshots (path thumbnails v : JsValue) : JsValue * Completion unit :=
  match Get v "path" with
  | Throw e => (v, Throw e)
  | Normal current =>
      match (if not current then Put v "path" path else Normal v) with
      | Throw e => (v, Throw e)
      | Normal v1 =>
          match Get v1 "thumbnails" with
          | Throw e => (v1, Throw e)
          | Normal current =>
              if isUndefined current
              then match Put v1 "thumbnails" thumbnails with
                   | Normal v2 => (v2, Normal tt)
                   | Throw e => (v1, Throw e)
                   end
              else (v1, Normal tt)
          end
      end
  end.

(** The compiler-options value after [_prepareCompilerOptions], with the
    completion of the method. *)
Definition preparedCompilerOptions (defaults tsConfigPath v : JsValue) : JsValue * Completion unit :=
  let v := JS.or v defaults in
  if ToBoolean tsConfigPath
  then match Get v CustomizableCompilers_typescript with
       | Throw e => (v, Throw e)
       | Normal typescript =>
           match Put v CustomizableCompilers_typescript
                   (Object_assign {[ "configPath" := tsConfigPath ]} typescript) with
           | Normal v' => (v', Normal tt)
           | Throw e => (v, Throw e)
           end
       end
  else (v, Normal tt).

(** One option rewritten by a step that may throw: the option of that name
    (or the one the step creates when there is none) with its new value. *)
Definition rewritten (name : string) (created : Option) (step : JsValue -> JsValue * Completion unit)
    (m : gmap string Option) : gmap string Option * Completion unit :=
  let option := default created (m !! name) in
  (<[name := mkOption (step (value option)).1 (source option)]> m, (step (value option)).2).

(** The option set after [prepare], with the completion of [prepare]. *)
Definition preparedOptions `{Collaborators} (m : gmap string Option) : gmap string Option * Completion unit :=
  let m := fold_left coercedFlag OPTION_FLAG_NAMES m in
  let m := fold_left filledDefault DEFAULT_VALUES m in
  let path := VString (resolvePathRelativelyCwd DEFAULT_SCREENSHOTS_DIRECTORY) in
  match rewritten OPTION_NAMES.screenshots (mkOption (object ∅) OptionSource.Configuration)
          (preparedScreenshots path DEFAULT_SCREENSHOT_THUMBNAILS) m with
  | (m, Throw e) => (m, Throw e)
  | (m, Normal _) =>
      rewritten OPTION_NAMES.compilerOptions (mkOption getDefaultCompilerOptions OptionSource.Configuration)
        (preparedCompilerOptions getDefaultCompilerOptions (valueOf m OPTION_NAMES.tsConfigPath)) m
  end.

(** ** The after-load normalization, step by step

    What each step of the after-load normalization makes of a loaded option
    set [loaded], as a relation with the option set [after] it is found in
    afterwards. *)

(** The filter value with the pattern under [key] replaced by what
    [getGrepOptions] compiles it to, when it has such a pattern. *)
Definition compiledGrep `{Collaborators} (name key : string) (filterOptionValue : JsValue) :
    Completion JsValue :=
  match Get filterOptionValue key with
  | Throw e => Throw e
  | Normal pattern =>
      if ToBoolean pattern
      then match getGrepOptions name pattern with
           | Normal grep => Put filterOptionValue key grep
           | Throw e => Throw e
           end
      else Normal filterOptionValue
  end.

(** The predicate of a filter value: what [getFilterFn] returns for the
    value with its test pattern and then its fixture pattern compiled. *)
Definition filterPredicate `{Collaborators} (filterOptionValue : JsValue) : Completion JsValue :=
  match compiledGrep OPTION_NAMES.filterTestGrep "testGrep" filterOptionValue with
  | Throw e => Throw e
  | Normal filterOptionValue =>
      match compiledGrep OPTION_NAMES.filterFixtureGrep "fixtureGrep" filterOptionValue with
      | Throw e => Throw e
      | Normal filterOptionValue => getFilterFn filterOptionValue
      end
  end.

(** (1) The SSL option holds what [getSSLOptions] made of the loaded
    value; there is none if none was loaded. *)
Definition sslNormalized `{Collaborators} (loaded after : gmap string Option) : Prop :=
  match loaded !! OPTION_NAMES.ssl with
  | Some sslOptions =>
      exists resolved,
        getSSLOptions (value sslOptions) = Normal resolved /\
        after !! OPTION_NAMES.ssl = Some (mkOption resolved (source sslOptions))
  | None => after !! OPTION_NAMES.ssl = None
  end.

(** The init-only flags: development mode, retry-test-pages, cache,
    disable-http2 and proxyless. *)
Definition initOnlyFlags : list string :=
  [ OPTION_NAMES.developmentMode; OPTION_NAMES.retryTestPages; OPTION_NAMES.cache;
    OPTION_NAMES.disableHttp2; OPTION_NAMES.proxyless ].

(** (2) Each init-only flag holds the boolean [!!v] of the loaded value
    [v], [false] if none was loaded. *)
Definition initFlagsCoerced (loaded after : gmap string Option) : Prop :=
  forall name, name ∈ initOnlyFlags ->
    after !! name =
      Some (mkOption (VBool (notnot (valueOf loaded name)))
                     (default OptionSource.Configuration (source <$> loaded !! name))).

(** (3) The filter option holds the predicate of the loaded filter value;
    a falsy filter value is kept, and [null] stands for a filter that was
    not loaded. *)
Definition filterNormalized `{Collaborators} (loaded after : gmap string Option) : Prop :=
  match loaded !! OPTION_NAMES.filter with
  | Some filterOption =>
      if ToBoolean (value filterOption)
      then exists filterFn,
             filterPredicate (value filterOption) = Normal filterFn /\
             after !! OPTION_NAMES.filter = Some (mkOption filterFn (source filterOption))
      else after !! OPTION_NAMES.filter = Some filterOption
  | None => after !! OPTION_NAMES.filter = Some (mkOption VNull OptionSource.Configuration)
  end.

(** The options that are given the shape of an array. *)
Definition arrayOptionNames : list string :=
  [ OPTION_NAMES.src; OPTION_NAMES.browsers; OPTION_NAMES.clientScripts ].

(** (4) Each of src, browsers and clientScripts that was loaded holds an
    array: the loaded value if it was one, the one-element array of it
    otherwise. *)
Definition arrayShaped (loaded after : gmap string Option) : Prop :=
  forall name, name ∈ arrayOptionNames ->
    after !! name =
      (fun option => mkOption (castArray (value option)) (source option)) <$> loaded !! name.

(** (5) The reporter option holds what [prepareReporters] made of the
    loaded reporters, a single one counting as the list of it; there is none
    if none was loaded. *)
Definition reporterNormalized `{Collaborators} (loaded after : gmap string Option) : Prop :=
  match loaded !! OPTION_NAMES.reporter with
  | Some reporterOption =>
      exists reporters,
        prepareReporters (castArray (value reporterOption)) = Normal reporters /\
        after !! OPTION_NAMES.reporter = Some (mkOption reporters (source reporterOption))
  | None => after !! OPTION_NAMES.reporter = None
  end.

(** The options of the given names are as they were loaded. *)
Definition asLoaded (names : list string) (loaded after : gmap string Option) : Prop :=
  forall name, name ∈ names -> after !! name = loaded !! name.

(** The names the after-load normalization writes to. *)
Definition normalizedOptionNames : list string :=
  OPTION_NAMES.ssl :: initOnlyFlags ++
  OPTION_NAMES.filter :: arrayOptionNames ++ [OPTION_NAMES.reporter].

(** ** Properties *)

(** *** JavaScript built-ins *)

Lemma notnot_ToBoolean (v : JsValue) : notnot v = ToBoolean v.
Proof. unfold notnot, not. apply negb_involutive. Qed.

Lemma notnot_VBool (b : bool) : notnot (VBool b) = b.
Proof. by destruct b. Qed.

Lemma ToBoolean_false_iff (v : JsValue) : ToBoolean v = false <-> falsy v.
Proof.
  unfold falsy. split.
  - destruct v as [| |[]|x|n|s| | |]; simpl; try discriminate; eauto 8.
    + destruct x; simpl; try discriminate; eauto 8.
    + intros Hn. apply negb_false_iff, Z.eqb_eq in Hn. subst. eauto 8.
    + intros Hs. apply negb_false_iff, String.eqb_eq in Hs. subst. eauto 8.
  - intros [->|[->|[->|[[s ->]|[->|[->| ->]]]]]]; reflexivity.
Qed.

Lemma flatten_concat (l : list JsValue) :
  flatten l = concat (map (fun v => match v with VArray elems _ => elems | _ => [v] end) l).
Proof.
  induction l as [|v l IH]; [reflexivity|].
  destruct v; simpl; rewrite IH; reflexivity.
Qed.

Lemma firstRejection_None {A} (ps : list (Promise A)) :
  firstRejection ps = None <-> Forall (fun p => exists x, outcome p = Normal x) ps.
Proof.
  induction ps as [|p ps IH]; simpl.
  - split; [constructor | reflexivity].
  - destruct (outcome p) as [x|e] eqn:Hp.
    + rewrite IH. split.
      * intros Hall. constructor; eauto.
      * intros Hall. inversion Hall; assumption.
    + split.
      * destruct (firstRejection ps) as [[t e']|]; [destruct (t <? settledAt p)%nat|]; discriminate.
      * intros Hall. inversion Hall as [|? ? [x Hx] ?]; subst. congruence.
Qed.

(** The rejection [Promise.all] reports is the rejection of one of its
    promises. *)
Lemma firstRejection_Some {A} (ps : list (Promise A)) (t : nat) (e : Error) :
  firstRejection ps = Some (t, e) -> exists p, p ∈ ps /\ outcome p = Throw e.
Proof.
  revert t e. induction ps as [|p ps IH]; simpl; [discriminate|].
  intros t e. destruct (outcome p) as [x|e0] eqn:Hp.
  - intros Hr. destruct (IH _ _ Hr) as (q & Hq & Hout).
    exists q. split; [apply elem_of_cons; by right | done].
  - destruct (firstRejection ps) as [[t' e']|] eqn:Hr.
    + destruct (t' <? settledAt p)%nat; intros [= <- <-].
      * destruct (IH _ _ eq_refl) as (q & Hq & Hout).
        exists q. split; [apply elem_of_cons; by right | done].
      * exists p. split; [apply elem_of_cons; by left | done].
    + intros [= <- <-]. exists p. split; [apply elem_of_cons; by left | done].
Qed.

Lemma firstRejection_exists {A} (ps : list (Promise A)) (p : Promise A) (e : Error) :
  p ∈ ps -> outcome p = Throw e -> is_Some (firstRejection ps).
Proof.
  intros Hin Hp. destruct (firstRejection ps) as [r|] eqn:Hr; [eauto|].
  apply firstRejection_None in Hr. rewrite Forall_forall in Hr.
  destruct (Hr p Hin) as [x Hx]. congruence.
Qed.

Lemma fulfilled_all (l : list JsValue) (f : JsValue -> Promise JsValue) :
  Forall (fun v => fulfils (f v)) l ->
  flatten (fulfilled (map f l)) = concat (map (fun v => expansion (f v)) l).
Proof.
  induction 1 as [|v l [info Hv] _ IH]; [reflexivity|].
  simpl. unfold expansion at 1. rewrite Hv.
  destruct info; simpl; rewrite IH; reflexivity.
Qed.

(** *** The instance and the method monad *)

Lemma bind_Normal {A B} (c : M A) (k : A -> M B) this this' x :
  c this = (this', Normal x) -> bind c k this = k x this'.
Proof. unfold bind. intros ->. reflexivity. Qed.

(** A call on which [c] completes normally continues with [k]. *)
Lemma bind_inv_Normal {A B} (c : M A) (k : A -> M B) this this'' y :
  bind c k this = (this'', Normal y) ->
  exists this' x, c this = (this', Normal x) /\ k x this' = (this'', Normal y).
Proof.
  unfold bind. destruct (c this) as [this' [x|e]]; [eauto | discriminate].
Qed.

(** *** Flags *)

Lemma _prepareFlag_run (name : string) (this : TestCafeConfiguration) :
  _prepareFlag name this =
    (with_options (<[name := mkOption (VBool (notnot (getOption name this)))
                               (default OptionSource.Configuration (source <$> _options this !! name))]>
                     (_options this)) this, Normal tt).
Proof.
  unfold _prepareFlag, bind, _ensureOption, assignValue, modify, getOption.
  destruct (_options this !! name) as [o|] eqn:Ho; simpl.
  - f_equal. f_equal. apply map_eq. intros k. rewrite lookup_alter, lookup_insert.
    repeat case_decide; subst; try congruence. rewrite Ho. reflexivity.
  - f_equal. destruct this; simpl in *. unfold with_options; simpl. f_equal.
    apply map_eq. intros k. rewrite lookup_alter, !lookup_insert.
    repeat case_decide; subst; try congruence; reflexivity.
Qed.

(** C7, as the code has it.  [_prepareFlag] never throws and stores the
    double negation [!!v] of the value [v] it finds (of [undefined] when the
    option is missing).  [!!v] is [false] exactly on the falsy values --
    [undefined], [null], [false], [+0], [-0], [NaN], [0n] and the empty
    string -- and [true] on every other value; a boolean is stored
    unchanged, and coercing a second time changes nothing. *)
Theorem flag_coercion_is_double_negation (name : string) (this : TestCafeConfiguration) :
  let v := getOption name this in
  let once := (_prepareFlag name this).1 in
  (_prepareFlag name this).2 = Normal tt /\
  getOption name once = VBool (notnot v) /\
  (notnot v = false <-> falsy v) /\
  (notnot v = true <-> ~ falsy v) /\
  (forall b, v = VBool b -> getOption name once = v) /\
  _prepareFlag name once = (once, Normal tt).
Proof.
  intros v once. subst once. rewrite _prepareFlag_run. simpl.
  assert (Hget : forall o m, getOption name (with_options (<[name := o]> m) this) = value o).
  { intros o m. unfold getOption. destruct this; simpl. by rewrite lookup_insert_eq. }
  repeat split.
  - apply Hget.
  - rewrite notnot_ToBoolean. apply ToBoolean_false_iff.
  - rewrite notnot_ToBoolean. apply ToBoolean_false_iff.
  - rewrite notnot_ToBoolean, <- ToBoolean_false_iff. by destruct (ToBoolean v).
  - rewrite notnot_ToBoolean, <- ToBoolean_false_iff. by destruct (ToBoolean v).
  - intros b Hb. rewrite Hget. simpl. fold v. rewrite Hb. by destruct b.
  - rewrite _prepareFlag_run. rewrite Hget. simpl. f_equal.
    destruct this; unfold with_options; simpl.
    rewrite lookup_insert_eq. simpl. rewrite insert_insert_eq.
    by rewrite notnot_VBool.
Qed.

(** C7, as stated, fails on [NaN]: it is none of [0], the empty string,
    [null] and [undefined], nor a boolean, and the flag stored for it is
    [false]. *)
Lemma flag_coercion_NaN_is_false :
  let v := VNumber S754_nan in
  let this := holding {[ OPTION_NAMES.cache := mkOption v OptionSource.Configuration ]} in
  (forall s, v <> VNumber (S754_zero s)) /\ v <> VString EmptyString /\ v <> VNull /\ v <> VUndefined /\
  (forall b, v <> VBool b) /\
  getOption OPTION_NAMES.cache this = v /\
  getOption OPTION_NAMES.cache (_prepareFlag OPTION_NAMES.cache this).1 = VBool false.
Proof. repeat split; try discriminate; intros; discriminate. Qed.

(** C7 on a cache flag the configuration file gave as the string "yes": the
    flag becomes [true], and coercing it again changes nothing. *)
Lemma flag_coercion_is_double_negation_witness :
  let this := holding {[ OPTION_NAMES.cache := mkOption (VString "yes") OptionSource.Configuration ]} in
  getOption OPTION_NAMES.cache (_prepareFlag OPTION_NAMES.cache this).1 = VBool true /\
  _prepareFlag OPTION_NAMES.cache (_prepareFlag OPTION_NAMES.cache this).1 =
    ((_prepareFlag OPTION_NAMES.cache this).1, Normal tt).
Proof.
  intros this.
  pose proof (flag_coercion_is_double_negation OPTION_NAMES.cache this) as (_ & Hv & _ & _ & _ & Hidem).
  split; [exact Hv | exact Hidem].
Defined.

(** *** The override report *)

Section OverrideReport.
Context `{Collaborators}.

(** C4.  On an empty override record [notifyAboutOverriddenOptions] does
    nothing.  On a non-empty record it writes exactly one message, rendered
    from the overridden names, and leaves the record empty.  A second call
    right after the first does nothing: draining twice is draining once. *)
Theorem notifyAboutOverriddenOptions_drains (this : TestCafeConfiguration) :
  notifyAboutOverriddenOptions this =
    match _overriddenOptions this with
    | [] => (this, Normal tt)
    | _ :: _ =>
        (with_overriddenOptions []
           (with_log (log this ++ [overriddenMessage (_overriddenOptions this)]) this), Normal tt)
    end /\
  _overriddenOptions (notifyAboutOverriddenOptions this).1 = [] /\
  notifyAboutOverriddenOptions (notifyAboutOverriddenOptions this).1 =
    ((notifyAboutOverriddenOptions this).1, Normal tt) /\
  (notifyAboutOverriddenOptions ;; notifyAboutOverriddenOptions) this =
    notifyAboutOverriddenOptions this.
Proof.
  assert (Hrun : notifyAboutOverriddenOptions this =
    match _overriddenOptions this with
    | [] => (this, Normal tt)
    | _ :: _ =>
        (with_overriddenOptions []
           (with_log (log this ++ [overriddenMessage (_overriddenOptions this)]) this), Normal tt)
    end).
  { unfold notifyAboutOverriddenOptions. destruct (_overriddenOptions this); reflexivity. }
  assert (Hempty : _overriddenOptions (notifyAboutOverriddenOptions this).1 = []).
  { rewrite Hrun. destruct (_overriddenOptions this) eqn:Hov; [exact Hov | reflexivity]. }
  assert (Hagain : notifyAboutOverriddenOptions (notifyAboutOverriddenOptions this).1 =
    ((notifyAboutOverriddenOptions this).1, Normal tt)).
  { unfold notifyAboutOverriddenOptions at 1. rewrite Hempty. reflexivity. }
  repeat split; try assumption.
  unfold bind. destruct (notifyAboutOverriddenOptions this) as [this' [[]|e]] eqn:Hfirst.
  - simpl in Hagain. exact Hagain.
  - reflexivity.
Qed.

End OverrideReport.

(** C4 on a record holding src and speed: one message, an empty record, and
    a second call that does nothing. *)
Lemma notifyAboutOverriddenOptions_drains_witness :
  let this := mkConfiguration ∅ None ["src"; "speed"] [] false [] in
  (notifyAboutOverriddenOptions (H := sampleCollaborators []) this).1 =
    mkConfiguration ∅ None [] [] false ["overridden: src, speed s"] /\
  notifyAboutOverriddenOptions (H := sampleCollaborators [])
    (notifyAboutOverriddenOptions (H := sampleCollaborators []) this).1 =
    (mkConfiguration ∅ None [] [] false ["overridden: src, speed s"], Normal tt).
Proof.
  intros this.
  pose proof (notifyAboutOverriddenOptions_drains (H := sampleCollaborators []) this)
    as (Hrun & _ & Hagain & _).
  split; [exact (f_equal fst Hrun) | exact Hagain].
Defined.

(** *** Browser resolution *)

Lemma assignValue_run (name : string) (v : JsValue) (this : TestCafeConfiguration) (o : Option) :
  _options this !! name = Some o ->
  assignValue name v this =
    (with_options (<[name := mkOption v (source o)]> (_options this)) this, Normal tt).
Proof.
  intros Ho. unfold assignValue, modify. f_equal. f_equal.
  apply map_eq. intros k. rewrite lookup_alter, lookup_insert.
  repeat case_decide; subst; try congruence. by rewrite Ho.
Qed.

Section Browsers.
Context `{Collaborators}.

Lemma _getBrowserInfo_run (this : TestCafeConfiguration) (o : Option) :
  _options this !! "browsers" = Some o ->
  _getBrowserInfo this =
    (this,
     match Promise_all (map browserProviderPool_getBrowserInfo (specifiers (value o))) with
     | Normal browserInfo => Normal (flatten browserInfo)
     | Throw e => Throw e
     end).
Proof.
  intros Ho. unfold _getBrowserInfo, specifiers, not. rewrite Ho.
  destruct (ToBoolean (value o)) eqn:Htruthy; simpl; [|reflexivity].
  unfold bind, await, ret.
  by destruct (value o); simpl;
    match goal with |- context [Promise_all ?ps] => destruct (Promise_all ps) end.
Qed.

Lemma asyncMergeOptions_run (options : option Entries) (this : TestCafeConfiguration) :
  let merged := fold_left mergeOption (default [] options) this in
  asyncMergeOptions options this =
    match _options merged !! "browsers" with
    | None => (merged, Normal tt)
    | Some o =>
        match Promise_all (map browserProviderPool_getBrowserInfo (specifiers (value o))) with
        | Normal browserInfo =>
            (with_options (<["browsers" := mkOption (array (flatten browserInfo)) (source o)]>
                             (_options merged)) merged, Normal tt)
        | Throw e => (merged, Throw e)
        end
    end.
Proof.
  intros merged. unfold asyncMergeOptions, mergeOptions, modify, bind. fold merged.
  destruct (_options merged !! "browsers") as [o|] eqn:Ho; [|reflexivity].
  rewrite (_getBrowserInfo_run _ _ Ho).
  destruct (Promise_all _); [|reflexivity].
  by apply assignValue_run.
Qed.

Lemma init_loadAndNormalize (options : option Entries) (this : TestCafeConfiguration) :
  init options this = (loadAndNormalize ;; asyncMergeOptions options) this.
Proof.
  unfold init, loadAndNormalize, bind.
  destruct (Configuration_init this) as [this1 [[]|e]]; [|reflexivity].
  destruct (_load this1) as [this2 [[opts|]|e]]; try reflexivity.
Qed.

(** C5.  On a browsers option whose specifiers all resolve,
    [_getBrowserInfo] returns one flat list: the expansions of the
    specifiers, concatenated in the order of the specifiers, so that the
    expansion of each specifier sits between the results of those before it
    and of those after it.  The specifiers of an unset (falsy) value are
    none, and the list is empty; a single specifier counts as the array
    holding it; the specifiers of an array are its elements. *)
Theorem browser_resolution_preserves_order (this : TestCafeConfiguration) (o : Option) :
  _options this !! "browsers" = Some o ->
  Forall (fun s => fulfils (browserProviderPool_getBrowserInfo s)) (specifiers (value o)) ->
  _getBrowserInfo this = (this, Normal (resolved (specifiers (value o)))) /\
  (forall before s after,
     specifiers (value o) = before ++ s :: after ->
     _getBrowserInfo this =
       (this, Normal (resolved before ++ expansion (browserProviderPool_getBrowserInfo s) ++ resolved after))) /\
  (ToBoolean (value o) = false -> _getBrowserInfo this = (this, Normal [])) /\
  (ToBoolean (value o) = true -> isArray (value o) = false ->
     _getBrowserInfo this = (this, Normal (expansion (browserProviderPool_getBrowserInfo (value o))))) /\
  (forall elems props, value o = VArray elems props ->
     _getBrowserInfo this = (this, Normal (resolved elems))).
Proof.
  intros Ho Hall.
  assert (Hrun : _getBrowserInfo this = (this, Normal (resolved (specifiers (value o))))).
  { rewrite (_getBrowserInfo_run _ _ Ho). unfold Promise_all.
    assert (Hnone : firstRejection (map browserProviderPool_getBrowserInfo (specifiers (value o))) = None).
    { apply firstRejection_None. rewrite Forall_map. exact Hall. }
    rewrite Hnone. f_equal. f_equal. by apply fulfilled_all. }
  split; [exact Hrun|]. repeat split.
  - intros before s after Hsplit. rewrite Hrun, Hsplit. unfold resolved.
    rewrite map_app, concat_app. reflexivity.
  - intros Hfalsy. rewrite Hrun. unfold specifiers. by rewrite Hfalsy.
  - intros Htruthy Hsingle. rewrite Hrun. unfold specifiers. rewrite Htruthy.
    destruct (value o); try discriminate; unfold resolved; simpl; by rewrite app_nil_r.
  - intros elems props Harray. rewrite Hrun. unfold specifiers. by rewrite Harray.
Qed.

(** C6.  When the resolution of one specifier of the merged browsers option
    is rejected, [asyncMergeOptions] throws the error with which the pool
    rejected one of the specifiers, and leaves the instance as the merge of
    the runtime options left it: the browsers option keeps the value it had,
    no list of resolved descriptors is stored.  [init] ends in that merge,
    and fails the same way. *)
Theorem browser_resolution_failure_aborts
    (options : option Entries) (this : TestCafeConfiguration) (o : Option) (s : JsValue) (e0 : Error) :
  let merged := (mergeOptions (default [] options) this).1 in
  _options merged !! "browsers" = Some o ->
  s ∈ specifiers (value o) ->
  rejects (browserProviderPool_getBrowserInfo s) e0 ->
  exists e s',
    s' ∈ specifiers (value o) /\
    rejects (browserProviderPool_getBrowserInfo s') e /\
    asyncMergeOptions options this = (merged, Throw e) /\
    _options (asyncMergeOptions options this).1 !! "browsers" = Some o /\
    (forall before, loadAndNormalize before = (this, Normal tt) ->
       init options before = (merged, Throw e)).
Proof.
  intros merged Ho Hs Hrej.
  pose proof (asyncMergeOptions_run options this) as Hrun. simpl in Hrun.
  change (fold_left mergeOption (default [] options) this) with merged in Hrun.
  rewrite Ho in Hrun. unfold Promise_all in Hrun.
  destruct (firstRejection (map browserProviderPool_getBrowserInfo (specifiers (value o))))
    as [[t e]|] eqn:Hfirst.
  - apply firstRejection_Some in Hfirst as (p & Hp & Hout).
    apply list_elem_of_fmap in Hp as (s' & -> & Hs').
    exists e, s'. repeat split; try assumption.
    + rewrite Hrun. exact Ho.
    + intros before Hload. rewrite init_loadAndNormalize.
      rewrite (bind_Normal _ _ _ _ _ Hload). exact Hrun.
  - exfalso.
    assert (Hsome : is_Some (firstRejection (map browserProviderPool_getBrowserInfo (specifiers (value o))))).
    { eapply firstRejection_exists; [|exact Hrej]. by apply list_elem_of_fmap_2. }
    rewrite Hfirst in Hsome. by destruct Hsome.
Qed.


End Browsers.

(** C5 on the browsers ["chrome", "firefox"], where "chrome" resolves to two
    descriptors and "firefox" to one: the two of chrome come first. *)
Lemma browser_resolution_preserves_order_witness :
  let this := holding {[ "browsers" := mkOption (array [VString "chrome"; VString "firefox"])
                                          OptionSource.Configuration ]} in
  _getBrowserInfo (H := sampleCollaborators []) this =
    (this, Normal [chromeStable; chromeBeta; firefoxInfo]).
Proof.
  intros this.
  refine (proj1 (browser_resolution_preserves_order (H := sampleCollaborators []) this
                   (mkOption (array [VString "chrome"; VString "firefox"]) OptionSource.Configuration)
                   _ _)).
  - vm_compute. reflexivity.
  - repeat constructor; eexists; reflexivity.
Defined.

(** C6 on the runtime browsers ["chrome", "safari"], the pool knowing no
    "safari": the call throws, and browsers keeps the two specifiers. *)
Lemma browser_resolution_failure_aborts_witness :
  let options := Some [("browsers", array [VString "chrome"; VString "safari"])] in
  let merged := holding {[ "browsers" := mkOption (array [VString "chrome"; VString "safari"])
                                            OptionSource.DirectlySet ]} in
  exists e s',
    s' ∈ [VString "chrome"; VString "safari"] /\
    rejects (samplePool s') e /\
    asyncMergeOptions (H := sampleCollaborators []) options (holding ∅) = (merged, Throw e) /\
    _options (asyncMergeOptions (H := sampleCollaborators []) options (holding ∅)).1 !! "browsers" =
      Some (mkOption (array [VString "chrome"; VString "safari"]) OptionSource.DirectlySet) /\
    (forall before, loadAndNormalize (H := sampleCollaborators []) before = (holding ∅, Normal tt) ->
       init (H := sampleCollaborators []) options before = (merged, Throw e)).
Proof.
  intros options merged.
  refine (browser_resolution_failure_aborts (H := sampleCollaborators []) options (holding ∅)
            (mkOption (array [VString "chrome"; VString "safari"]) OptionSource.DirectlySet)
            (VString "safari") cannotFindBrowser _ _ _).
  - vm_compute. reflexivity.
  - apply elem_of_cons. right. apply elem_of_cons. left. reflexivity.
  - reflexivity.
Defined.



(** *** The configuration file *)

Section ConfigurationFile.
Context `{Collaborators}.

Lemma firstExisting_none (paths : list string) (this : TestCafeConfiguration) :
  _isExplicitConfig this = false ->
  Forall (fun filePath => fileExists filePath = false) paths ->
  firstExisting paths this = (this, Normal None).
Proof.
  intros Himplicit. induction 1 as [|filePath paths Hmissing _ IH]; [reflexivity|].
  simpl. unfold bind at 1, _isConfigurationFileExists, bind, Configuration_isConfigurationFileExists, ret.
  rewrite Hmissing, Himplicit. simpl. exact IH.
Qed.

Lemma init_without_file (options : option Entries) :
  Forall (fun filePath => fileExists filePath = false) CONFIGURATION_FILENAMES ->
  init options (new EmptyString) = asyncMergeOptions options (new EmptyString).
Proof.
  intros Hmissing. unfold init, bind at 1, Configuration_init, ret.
  unfold bind at 1, _load, bind at 1.
  rewrite firstExisting_none; [reflexivity | reflexivity | exact Hmissing].
Qed.

(** C3.  A resolver constructed with an explicit path at which no file
    exists fails in [init] with [cannotFindTestcafeConfigurationFile]
    carrying that path, whatever the runtime options.  A resolver
    constructed without a path, when none of the conventional files exists,
    loads nothing and raises no such error: [init] is then the merge of the
    runtime options alone, it succeeds when there are none, and it can only
    throw what the browser pool rejected a runtime browser specifier with. *)
Theorem missing_configuration_file :
  (forall configFile options,
     configFile <> EmptyString ->
     fileExists configFile = false ->
     init options (new configFile) =
       (new configFile, Throw (GeneralError cannotFindTestcafeConfigurationFile configFile))) /\
  (Forall (fun filePath => fileExists filePath = false) CONFIGURATION_FILENAMES ->
     init None (new EmptyString) = (new EmptyString, Normal tt) /\
     (forall options, init options (new EmptyString) = asyncMergeOptions options (new EmptyString)) /\
     (forall options after e,
        init options (new EmptyString) = (after, Throw e) ->
        exists o s,
          _options after !! "browsers" = Some o /\ s ∈ specifiers (value o) /\
          rejects (browserProviderPool_getBrowserInfo s) e)).
Proof.
  split.
  - intros configFile options Hgiven Hmissing.
    assert (Htruthy : String.eqb configFile EmptyString = false) by by apply String.eqb_neq.
    unfold init, bind at 1, Configuration_init, ret.
    unfold bind at 1, _load, bind at 1. unfold new at 1. simpl. rewrite Htruthy. simpl.
    unfold bind at 1, _isConfigurationFileExists, bind, Configuration_isConfigurationFileExists, ret.
    rewrite Hmissing. unfold new, notnot, not. simpl. rewrite Htruthy. reflexivity.
  - intros Hmissing. repeat split.
    + by rewrite init_without_file.
    + intros options. by apply init_without_file.
    + intros options after e. rewrite init_without_file by done.
      rewrite asyncMergeOptions_run. simpl.
      set (merged := fold_left mergeOption (default [] options) (new EmptyString)).
      destruct (_options merged !! "browsers") as [o|] eqn:Ho; [|discriminate].
      unfold Promise_all.
      destruct (firstRejection _) as [[t e']|] eqn:Hfirst; [|discriminate].
      intros [= <- <-].
      apply firstRejection_Some in Hfirst as (p & Hp & Hout).
      apply list_elem_of_fmap in Hp as (s & -> & Hs). eauto.
Qed.

End ConfigurationFile.

(** C3 on a file system without configuration files: the explicit path
    "./nope.json" fails [init] with that path, no path at all succeeds. *)
Lemma missing_configuration_file_witness :
  init (H := sampleCollaborators []) None (new (H := sampleCollaborators []) "./nope.json") =
    (new (H := sampleCollaborators []) "./nope.json",
     Throw (GeneralError cannotFindTestcafeConfigurationFile "./nope.json")) /\
  init (H := sampleCollaborators []) None (new (H := sampleCollaborators []) EmptyString) =
    (new (H := sampleCollaborators []) EmptyString, Normal tt).
Proof.
  pose proof (missing_configuration_file (H := sampleCollaborators [])) as [Hexplicit Himplicit].
  split.
  - apply Hexplicit; [discriminate | reflexivity].
  - apply Himplicit. repeat constructor.
Defined.

(** *** What a method leaves alone *)

Lemma respects_lookup_ne (name key : string) (found : option Option) :
  name <> key -> respects (fun m => m !! name = found) key.
Proof. intros Hne m o Hm. by rewrite lookup_insert_ne. Qed.

Lemma respects_present (name key : string) :
  respects (fun m => is_Some (m !! name)) key.
Proof.
  intros m o Hm. rewrite lookup_insert. case_decide; [eauto | exact Hm].
Qed.

Lemma respects_alter I key (f : Option -> Option) (m : gmap string Option) :
  respects I key -> I m -> I (alter f key m).
Proof.
  intros HI Hm. destruct (m !! key) as [o|] eqn:Ho.
  - replace (alter f key m) with (<[key := f o]> m); [by apply HI|].
    apply map_eq. intros k. rewrite lookup_alter, lookup_insert.
    case_decide; subst; [by rewrite Ho | done].
  - replace (alter f key m) with m; [done|].
    apply map_eq. intros k. rewrite lookup_alter.
    case_decide; subst; [by rewrite Ho | done].
Qed.

Lemma stable_preserves {A} (name : string) (c : M A) :
  (forall found, stable (fun m => m !! name = found) c) -> preserves name c.
Proof. intros Hc this. by apply Hc. Qed.

Section Stability.
Context `{Collaborators}.
Context (I : gmap string Option -> Prop).

Lemma stable_ret {A} (x : A) : stable I (ret x).
Proof. by intros this. Qed.

Lemma stable_throw {A} (e : Error) : stable I (throw (A := A) e).
Proof. by intros this. Qed.

Lemma stable_await {A} (r : Completion A) : stable I (await r).
Proof. by intros this. Qed.

Lemma stable_bind {A B} (c : M A) (k : A -> M B) :
  stable I c -> (forall x, stable I (k x)) -> stable I (bind c k).
Proof.
  intros Hc Hk this Hthis. unfold bind. specialize (Hc this Hthis).
  destruct (c this) as [this' [x|e]]; [by apply Hk | exact Hc].
Qed.

Lemma stable_forEach {A} (l : list A) (body : A -> M unit) :
  Forall (fun x => stable I (body x)) l -> stable I (forEach l body).
Proof.
  induction 1 as [|x l Hx _ IH]; [apply stable_ret|].
  simpl. by apply stable_bind.
Qed.

Lemma stable_inOrder (steps : list (M unit)) :
  Forall (stable I) steps -> stable I (inOrder steps).
Proof.
  induction 1 as [|step steps Hstep _ IH]; [apply stable_ret|].
  simpl. by apply stable_bind.
Qed.

Lemma stable_assignValue (key : string) (v : JsValue) :
  respects I key -> stable I (assignValue key v).
Proof. intros HI this Hthis. destruct this; simpl in *. by apply respects_alter. Qed.

Lemma stable_ensureOption (key : string) (v : JsValue) (src : OptionSource.t) :
  respects I key -> stable I (_ensureOption key v src).
Proof.
  intros HI this Hthis. unfold _ensureOption.
  destruct (_options this !! key); [exact Hthis|].
  destruct this; simpl in *. by apply HI.
Qed.

Lemma stable_ensureOptionWithValue (key : string) (v : JsValue) (src : OptionSource.t) :
  respects I key -> stable I (_ensureOptionWithValue key v src).
Proof.
  intros HI. apply stable_bind; [by apply stable_ensureOption|].
  intros option. destruct (isUndefined (value option)); [|apply stable_ret].
  intros this Hthis. destruct this; simpl in *. by apply HI.
Qed.

Lemma stable_ensureArrayOption (key : string) :
  respects I key -> stable I (_ensureArrayOption key).
Proof.
  intros HI this Hthis. unfold _ensureArrayOption.
  destruct (_options this !! key); [|exact Hthis].
  by apply stable_assignValue.
Qed.

Lemma stable_prepareFlag (key : string) :
  respects I key -> stable I (_prepareFlag key).
Proof.
  intros HI. apply stable_bind; [by apply stable_ensureOption|].
  intros option. by apply stable_assignValue.
Qed.

Lemma stable_prepareFlags : Forall (respects I) OPTION_FLAG_NAMES -> stable I _prepareFlags.
Proof.
  intros HI. apply stable_forEach. eapply Forall_impl; [exact HI|].
  intros key. apply stable_prepareFlag.
Qed.

Lemma stable_prepareInitFlags : Forall (respects I) OPTION_INIT_FLAG_NAMES -> stable I _prepareInitFlags.
Proof.
  intros HI. apply stable_forEach. eapply Forall_impl; [exact HI|].
  intros key. apply stable_prepareFlag.
Qed.

Lemma stable_prepareSslOptions : respects I OPTION_NAMES.ssl -> stable I _prepareSslOptions.
Proof.
  intros HI this Hthis. unfold _prepareSslOptions.
  destruct (_options this !! OPTION_NAMES.ssl); [|exact Hthis].
  revert this Hthis. apply stable_bind; [apply stable_await|].
  intros resolved. by apply stable_assignValue.
Qed.

Lemma stable_prepareReporters : respects I OPTION_NAMES.reporter -> stable I _prepareReporters.
Proof.
  intros HI this Hthis. unfold _prepareReporters.
  destruct (_options this !! OPTION_NAMES.reporter); [|exact Hthis].
  revert this Hthis. apply stable_bind; [apply stable_await|].
  intros reporters. by apply stable_assignValue.
Qed.

Lemma stable_prepareFilterFn : respects I OPTION_NAMES.filter -> stable I _prepareFilterFn.
Proof.
  intros HI. unfold _prepareFilterFn.
  apply stable_bind; [by apply stable_ensureOption|]. intros filterOption.
  destruct (not (value filterOption)); [apply stable_ret|].
  repeat first
    [ apply stable_ret
    | apply stable_await
    | by apply stable_assignValue
    | apply stable_bind; [|intros ?]
    | match goal with |- stable _ (if ?b then _ else _) => destruct b end ].
Qed.

Lemma stable_ensureScreenshotOptions :
  respects I OPTION_NAMES.screenshots -> stable I _ensureScreenshotOptions.
Proof.
  intros HI. unfold _ensureScreenshotOptions.
  repeat first
    [ apply stable_ret
    | apply stable_await
    | by apply stable_assignValue
    | by apply stable_ensureOption
    | apply stable_bind; [|intros ?]
    | match goal with |- stable _ (if ?b then _ else _) => destruct b end ].
Qed.

Lemma stable_prepareCompilerOptions :
  respects I OPTION_NAMES.compilerOptions -> stable I _prepareCompilerOptions.
Proof.
  intros HI. unfold _prepareCompilerOptions.
  repeat first
    [ apply stable_ret
    | apply stable_await
    | by apply stable_assignValue
    | by apply stable_ensureOption
    | by intros this
    | apply stable_bind; [|intros ?]
    | match goal with |- stable _ (if ?b then _ else _) => destruct b end ].
Qed.

End Stability.

(** *** The after-load normalization *)

Section AfterLoad.
Context `{Collaborators}.

Lemma _prepareFilterFn_absent (this : TestCafeConfiguration) :
  _options this !! OPTION_NAMES.filter = None ->
  _prepareFilterFn this =
    (with_options (<[OPTION_NAMES.filter := mkOption VNull OptionSource.Configuration]> (_options this)) this,
     Normal tt).
Proof.
  intros Habsent. unfold _prepareFilterFn, bind, _ensureOption. by rewrite Habsent.
Qed.

Lemma _prepareFilterFn_present (this : TestCafeConfiguration) :
  is_Some (_options (_prepareFilterFn this).1 !! OPTION_NAMES.filter).
Proof.
  destruct (_options this !! OPTION_NAMES.filter) as [o|] eqn:Ho.
  - apply (stable_prepareFilterFn (fun m => is_Some (m !! OPTION_NAMES.filter))).
    + apply respects_present.
    + by rewrite Ho.
  - rewrite (_prepareFilterFn_absent _ Ho). destruct this; simpl. by rewrite lookup_insert_eq.
Qed.

Lemma before_filter_preserves :
  preserves OPTION_NAMES.filter (_prepareSslOptions ;; _prepareInitFlags).
Proof.
  apply stable_preserves. intros found. apply stable_bind.
  - apply stable_prepareSslOptions. by apply respects_lookup_ne.
  - intros _. apply stable_prepareInitFlags.
    repeat constructor; by apply respects_lookup_ne.
Qed.

Lemma after_filter_preserves :
  preserves OPTION_NAMES.filter
    (_ensureArrayOption OPTION_NAMES.src ;;
     _ensureArrayOption OPTION_NAMES.browsers ;;
     _ensureArrayOption OPTION_NAMES.clientScripts ;;
     _prepareReporters).
Proof.
  apply stable_preserves. intros found.
  repeat (apply stable_bind; [apply stable_ensureArrayOption; by apply respects_lookup_ne | intros _]).
  apply stable_prepareReporters. by apply respects_lookup_ne.
Qed.

(** C10.  When the after-load normalization has run to its end, the option
    set holds a filter option.  If the loaded set had none, the option was
    created with value [null] and source [Configuration], and the filter
    step returned at once, leaving that [null] in place. *)
Theorem filter_option_always_present (this after : TestCafeConfiguration) :
  _normalizeOptionsAfterLoad this = (after, Normal tt) ->
  is_Some (_options after !! OPTION_NAMES.filter) /\
  (_options this !! OPTION_NAMES.filter = None ->
     _options after !! OPTION_NAMES.filter = Some (mkOption VNull OptionSource.Configuration) /\
     forall reached,
       (_prepareSslOptions ;; _prepareInitFlags) this = (reached, Normal tt) ->
       _prepareFilterFn reached =
         (with_options (<[OPTION_NAMES.filter := mkOption VNull OptionSource.Configuration]>
                          (_options reached)) reached, Normal tt)).
Proof.
  intros Hrun. unfold _normalizeOptionsAfterLoad in Hrun.
  apply bind_inv_Normal in Hrun as (s1 & [] & Hssl & Hrun).
  apply bind_inv_Normal in Hrun as (s2 & [] & Hflags & Hrun).
  apply bind_inv_Normal in Hrun as (s3 & [] & Hfilter & Hrest).
  assert (Hbefore : (_prepareSslOptions ;; _prepareInitFlags) this = (s2, Normal tt)).
  { by rewrite (bind_Normal _ _ _ _ _ Hssl). }
  assert (Hs2 : _options s2 !! OPTION_NAMES.filter = _options this !! OPTION_NAMES.filter).
  { pose proof (before_filter_preserves this) as Hp. by rewrite Hbefore in Hp. }
  assert (Hafter : _options after !! OPTION_NAMES.filter = _options s3 !! OPTION_NAMES.filter).
  { pose proof (after_filter_preserves s3) as Hp. by rewrite Hrest in Hp. }
  split.
  - rewrite Hafter. pose proof (_prepareFilterFn_present s2) as Hp. by rewrite Hfilter in Hp.
  - intros Habsent. split.
    + rewrite Hafter. rewrite <- Hs2 in Habsent.
      rewrite (_prepareFilterFn_absent _ Habsent) in Hfilter.
      injection Hfilter as <-. destruct s2; simpl. by rewrite lookup_insert_eq.
    + intros reached Hreached. apply _prepareFilterFn_absent.
      pose proof (before_filter_preserves this) as Hp. rewrite Hreached in Hp.
      simpl in Hp. by rewrite Hp.
Qed.

Lemma _normalizeOptionsAfterLoad_afterLoadSequence (this : TestCafeConfiguration) :
  _normalizeOptionsAfterLoad this = afterLoadSequence this.
Proof.
  unfold _normalizeOptionsAfterLoad, afterLoadSequence, ensureArrayShape, _prepareInitFlags.
  simpl. unfold bind.
  destruct (_prepareSslOptions this) as [s1 [[]|e]]; [|reflexivity].
  destruct (_prepareFlag OPTION_NAMES.developmentMode s1) as [f1 [[]|e]]; [|reflexivity].
  destruct (_prepareFlag OPTION_NAMES.retryTestPages f1) as [f2 [[]|e]]; [|reflexivity].
  destruct (_prepareFlag OPTION_NAMES.cache f2) as [f3 [[]|e]]; [|reflexivity].
  destruct (_prepareFlag OPTION_NAMES.disableHttp2 f3) as [f4 [[]|e]]; [|reflexivity].
  destruct (_prepareFlag OPTION_NAMES.proxyless f4) as [f5 [[]|e]]; [|reflexivity].
  simpl.
  destruct (_prepareFilterFn f5) as [s3 [[]|e]]; [|reflexivity].
  destruct (_ensureArrayOption OPTION_NAMES.src s3) as [a1 [[]|e]]; [|reflexivity].
  destruct (_ensureArrayOption OPTION_NAMES.browsers a1) as [a2 [[]|e]]; [|reflexivity].
  destruct (_ensureArrayOption OPTION_NAMES.clientScripts a2) as [a3 [[]|e]]; [|reflexivity].
  simpl.
  by destruct (_prepareReporters a3) as [s5 [[]|e]].
Qed.

End AfterLoad.

(** C10 on a loaded set that only names src: the filter option is created
    with [null]. *)
Lemma filter_option_always_present_witness :
  let H := sampleCollaborators [] in
  let this := holding (_fromObj [("src", VString "tests")]) in
  _options (_normalizeOptionsAfterLoad this).1 !! OPTION_NAMES.filter =
    Some (mkOption VNull OptionSource.Configuration).
Proof.
  intros H this.
  refine (proj1 (proj2 (filter_option_always_present (H := H) this
                          (_normalizeOptionsAfterLoad this).1 _) _)).
  - vm_compute. reflexivity.
  - reflexivity.
Defined.

(** *** The preparation pass *)

Section Preparation.
Context `{Collaborators}.

Lemma bind_assoc {A B C} (c : M A) (k : A -> M B) (k' : B -> M C) (this : TestCafeConfiguration) :
  bind (bind c k) k' this = bind c (fun x => bind (k x) k') this.
Proof. unfold bind. by destruct (c this) as [this' [x|e]]. Qed.

Lemma bind_same_start {A B} (c : M A) (k : A -> M B) (this other : TestCafeConfiguration) :
  c this = c other -> bind c k this = bind c k other.
Proof. unfold bind. by intros ->. Qed.

Lemma completes_ensureOption (key : string) (v : JsValue) (src : OptionSource.t) :
  completes (_ensureOption key v src).
Proof. intros this. unfold _ensureOption. destruct (_options this !! key); eauto. Qed.

Lemma completes_bind {A B} (c : M A) (k : A -> M B) :
  completes c -> (forall x, completes (k x)) -> completes (bind c k).
Proof.
  intros Hc Hk this. unfold bind. destruct (Hc this) as [x Hx].
  destruct (c this) as [this' r]. simpl in Hx. subst r. apply Hk.
Qed.

Lemma completes_prepareFlag (key : string) : completes (_prepareFlag key).
Proof.
  apply completes_bind; [apply completes_ensureOption|]. intros option this. by exists tt.
Qed.

Lemma completes_forEach {A} (l : list A) (body : A -> M unit) :
  (forall x, completes (body x)) -> completes (forEach l body).
Proof.
  intros Hbody. induction l as [|x l IH]; [intros this; by exists tt|].
  simpl. by apply completes_bind.
Qed.

Lemma completes_ensureOptionWithValue (key : string) (v : JsValue) (src : OptionSource.t) :
  completes (_ensureOptionWithValue key v src).
Proof.
  apply completes_bind; [apply completes_ensureOption|]. intros option this.
  destruct (isUndefined (value option)); by exists tt.
Qed.

(** Past a step that never throws and keeps [I], the method goes on from a
    state in which [I] still holds. *)
Lemma bind_past {B} (I : gmap string Option -> Prop) (c : M unit) (k : unit -> M B)
    (this : TestCafeConfiguration) :
  completes c -> stable I c -> I (_options this) ->
  exists mid, I (_options mid) /\ bind c k this = k tt mid.
Proof.
  intros Hc HI Hthis. specialize (HI this Hthis). destruct (Hc this) as [[] Hx].
  unfold bind. destruct (c this) as [mid r]. simpl in *. subst r. eauto.
Qed.

(** [prepare] reaches the screenshots step, whatever the option set, with
    every property intact that the flags and the defaulted options cannot
    break. *)
Lemma prepare_reaches_screenshots (I : gmap string Option -> Prop) (this : TestCafeConfiguration) :
  Forall (respects I) OPTION_FLAG_NAMES ->
  Forall (respects I) DEFAULTED_OPTION_NAMES ->
  I (_options this) ->
  exists reached,
    I (_options reached) /\
    prepare this = (_ensureScreenshotOptions ;; _prepareCompilerOptions) reached.
Proof.
  intros Hflags Hdefaults Hthis. unfold prepare.
  destruct (bind_past I _prepareFlags (fun _ => _setDefaultValues ;; _prepareCompilerOptions) this)
    as (mid & Hmid & ->);
    [apply completes_forEach; intros; apply completes_prepareFlag
    | by apply stable_prepareFlags | done |].
  unfold _setDefaultValues.
  repeat apply Forall_cons_1 in Hdefaults as [? Hdefaults].
  repeat
    (rewrite bind_assoc;
     match goal with
     | |- exists reached, _ /\ bind ?c ?k ?st = _ =>
         let mid' := fresh "mid" in
         let Hmid' := fresh "Hmid" in
         destruct (bind_past I c k st) as (mid' & Hmid' & ->);
           [apply completes_ensureOptionWithValue
           | by apply stable_ensureOptionWithValue | done |];
         clear dependent st
     end).
  eauto.
Qed.

Lemma _ensureScreenshotOptions_object (this : TestCafeConfiguration)
    (cls : ObjectClass) (props : gmap string JsValue) (src : OptionSource.t) :
  _options this !! OPTION_NAMES.screenshots = Some (mkOption (VObject cls props) src) ->
  _ensureScreenshotOptions this =
    (with_options
       (<[OPTION_NAMES.screenshots :=
            mkOption (VObject cls (filledScreenshots
                                     (VString (resolvePathRelativelyCwd DEFAULT_SCREENSHOTS_DIRECTORY))
                                     DEFAULT_SCREENSHOT_THUMBNAILS props)) src]> (_options this)) this,
     Normal tt).
Proof.
  intros Hfound. destruct this as [options ? ? ? ? ?]. simpl in Hfound.
  unfold _ensureScreenshotOptions, filledScreenshots, bind, _ensureOption, await, ret,
    assignValue, modify, with_options, not. simpl.
  rewrite Hfound. simpl.
  destruct (ToBoolean (default VUndefined (props !! "path"))) eqn:Hpath; simpl;
    match goal with |- context [isUndefined ?x] => destruct (isUndefined x) eqn:Hthumb end; simpl;
    do 2 f_equal; apply map_eq; intros k; rewrite ?lookup_alter, lookup_insert;
    case_decide; subst; rewrite ?Hfound; done.
Qed.

Lemma _ensureScreenshotOptions_absent (this : TestCafeConfiguration) :
  _options this !! OPTION_NAMES.screenshots = None ->
  _ensureScreenshotOptions this =
    (with_options
       (<[OPTION_NAMES.screenshots :=
            mkOption (object {[ "path" := VString (resolvePathRelativelyCwd DEFAULT_SCREENSHOTS_DIRECTORY);
                                "thumbnails" := DEFAULT_SCREENSHOT_THUMBNAILS ]})
                     OptionSource.Configuration]> (_options this)) this,
     Normal tt).
Proof.
  intros Habsent.
  set (created := with_options
         (<[OPTION_NAMES.screenshots := mkOption (object ∅) OptionSource.Configuration]> (_options this)) this).
  assert (Hcreated : _options created !! OPTION_NAMES.screenshots =
            Some (mkOption (object ∅) OptionSource.Configuration)).
  { subst created. destruct this; simpl. by rewrite lookup_insert_eq. }
  assert (Hsame : _ensureScreenshotOptions this = _ensureScreenshotOptions created).
  { unfold _ensureScreenshotOptions. cbv zeta. apply bind_same_start.
    unfold _ensureOption. by rewrite Habsent, Hcreated. }
  rewrite Hsame, (_ensureScreenshotOptions_object _ _ _ _ Hcreated).
  subst created. destruct this; unfold with_options; simpl. do 2 f_equal.
  by rewrite insert_insert_eq.
Qed.

End Preparation.

Section Prepare.
Context `{Collaborators}.

Lemma respects_and (I J : gmap string Option -> Prop) (key : string) :
  respects I key -> respects J key -> respects (fun m => I m /\ J m) key.
Proof. intros HI HJ m o [Hi Hj]. split; [by apply HI | by apply HJ]. Qed.

(** Writes to the listed names leave the options of other names alone. *)
Ltac untouched_by_each :=
  repeat first [apply Forall_nil_2 | apply Forall_cons_2];
  try apply respects_and; by apply respects_lookup_ne.

(** C9, as the code has it.  After [prepare], a screenshots option that was
    unset holds a fresh object with the default path and the default
    thumbnail flag, at source [Configuration]; one that held an object holds
    that object filled in place: path is the default when the path it had
    was falsy (missing, [undefined], [null], [false], [0], [NaN] or the
    empty string) and is unchanged otherwise, thumbnails is the default when
    it was [undefined] and is unchanged otherwise, and every other field is
    unchanged. *)
Theorem screenshots_default_fill (this : TestCafeConfiguration) :
  let path := VString (resolvePathRelativelyCwd DEFAULT_SCREENSHOTS_DIRECTORY) in
  let filled := filledScreenshots path DEFAULT_SCREENSHOT_THUMBNAILS in
  match _options this !! OPTION_NAMES.screenshots with
  | None =>
      _options (prepare this).1 !! OPTION_NAMES.screenshots =
        Some (mkOption (object {[ "path" := path; "thumbnails" := DEFAULT_SCREENSHOT_THUMBNAILS ]})
                       OptionSource.Configuration)
  | Some (mkOption (VObject cls props) src) =>
      _options (prepare this).1 !! OPTION_NAMES.screenshots =
        Some (mkOption (VObject cls (filled props)) src)
  | Some _ => True
  end /\
  forall props,
    filled props !! "path" =
      (if ToBoolean (default VUndefined (props !! "path")) then props !! "path" else Some path) /\
    filled props !! "thumbnails" =
      (if isUndefined (default VUndefined (props !! "thumbnails"))
       then Some DEFAULT_SCREENSHOT_THUMBNAILS else props !! "thumbnails") /\
    (forall key, key <> "path" -> key <> "thumbnails" -> filled props !! key = props !! key).
Proof.
  intros path filled. split.
  - destruct (prepare_reaches_screenshots
                (fun m => m !! OPTION_NAMES.screenshots = _options this !! OPTION_NAMES.screenshots) this)
      as (reached & Hreached & ->);
      [untouched_by_each | untouched_by_each | done |].
    assert (Hlater : forall mid, _options (_prepareCompilerOptions mid).1 !! OPTION_NAMES.screenshots =
                                   _options mid !! OPTION_NAMES.screenshots).
    { apply stable_preserves. intros found. apply stable_prepareCompilerOptions.
      by apply respects_lookup_ne. }
    destruct (_options this !! OPTION_NAMES.screenshots) as [[[| | | | | | |cls props|] src]|] eqn:Hfound;
      try exact Logic.I.
    + rewrite (bind_Normal _ _ _ _ _ (_ensureScreenshotOptions_object _ _ _ _ Hreached)).
      rewrite Hlater. destruct reached; simpl. by rewrite lookup_insert_eq.
    + rewrite (bind_Normal _ _ _ _ _ (_ensureScreenshotOptions_absent _ Hreached)).
      rewrite Hlater. destruct reached; simpl. by rewrite lookup_insert_eq.
  - intros props. subst filled. unfold filledScreenshots. repeat split.
    + destruct (ToBoolean (default VUndefined (props !! "path"))) eqn:Hpath.
      * destruct (isUndefined _); [by rewrite lookup_insert_ne|done].
      * destruct (isUndefined _); [rewrite lookup_insert_ne by done|]; by rewrite lookup_insert_eq.
    + destruct (ToBoolean (default VUndefined (props !! "path"))) eqn:Hpath.
      * destruct (isUndefined _); [by rewrite lookup_insert_eq|done].
      * rewrite lookup_insert_ne by done.
        destruct (isUndefined _); [by rewrite lookup_insert_eq | by rewrite lookup_insert_ne].
    + intros key Hpath Hthumb.
      destruct (ToBoolean _); destruct (isUndefined _); by rewrite ?lookup_insert_ne.
Qed.

End Prepare.

(** C9 on the screenshots object { thumbnails: false }: path is filled and
    thumbnails is still [false]. *)
Lemma screenshots_default_fill_witness :
  let H := sampleCollaborators [] in
  let this := holding {[ OPTION_NAMES.screenshots :=
                mkOption (object {[ "thumbnails" := VBool false ]}) OptionSource.DirectlySet ]} in
  _options (prepare this).1 !! OPTION_NAMES.screenshots =
    Some (mkOption (object {[ "path" := VString "/home/user/project/screenshots";
                              "thumbnails" := VBool false ]}) OptionSource.DirectlySet).
Proof.
  intros H this.
  pose proof (proj1 (screenshots_default_fill (H := H) this)) as Hfill.
  vm_compute in Hfill. vm_compute. exact Hfill.
Defined.

(** C9, as stated, fails on a screenshots object whose path is defined and
    empty: the field does not keep its value, the default path replaces
    it. *)
Lemma screenshots_empty_path_is_replaced :
  let H := sampleCollaborators [] in
  let this := holding {[ OPTION_NAMES.screenshots :=
                mkOption (object {[ "path" := VString EmptyString ]}) OptionSource.DirectlySet ]} in
  Get (getOption OPTION_NAMES.screenshots this) "path" = Normal (VString EmptyString) /\
  (prepare this).2 = Normal tt /\
  Get (getOption OPTION_NAMES.screenshots (prepare this).1) "path" =
    Normal (VString "/home/user/project/screenshots").
Proof. intros H this. repeat split; vm_compute; reflexivity. Qed.

(** C1, as stated, fails on typescript options that already name a
    configPath: the pre-existing value is kept, configPath is not set from
    the external path. *)
Lemma typescript_configPath_is_not_overwritten :
  let H := sampleCollaborators [] in
  let this := holding {[ OPTION_NAMES.compilerOptions :=
                           mkOption (object {[ "typescript" := object {[ "configPath" := VString "custom.json" ]} ]})
                                    OptionSource.DirectlySet;
                         OPTION_NAMES.tsConfigPath :=
                           mkOption (VString "tsconfig.json") OptionSource.DirectlySet ]} in
  getOption OPTION_NAMES.tsConfigPath this = VString "tsconfig.json" /\
  (prepare this).2 = Normal tt /\
  match Get (getOption OPTION_NAMES.compilerOptions (prepare this).1) CustomizableCompilers_typescript with
  | Normal typescript => Get typescript "configPath"
  | Throw e => Throw e
  end = Normal (VString "custom.json").
Proof. intros H this. repeat split; vm_compute; reflexivity. Qed.

(** *** The preparation pass as a function of the option set *)

(** The names [prepare] reads past the flags and the defaults are none of
    the flags and none of the defaulted options. *)
Ltac not_a_flag_nor_defaulted :=
  unfold OPTION_FLAG_NAMES, DEFAULTED_OPTION_NAMES;
  rewrite !not_elem_of_cons; repeat split; try done; apply not_elem_of_nil.

Section PreparedOptions.
Context `{Collaborators}.

Lemma with_options_with_options (m m' : gmap string Option) (this : TestCafeConfiguration) :
  with_options m (with_options m' this) = with_options m this.
Proof. reflexivity. Qed.

Lemma with_options_same (this : TestCafeConfiguration) : with_options (_options this) this = this.
Proof. by destruct this. Qed.

Lemma _ensureOptionWithValue_run (entry : string * JsValue) (this : TestCafeConfiguration) :
  _ensureOptionWithValue entry.1 entry.2 OptionSource.Configuration this =
    (with_options (filledDefault (_options this) entry) this, Normal tt).
Proof.
  destruct entry as [name d]. simpl.
  unfold _ensureOptionWithValue, filledDefault, bind, _ensureOption, modify, ret. simpl.
  destruct (_options this !! name) as [o|] eqn:Ho; simpl.
  - destruct (isUndefined (value o)); [reflexivity|]. by rewrite with_options_same.
  - destruct (isUndefined d); [|reflexivity].
    destruct this; unfold with_options; simpl. by rewrite insert_insert_eq.
Qed.

Lemma _prepareFlag_coercedFlag (name : string) (this : TestCafeConfiguration) :
  _prepareFlag name this = (with_options (coercedFlag (_options this) name) this, Normal tt).
Proof. apply _prepareFlag_run. Qed.

Lemma forEach_prepareFlag (names : list string) (this : TestCafeConfiguration) :
  forEach names (fun name => _prepareFlag name) this =
    (with_options (fold_left coercedFlag names (_options this)) this, Normal tt).
Proof.
  revert this. induction names as [|name names IH]; intros this; simpl.
  - by rewrite with_options_same.
  - rewrite (bind_Normal _ _ _ _ _ (_prepareFlag_coercedFlag name this)).
    rewrite IH. by destruct this.
Qed.


Lemma past_default {B} (name : string) (d : JsValue) (k : unit -> M B)
    (m : gmap string Option) (this : TestCafeConfiguration) :
  bind (_ensureOptionWithValue name d OptionSource.Configuration) k (with_options m this) =
    k tt (with_options (filledDefault m (name, d)) this).
Proof.
  by rewrite (bind_Normal _ _ _ _ _ (_ensureOptionWithValue_run (name, d) (with_options m this))).
Qed.

Lemma prepare_reaches_defaults (this : TestCafeConfiguration) :
  prepare this =
    (_ensureScreenshotOptions ;; _prepareCompilerOptions)
      (with_options (fold_left filledDefault DEFAULT_VALUES
                       (fold_left coercedFlag OPTION_FLAG_NAMES (_options this))) this).
Proof.
  unfold prepare, _prepareFlags.
  rewrite (bind_Normal _ _ _ _ _ (forEach_prepareFlag OPTION_FLAG_NAMES this)).
  generalize (fold_left coercedFlag OPTION_FLAG_NAMES (_options this)). intros m.
  unfold _setDefaultValues, DEFAULT_VALUES. cbn [fold_left].
  do 11 (rewrite bind_assoc, past_default).
  reflexivity.
Qed.

(** Writing back the value an option already has changes nothing. *)
Lemma insert_same_option (m : gmap string Option) (name : string) (o : Option) :
  m !! name = Some o -> <[name := mkOption (value o) (source o)]> m = m.
Proof. intros Ho. apply insert_id. by destruct o. Qed.

Lemma alter_to_insert (m : gmap string Option) (name : string) (o : Option) (v : JsValue) :
  m !! name = Some o ->
  alter (fun o => mkOption v (source o)) name m = <[name := mkOption v (source o)]> m.
Proof.
  intros Ho. apply map_eq. intros k. rewrite lookup_alter, lookup_insert.
  case_decide; subst; [by rewrite Ho | done].
Qed.

Lemma _ensureScreenshotOptions_run (this : TestCafeConfiguration) :
  _ensureScreenshotOptions this =
    (let r := rewritten OPTION_NAMES.screenshots (mkOption (object ∅) OptionSource.Configuration)
                (preparedScreenshots (VString (resolvePathRelativelyCwd DEFAULT_SCREENSHOTS_DIRECTORY))
                   DEFAULT_SCREENSHOT_THUMBNAILS) (_options this) in
     (with_options r.1 this, r.2)).
Proof.
  destruct this as [m fp ov dp ex lg]. cbv zeta. unfold rewritten. simpl.
  destruct (m !! OPTION_NAMES.screenshots) as [[v src]|] eqn:Ho.
  - unfold _ensureScreenshotOptions, bind at 1, _ensureOption. simpl. rewrite Ho. simpl.
    unfold preparedScreenshots, bind, await, ret, assignValue, modify, with_options. simpl.
    destruct (Get v "path") as [current|e] eqn:Hpath; simpl.
    2:{ do 2 f_equal. symmetry. by apply insert_id. }
    destruct (JS.not current); simpl.
    + destruct (Put v "path" _) as [v1|e] eqn:Hput; simpl.
      2:{ do 2 f_equal. symmetry. by apply insert_id. }
      destruct (Get v1 "thumbnails") as [current'|e] eqn:Hthumb; simpl.
      2:{ do 2 f_equal. by apply (alter_to_insert _ _ _ _ Ho). }
      destruct (isUndefined current'); simpl.
      * destruct (Put v1 "thumbnails" _) as [v2|e]; simpl; do 2 f_equal.
        -- rewrite (alter_to_insert _ _ _ v1 Ho).
           erewrite alter_to_insert by apply lookup_insert_eq. simpl. apply insert_insert_eq.
        -- by apply (alter_to_insert _ _ _ _ Ho).
      * do 2 f_equal. by apply (alter_to_insert _ _ _ _ Ho).
    + destruct (Get v "thumbnails") as [current'|e] eqn:Hthumb; simpl.
      2:{ do 2 f_equal. symmetry. by apply insert_id. }
      destruct (isUndefined current'); simpl.
      * destruct (Put v "thumbnails" _) as [v2|e]; simpl; do 2 f_equal.
        -- by apply (alter_to_insert _ _ _ _ Ho).
        -- symmetry. by apply insert_id.
      * do 2 f_equal. symmetry. by apply insert_id.
  - by rewrite (_ensureScreenshotOptions_absent (mkConfiguration m fp ov dp ex lg) Ho).
Qed.


Lemma _prepareCompilerOptions_found (this : TestCafeConfiguration) (o : Option) :
  _options this !! OPTION_NAMES.compilerOptions = Some o ->
  _prepareCompilerOptions this =
    (let step := preparedCompilerOptions getDefaultCompilerOptions
                   (valueOf (_options this) OPTION_NAMES.tsConfigPath) in
     (with_options (<[OPTION_NAMES.compilerOptions := mkOption (step (value o)).1 (source o)]>
                      (_options this)) this,
      (step (value o)).2)).
Proof.
  destruct this as [m fp ov dp ex lg]. destruct o as [v src]. simpl. intros Ho.
  unfold valueOf, _prepareCompilerOptions, bind at 1, _ensureOption. simpl. rewrite Ho.
  unfold preparedCompilerOptions, bind, await, ret, assignValue, modify, with_options, getOption.
  simpl. rewrite lookup_alter_ne by done.
  destruct (ToBoolean (match m !! OPTION_NAMES.tsConfigPath with
                       | Some option => value option | None => VUndefined end)); simpl.
  - destruct (Get (JS.or v getDefaultCompilerOptions) CustomizableCompilers_typescript)
      as [typescript|e]; simpl.
    2:{ do 2 f_equal. by apply (alter_to_insert _ _ _ _ Ho). }
    destruct (Put _ _ _) as [v'|e]; simpl; do 2 f_equal.
    + rewrite (alter_to_insert _ _ _ _ Ho).
      erewrite alter_to_insert by apply lookup_insert_eq. simpl. apply insert_insert_eq.
    + by apply (alter_to_insert _ _ _ _ Ho).
  - do 2 f_equal. by apply (alter_to_insert _ _ _ _ Ho).
Qed.

Lemma _prepareCompilerOptions_run (this : TestCafeConfiguration) :
  _prepareCompilerOptions this =
    (let r := rewritten OPTION_NAMES.compilerOptions
                (mkOption getDefaultCompilerOptions OptionSource.Configuration)
                (preparedCompilerOptions getDefaultCompilerOptions
                   (valueOf (_options this) OPTION_NAMES.tsConfigPath)) (_options this) in
     (with_options r.1 this, r.2)).
Proof.
  cbv zeta. unfold rewritten. simpl.
  destruct (_options this !! OPTION_NAMES.compilerOptions) as [o|] eqn:Ho; simpl.
  - by apply _prepareCompilerOptions_found.
  - set (created := with_options
           (<[OPTION_NAMES.compilerOptions :=
                mkOption getDefaultCompilerOptions OptionSource.Configuration]> (_options this)) this).
    assert (Hcreated : _options created !! OPTION_NAMES.compilerOptions =
              Some (mkOption getDefaultCompilerOptions OptionSource.Configuration)).
    { subst created. destruct this; simpl. by rewrite lookup_insert_eq. }
    assert (Hsame : _prepareCompilerOptions this = _prepareCompilerOptions created).
    { unfold _prepareCompilerOptions. apply bind_same_start.
      unfold _ensureOption. by rewrite Ho, Hcreated. }
    assert (Hpath : valueOf (_options created) OPTION_NAMES.tsConfigPath =
                    valueOf (_options this) OPTION_NAMES.tsConfigPath).
    { subst created. unfold valueOf. destruct this; simpl. by rewrite lookup_insert_ne. }
    rewrite Hsame, (_prepareCompilerOptions_found _ _ Hcreated). cbv zeta. rewrite Hpath.
    subst created. destruct this; unfold with_options; simpl.
    by rewrite insert_insert_eq.
Qed.

(** [prepare] changes the option set and nothing else, and what it makes of
    the option set is a function of the option set alone. *)
Lemma prepare_run (this : TestCafeConfiguration) :
  prepare this = (with_options (preparedOptions (_options this)).1 this,
                  (preparedOptions (_options this)).2).
Proof.
  rewrite prepare_reaches_defaults. unfold preparedOptions.
  generalize (fold_left filledDefault DEFAULT_VALUES
                (fold_left coercedFlag OPTION_FLAG_NAMES (_options this))). intros m.
  unfold bind. rewrite _ensureScreenshotOptions_run. cbv zeta.
  destruct (rewritten OPTION_NAMES.screenshots _ _ _) as [m1 [[]|e]]; [|reflexivity].
  rewrite _prepareCompilerOptions_run. reflexivity.
Qed.


Lemma prepare_options (this : TestCafeConfiguration) :
  _options (prepare this).1 = (preparedOptions (_options this)).1.
Proof. rewrite prepare_run. generalize (preparedOptions (_options this)). by intros [m r]. Qed.

Lemma prepare_completes_as (this : TestCafeConfiguration) :
  (prepare this).2 = (preparedOptions (_options this)).2.
Proof. rewrite prepare_run. generalize (preparedOptions (_options this)). by intros [m r]. Qed.

Lemma lookup_coercedFlag (m : gmap string Option) (key name : string) :
  coercedFlag m key !! name =
    if decide (key = name)
    then Some (mkOption (VBool (notnot (valueOf m name)))
                        (default OptionSource.Configuration (source <$> m !! name)))
    else m !! name.
Proof. unfold coercedFlag. rewrite lookup_insert. by case_decide; subst. Qed.

Lemma coercedFlag_settled (m : gmap string Option) (name : string) (b : bool) (src : OptionSource.t) :
  m !! name = Some (mkOption (VBool b) src) -> coercedFlag m name = m.
Proof.
  intros Hm. unfold coercedFlag, valueOf. rewrite Hm. simpl. rewrite notnot_VBool.
  by apply insert_id.
Qed.

Lemma lookup_coercedFlags_notin (names : list string) (m : gmap string Option) (name : string) :
  name ∉ names -> fold_left coercedFlag names m !! name = m !! name.
Proof.
  revert m. induction names as [|key names IH]; intros m Hnotin; [reflexivity|].
  apply not_elem_of_cons in Hnotin as [Hne Hnotin]. simpl.
  rewrite IH by done. rewrite lookup_coercedFlag. by case_decide; subst.
Qed.

Lemma lookup_coercedFlags_in (names : list string) (m : gmap string Option) (name : string) :
  name ∈ names ->
  fold_left coercedFlag names m !! name =
    Some (mkOption (VBool (notnot (valueOf m name)))
                   (default OptionSource.Configuration (source <$> m !! name))).
Proof.
  revert m. induction names as [|key names IH]; intros m Hin; [by apply elem_of_nil in Hin|].
  simpl. destruct (decide (name ∈ names)) as [Hrest|Hrest].
  - rewrite IH by done. unfold valueOf. rewrite lookup_coercedFlag.
    case_decide; subst; [|done]. simpl. by rewrite notnot_VBool.
  - apply elem_of_cons in Hin as [->|Hin]; [|done].
    rewrite lookup_coercedFlags_notin by done. rewrite lookup_coercedFlag. by case_decide.
Qed.

Lemma coercedFlags_settled (names : list string) (m : gmap string Option) :
  Forall (fun name => exists b src, m !! name = Some (mkOption (VBool b) src)) names ->
  fold_left coercedFlag names m = m.
Proof.
  induction 1 as [|name names (b & src & Hname) _ IH]; [reflexivity|].
  simpl. by rewrite (coercedFlag_settled _ _ _ _ Hname).
Qed.

Lemma lookup_filledDefault (m : gmap string Option) (entry : string * JsValue) (name : string) :
  filledDefault m entry !! name =
    if decide (entry.1 = name) then Some (defaulted (m !! name) entry.2) else m !! name.
Proof.
  unfold filledDefault, defaulted. case_decide as Hname.
  - subst name. destruct (m !! entry.1) as [o|] eqn:Ho.
    + destruct (isUndefined (value o)); [by rewrite lookup_insert_eq | done].
    + by rewrite lookup_insert_eq.
  - destruct (m !! entry.1) as [o|]; [destruct (isUndefined (value o))|];
      by rewrite ?lookup_insert_ne.
Qed.

Lemma filledDefault_settled (m : gmap string Option) (entry : string * JsValue) (o : Option) :
  m !! entry.1 = Some o ->
  isUndefined (value o) = false \/ o = mkOption entry.2 OptionSource.Configuration ->
  filledDefault m entry = m.
Proof.
  intros Hm Ho. unfold filledDefault. rewrite Hm.
  destruct (isUndefined (value o)) eqn:Hundefined; [|done].
  destruct Ho as [? | ->]; [done|]. by apply insert_id.
Qed.

Lemma lookup_filledDefaults_notin (entries : list (string * JsValue)) (m : gmap string Option)
    (name : string) :
  name ∉ entries.*1 -> fold_left filledDefault entries m !! name = m !! name.
Proof.
  revert m. induction entries as [|entry entries IH]; intros m Hnotin; [reflexivity|].
  simpl in Hnotin. apply not_elem_of_cons in Hnotin as [Hne Hnotin]. simpl.
  rewrite IH by done. rewrite lookup_filledDefault. by case_decide; subst.
Qed.

Lemma lookup_filledDefaults_in (entries : list (string * JsValue)) (m : gmap string Option)
    (name : string) (d : JsValue) :
  NoDup entries.*1 -> (name, d) ∈ entries ->
  fold_left filledDefault entries m !! name = Some (defaulted (m !! name) d).
Proof.
  revert m. induction entries as [|entry entries IH]; intros m Hnodup Hin;
    [by apply elem_of_nil in Hin|].
  simpl in Hnodup. apply NoDup_cons in Hnodup as [Hfresh Hnodup]. simpl.
  apply elem_of_cons in Hin as [<-|Hin].
  - rewrite lookup_filledDefaults_notin by done. rewrite lookup_filledDefault. by case_decide.
  - rewrite IH by done. rewrite lookup_filledDefault. case_decide as Hname; [|done].
    exfalso. apply Hfresh. rewrite Hname. by apply (list_elem_of_fmap_2 fst _ (name, d)).
Qed.

Lemma filledDefaults_settled (entries : list (string * JsValue)) (m : gmap string Option) :
  Forall (fun entry => exists o, m !! entry.1 = Some o /\
            (isUndefined (value o) = false \/ o = mkOption entry.2 OptionSource.Configuration)) entries ->
  fold_left filledDefault entries m = m.
Proof.
  induction 1 as [|entry entries (o & Hm & Ho) _ IH]; [reflexivity|].
  simpl. by rewrite (filledDefault_settled _ _ _ Hm Ho).
Qed.

Lemma lookup_rewritten (name key : string) (created : Option)
    (step : JsValue -> JsValue * Completion unit) (m : gmap string Option) :
  (rewritten key created step m).1 !! name =
    if decide (key = name)
    then let option := default created (m !! name) in
         Some (mkOption (step (value option)).1 (source option))
    else m !! name.
Proof. unfold rewritten. simpl. rewrite lookup_insert. by case_decide; subst. Qed.


Lemma flag_names_apart (name : string) :
  name ∈ OPTION_FLAG_NAMES ->
  (name ∉ DEFAULTED_OPTION_NAMES) /\ name <> OPTION_NAMES.screenshots /\
  name <> OPTION_NAMES.compilerOptions.
Proof.
  intros Hin. unfold OPTION_FLAG_NAMES in Hin.
  repeat (apply elem_of_cons in Hin as [->|Hin]); try by apply elem_of_nil in Hin.
  all: repeat split; try done; unfold DEFAULTED_OPTION_NAMES;
    rewrite !not_elem_of_cons; repeat split; try done; apply not_elem_of_nil.
Qed.

Lemma defaulted_names_apart (name : string) :
  name ∈ DEFAULTED_OPTION_NAMES ->
  (name ∉ OPTION_FLAG_NAMES) /\ name <> OPTION_NAMES.screenshots /\
  name <> OPTION_NAMES.compilerOptions.
Proof.
  intros Hin. unfold DEFAULTED_OPTION_NAMES in Hin.
  repeat (apply elem_of_cons in Hin as [->|Hin]); try by apply elem_of_nil in Hin.
  all: repeat split; try done; unfold OPTION_FLAG_NAMES;
    rewrite !not_elem_of_cons; repeat split; try done; apply not_elem_of_nil.
Qed.

Lemma DEFAULT_VALUES_names : DEFAULT_VALUES.*1 = DEFAULTED_OPTION_NAMES.
Proof. reflexivity. Qed.

Lemma DEFAULTED_OPTION_NAMES_NoDup : NoDup DEFAULTED_OPTION_NAMES.
Proof.
  apply (bool_decide_unpack _). by vm_compute.
Qed.

Lemma preparedScreenshots_completion (path thumbnails v : JsValue) :
  (preparedScreenshots path thumbnails v).2 = if objectLike v then Normal tt else Throw TypeError.
Proof.
  unfold preparedScreenshots.
  destruct v; simpl; try reflexivity;
    destruct (JS.not _); simpl; by destruct (isUndefined _).
Qed.

Lemma preparedCompilerOptions_completion (defaults tsConfigPath v : JsValue) :
  (preparedCompilerOptions defaults tsConfigPath v).2 =
    if ToBoolean tsConfigPath && negb (objectLike (JS.or v defaults))
    then Throw TypeError else Normal tt.
Proof.
  unfold preparedCompilerOptions.
  destruct (ToBoolean tsConfigPath); [|reflexivity].
  by destruct (JS.or v defaults).
Qed.

Lemma lookup_past_flags_and_defaults (m : gmap string Option) (name : string) :
  name ∉ OPTION_FLAG_NAMES -> name ∉ DEFAULTED_OPTION_NAMES ->
  fold_left filledDefault DEFAULT_VALUES (fold_left coercedFlag OPTION_FLAG_NAMES m) !! name = m !! name.
Proof.
  intros Hflags Hdefaults.
  rewrite lookup_filledDefaults_notin by by rewrite DEFAULT_VALUES_names.
  by apply lookup_coercedFlags_notin.
Qed.

Lemma preparedOptions_unfold (m : gmap string Option) :
  let screenshots := default (mkOption (object ∅) OptionSource.Configuration)
                       (m !! OPTION_NAMES.screenshots) in
  let compilers := default (mkOption getDefaultCompilerOptions OptionSource.Configuration)
                     (m !! OPTION_NAMES.compilerOptions) in
  let filled := preparedScreenshots (VString (resolvePathRelativelyCwd DEFAULT_SCREENSHOTS_DIRECTORY))
                  DEFAULT_SCREENSHOT_THUMBNAILS (value screenshots) in
  let merged := preparedCompilerOptions getDefaultCompilerOptions (valueOf m OPTION_NAMES.tsConfigPath)
                  (value compilers) in
  let m2 := fold_left filledDefault DEFAULT_VALUES (fold_left coercedFlag OPTION_FLAG_NAMES m) in
  let m3 := <[OPTION_NAMES.screenshots := mkOption filled.1 (source screenshots)]> m2 in
  preparedOptions m =
    match filled.2 with
    | Throw e => (m3, Throw e)
    | Normal _ => (<[OPTION_NAMES.compilerOptions := mkOption merged.1 (source compilers)]> m3, merged.2)
    end.
Proof.
  cbv zeta. unfold preparedOptions, rewritten. cbv zeta.
  rewrite (lookup_past_flags_and_defaults m OPTION_NAMES.screenshots) by not_a_flag_nor_defaulted.
  destruct (preparedScreenshots _ _ _).2 as [[]|e]; [|reflexivity].
  unfold valueOf. rewrite !lookup_insert_ne by done.
  rewrite (lookup_past_flags_and_defaults m OPTION_NAMES.compilerOptions) by not_a_flag_nor_defaulted.
  by rewrite (lookup_past_flags_and_defaults m OPTION_NAMES.tsConfigPath) by not_a_flag_nor_defaulted.
Qed.

(** Past the flags and the defaults, [prepare] writes the screenshots and
    the compiler options only. *)
Lemma lookup_preparedOptions (m : gmap string Option) (name : string) :
  name <> OPTION_NAMES.screenshots ->
  name <> OPTION_NAMES.compilerOptions ->
  (preparedOptions m).1 !! name =
    fold_left filledDefault DEFAULT_VALUES (fold_left coercedFlag OPTION_FLAG_NAMES m) !! name.
Proof.
  intros Hscreenshots Hcompilers. rewrite preparedOptions_unfold. cbv zeta.
  destruct (preparedScreenshots _ _ _).2 as [[]|e]; cbn [fst];
    by rewrite !lookup_insert_ne.
Qed.

(** X1.  [prepare] makes each of the ten general flags a boolean: the
    option of each name in [OPTION_FLAG_NAMES] ends up holding [!!v] for the
    value [v] it had ([false] if there was no such option), at the source it
    had ([Configuration] if there was none), however [prepare] completes. *)
Theorem prepare_coerces_flags (this : TestCafeConfiguration) (name : string) :
  name ∈ OPTION_FLAG_NAMES ->
  _options (prepare this).1 !! name =
    Some (mkOption (VBool (notnot (getOption name this)))
                   (default OptionSource.Configuration (source <$> _options this !! name))).
Proof.
  intros Hflag. destruct (flag_names_apart _ Hflag) as (Hdefaults & Hscreenshots & Hcompilers).
  rewrite prepare_options, lookup_preparedOptions by done.
  rewrite lookup_filledDefaults_notin by by rewrite DEFAULT_VALUES_names.
  by apply lookup_coercedFlags_in.
Qed.

(** X2.  [prepare] writes options only, and only those of the ten general
    flags, of the eleven defaulted options, of the screenshots and of the
    compiler options: any other option -- cache, ssl, filter, browsers,
    reporter, hostname, ... -- is left as it is, and so are the override
    record, the log and the configuration-file path. *)
Theorem prepare_touches_only (this : TestCafeConfiguration) :
  (prepare this).1 = with_options (_options (prepare this).1) this /\
  forall name,
    name ∉ OPTION_FLAG_NAMES ->
    name ∉ DEFAULTED_OPTION_NAMES ->
    name <> OPTION_NAMES.screenshots ->
    name <> OPTION_NAMES.compilerOptions ->
    _options (prepare this).1 !! name = _options this !! name.
Proof.
  split; [rewrite prepare_run; generalize (preparedOptions (_options this)); by intros [m r]|].
  intros name Hflags Hdefaults Hscreenshots Hcompilers.
  rewrite prepare_options, lookup_preparedOptions by done.
  rewrite lookup_filledDefaults_notin by by rewrite DEFAULT_VALUES_names.
  by apply lookup_coercedFlags_notin.
Qed.

(** X3.  [prepare] fills each of the eleven defaulted options: an option
    that is missing, or whose value is [undefined], ends up holding the
    default of its name at source [Configuration]; an option with any other
    value, [null] and [false] included, is kept as it is. *)
Theorem prepare_fills_defaults (this : TestCafeConfiguration) (name : string) (d : JsValue) :
  (name, d) ∈ DEFAULT_VALUES ->
  _options (prepare this).1 !! name =
    Some (match _options this !! name with
          | Some option =>
              if isUndefined (value option) then mkOption d OptionSource.Configuration else option
          | None => mkOption d OptionSource.Configuration
          end).
Proof.
  intros Hentry.
  assert (Hname : name ∈ DEFAULTED_OPTION_NAMES).
  { rewrite <- DEFAULT_VALUES_names. by apply (list_elem_of_fmap_2 fst _ (name, d)). }
  destruct (defaulted_names_apart _ Hname) as (Hflags & Hscreenshots & Hcompilers).
  rewrite prepare_options, lookup_preparedOptions by done.
  rewrite (lookup_filledDefaults_in _ _ _ d);
    [|rewrite DEFAULT_VALUES_names; apply DEFAULTED_OPTION_NAMES_NoDup | done].
  by rewrite lookup_coercedFlags_notin.
Qed.


Lemma preparedOptions_completion (m : gmap string Option) :
  (preparedOptions m).2 =
    match (preparedScreenshots (VString (resolvePathRelativelyCwd DEFAULT_SCREENSHOTS_DIRECTORY))
             DEFAULT_SCREENSHOT_THUMBNAILS
             (value (default (mkOption (object ∅) OptionSource.Configuration)
                       (m !! OPTION_NAMES.screenshots)))).2 with
    | Throw e => Throw e
    | Normal _ =>
        (preparedCompilerOptions getDefaultCompilerOptions (valueOf m OPTION_NAMES.tsConfigPath)
           (value (default (mkOption getDefaultCompilerOptions OptionSource.Configuration)
                     (m !! OPTION_NAMES.compilerOptions)))).2
    end.
Proof.
  rewrite preparedOptions_unfold. cbv zeta.
  by destruct (preparedScreenshots _ _ _).2 as [[]|e].
Qed.

Lemma lookup_preparedOptions_compilers (m : gmap string Option) :
  (preparedOptions m).2 = Normal tt ->
  (preparedOptions m).1 !! OPTION_NAMES.compilerOptions =
    Some (mkOption
            (preparedCompilerOptions getDefaultCompilerOptions (valueOf m OPTION_NAMES.tsConfigPath)
               (value (default (mkOption getDefaultCompilerOptions OptionSource.Configuration)
                         (m !! OPTION_NAMES.compilerOptions)))).1
            (source (default (mkOption getDefaultCompilerOptions OptionSource.Configuration)
                       (m !! OPTION_NAMES.compilerOptions)))).
Proof.
  rewrite preparedOptions_unfold. cbv zeta.
  destruct (preparedScreenshots _ _ _).2 as [[]|e]; cbn [fst snd]; [|discriminate].
  intros _. by rewrite lookup_insert_eq.
Qed.

(** X4.  [prepare] can only fail with a [TypeError], and does so exactly
    when the screenshots option holds something that is neither an object
    nor an array, or when a type-config path is set and the compiler options
    (the defaults, if the option is missing or falsy) are neither an object
    nor an array. *)
Theorem prepare_completion (this : TestCafeConfiguration) :
  let screenshots := match _options this !! OPTION_NAMES.screenshots with
                     | Some option => value option
                     | None => object ∅
                     end in
  let compilers := match _options this !! OPTION_NAMES.compilerOptions with
                   | Some option => value option
                   | None => getDefaultCompilerOptions
                   end in
  (prepare this).2 =
    if objectLike screenshots &&
       (negb (ToBoolean (getOption OPTION_NAMES.tsConfigPath this)) ||
        objectLike (JS.or compilers getDefaultCompilerOptions))
    then Normal tt
    else Throw TypeError.
Proof.
  cbv zeta. rewrite prepare_completes_as, preparedOptions_completion.
  rewrite preparedScreenshots_completion, preparedCompilerOptions_completion.
  change (valueOf (_options this) OPTION_NAMES.tsConfigPath)
    with (getOption OPTION_NAMES.tsConfigPath this).
  destruct (_options this !! OPTION_NAMES.screenshots) as [screenshots|];
    destruct (_options this !! OPTION_NAMES.compilerOptions) as [compilers|]; cbn [default value];
    destruct (objectLike _); try reflexivity;
    destruct (ToBoolean (getOption OPTION_NAMES.tsConfigPath this)); try reflexivity;
    by destruct (objectLike _).
Qed.

(** X5.  Without a type-config path, [prepare] injects nothing into the
    compiler options: when it completes, a truthy compiler-options value is
    kept as it is, at its source, and a missing or falsy one is the
    defaults. *)
Theorem prepare_without_tsConfigPath (this : TestCafeConfiguration) :
  ToBoolean (getOption OPTION_NAMES.tsConfigPath this) = false ->
  (prepare this).2 = Normal tt ->
  _options (prepare this).1 !! OPTION_NAMES.compilerOptions =
    Some (match _options this !! OPTION_NAMES.compilerOptions with
          | Some option =>
              if ToBoolean (value option) then option
              else mkOption getDefaultCompilerOptions (source option)
          | None => mkOption getDefaultCompilerOptions OptionSource.Configuration
          end).
Proof.
  intros Hpath. rewrite prepare_completes_as, prepare_options. intros Hdone.
  rewrite (lookup_preparedOptions_compilers _ Hdone). f_equal.
  unfold preparedCompilerOptions.
  change (valueOf (_options this) OPTION_NAMES.tsConfigPath)
    with (getOption OPTION_NAMES.tsConfigPath this).
  rewrite Hpath. cbn [fst]. unfold JS.or.
  destruct (_options this !! OPTION_NAMES.compilerOptions) as [[v src]|];
    cbn [default from_option id value source].
  - by destruct (ToBoolean v).
  - by destruct (ToBoolean getDefaultCompilerOptions).
Qed.

Lemma or_idem (v d : JsValue) : JS.or (JS.or v d) d = JS.or v d.
Proof. unfold JS.or. destruct (ToBoolean v) eqn:Hv; [by rewrite Hv|]. by destruct (ToBoolean d). Qed.

Lemma filledScreenshots_idem (path thumbnails : JsValue) (props : gmap string JsValue) :
  filledScreenshots path thumbnails (filledScreenshots path thumbnails props) =
    filledScreenshots path thumbnails props.
Proof.
  unfold filledScreenshots.
  destruct (ToBoolean (default VUndefined (props !! "path"))) eqn:Hpath.
  - destruct (isUndefined (default VUndefined (props !! "thumbnails"))) eqn:Hthumb.
    + rewrite lookup_insert_ne, Hpath, lookup_insert_eq by done. simpl.
      destruct (isUndefined thumbnails); [apply insert_insert_eq | done].
    + by rewrite Hpath, Hthumb.
  - rewrite lookup_insert_ne by done.
    destruct (isUndefined (default VUndefined (props !! "thumbnails"))) eqn:Hthumb.
    + rewrite lookup_insert_ne, lookup_insert_eq by done. simpl.
      destruct (ToBoolean path).
      * rewrite lookup_insert_eq. simpl.
        destruct (isUndefined thumbnails); [apply insert_insert_eq | done].
      * rewrite lookup_insert_ne, lookup_insert_eq by done. simpl.
        replace (<["path" := path]> (<["thumbnails" := thumbnails]> (<["path" := path]> props)))
          with (<["thumbnails" := thumbnails]> (<["path" := path]> props)).
        2:{ symmetry. apply insert_id. by rewrite lookup_insert_ne, lookup_insert_eq. }
        destruct (isUndefined thumbnails); [apply insert_insert_eq | done].
    + rewrite lookup_insert_eq. simpl.
      destruct (ToBoolean path).
      * by rewrite lookup_insert_ne, Hthumb.
      * rewrite insert_insert_eq. by rewrite lookup_insert_ne, Hthumb.
Qed.

Lemma preparedScreenshots_VObject (path thumbnails : JsValue) (cls : ObjectClass)
    (props : gmap string JsValue) :
  preparedScreenshots path thumbnails (VObject cls props) =
    (VObject cls (filledScreenshots path thumbnails props), Normal tt).
Proof.
  unfold preparedScreenshots, filledScreenshots, JS.not. cbn [Get].
  destruct (ToBoolean (default VUndefined (props !! "path"))); cbn [negb Put Get];
    by destruct (isUndefined _).
Qed.

Lemma preparedScreenshots_VArray (path thumbnails : JsValue) (elems : list JsValue)
    (props : gmap string JsValue) :
  preparedScreenshots path thumbnails (VArray elems props) =
    (VArray elems (filledScreenshots path thumbnails props), Normal tt).
Proof.
  unfold preparedScreenshots, filledScreenshots, JS.not. cbn [Get].
  destruct (ToBoolean (default VUndefined (props !! "path"))); cbn [negb Put Get];
    by destruct (isUndefined _).
Qed.

Lemma preparedScreenshots_idem (path thumbnails v : JsValue) :
  (preparedScreenshots path thumbnails v).2 = Normal tt ->
  preparedScreenshots path thumbnails (preparedScreenshots path thumbnails v).1 =
    ((preparedScreenshots path thumbnails v).1, Normal tt).
Proof.
  rewrite preparedScreenshots_completion.
  destruct v; cbn [objectLike]; try discriminate; intros _.
  - rewrite !preparedScreenshots_VObject. cbn [fst].
    by rewrite preparedScreenshots_VObject, filledScreenshots_idem.
  - rewrite !preparedScreenshots_VArray. cbn [fst].
    by rewrite preparedScreenshots_VArray, filledScreenshots_idem.
Qed.

Lemma Object_assign_idem (target : gmap string JsValue) (v : JsValue) :
  Object_assign target (Object_assign target v) = Object_assign target v.
Proof.
  unfold Object_assign, object. cbn [ownEnumerable]. f_equal.
  apply map_eq. intros k. rewrite !lookup_union.
  by destruct (ownEnumerable v !! k), (target !! k).
Qed.

Lemma preparedCompilerOptions_idem (defaults tsConfigPath v : JsValue) :
  (preparedCompilerOptions defaults tsConfigPath v).2 = Normal tt ->
  preparedCompilerOptions defaults tsConfigPath (preparedCompilerOptions defaults tsConfigPath v).1 =
    ((preparedCompilerOptions defaults tsConfigPath v).1, Normal tt).
Proof.
  rewrite preparedCompilerOptions_completion. unfold preparedCompilerOptions. cbv zeta.
  destruct (ToBoolean tsConfigPath) eqn:Hpath; cbn [andb fst].
  - destruct (JS.or v defaults) as [| | | | | | |cls props|elems props] eqn:Hv;
      cbn [objectLike negb]; try discriminate; intros _; cbn [Get Put fst].
    + change (JS.or (VObject cls ?p) defaults) with (VObject cls p). cbn [Get Put].
      rewrite lookup_insert_eq. cbn [default from_option id].
      by rewrite Object_assign_idem, insert_insert_eq.
    + change (JS.or (VArray elems ?p) defaults) with (VArray elems p). cbn [Get Put].
      rewrite lookup_insert_eq. cbn [default from_option id].
      by rewrite Object_assign_idem, insert_insert_eq.
  - intros _. by rewrite or_idem.
Qed.

Lemma lookup_preparedOptions_flag (m : gmap string Option) (name : string) :
  name ∈ OPTION_FLAG_NAMES ->
  (preparedOptions m).1 !! name =
    Some (mkOption (VBool (notnot (valueOf m name)))
                   (default OptionSource.Configuration (source <$> m !! name))).
Proof.
  intros Hflag. destruct (flag_names_apart _ Hflag) as (Hdefaults & Hscreenshots & Hcompilers).
  rewrite lookup_preparedOptions by done.
  rewrite lookup_filledDefaults_notin by by rewrite DEFAULT_VALUES_names.
  by apply lookup_coercedFlags_in.
Qed.

Lemma lookup_preparedOptions_default (m : gmap string Option) (name : string) (d : JsValue) :
  (name, d) ∈ DEFAULT_VALUES ->
  (preparedOptions m).1 !! name = Some (defaulted (m !! name) d).
Proof.
  intros Hentry.
  assert (Hname : name ∈ DEFAULTED_OPTION_NAMES).
  { rewrite <- DEFAULT_VALUES_names. by apply (list_elem_of_fmap_2 fst _ (name, d)). }
  destruct (defaulted_names_apart _ Hname) as (Hflags & Hscreenshots & Hcompilers).
  rewrite lookup_preparedOptions by done.
  rewrite (lookup_filledDefaults_in _ _ _ d);
    [|rewrite DEFAULT_VALUES_names; apply DEFAULTED_OPTION_NAMES_NoDup | done].
  by rewrite lookup_coercedFlags_notin.
Qed.

Lemma lookup_preparedOptions_screenshots (m : gmap string Option) :
  (preparedOptions m).2 = Normal tt ->
  (preparedOptions m).1 !! OPTION_NAMES.screenshots =
    Some (mkOption
            (preparedScreenshots (VString (resolvePathRelativelyCwd DEFAULT_SCREENSHOTS_DIRECTORY))
               DEFAULT_SCREENSHOT_THUMBNAILS
               (value (default (mkOption (object ∅) OptionSource.Configuration)
                         (m !! OPTION_NAMES.screenshots)))).1
            (source (default (mkOption (object ∅) OptionSource.Configuration)
                       (m !! OPTION_NAMES.screenshots)))).
Proof.
  rewrite preparedOptions_unfold. cbv zeta.
  destruct (preparedScreenshots _ _ _).2 as [[]|e]; cbn [fst snd]; [|discriminate].
  intros _. by rewrite lookup_insert_ne, lookup_insert_eq.
Qed.

(** What [prepare] made of an option set, [prepare] leaves alone. *)
Lemma preparedOptions_idem (m : gmap string Option) :
  (preparedOptions m).2 = Normal tt ->
  preparedOptions (preparedOptions m).1 = ((preparedOptions m).1, Normal tt).
Proof.
  intros Hdone.
  pose proof (lookup_preparedOptions_screenshots m Hdone) as Hscreenshots.
  pose proof (lookup_preparedOptions_compilers m Hdone) as Hcompilers.
  assert (Hpath : valueOf (preparedOptions m).1 OPTION_NAMES.tsConfigPath =
                  valueOf m OPTION_NAMES.tsConfigPath).
  { unfold valueOf. rewrite lookup_preparedOptions by done.
    by rewrite lookup_past_flags_and_defaults by not_a_flag_nor_defaulted. }
  assert (Hflags : fold_left coercedFlag OPTION_FLAG_NAMES (preparedOptions m).1 = (preparedOptions m).1).
  { apply coercedFlags_settled, Forall_forall. intros name Hname.
    rewrite (lookup_preparedOptions_flag _ _ Hname). eauto. }
  assert (Hdefaults : fold_left filledDefault DEFAULT_VALUES (preparedOptions m).1 = (preparedOptions m).1).
  { apply filledDefaults_settled, Forall_forall. intros [name d] Hentry.
    rewrite (lookup_preparedOptions_default _ _ _ Hentry). eexists. split; [reflexivity|].
    unfold defaulted. cbn [snd].
    destruct (m !! name) as [o|]; [|by right].
    destruct (isUndefined (value o)) eqn:Hundefined; [by right | by left]. }
  rewrite preparedOptions_completion in Hdone.
  destruct (preparedScreenshots _ _ _).2 as [[]|e] eqn:Hfilled; [|discriminate].
  rewrite (preparedOptions_unfold (preparedOptions m).1). cbv zeta.
  rewrite Hflags, Hdefaults, Hscreenshots, Hcompilers, Hpath. cbn [default from_option id value source].
  rewrite (preparedScreenshots_idem _ _ _ Hfilled), (preparedCompilerOptions_idem _ _ _ Hdone).
  cbn [fst snd].
  rewrite (insert_id _ _ _ Hscreenshots). by rewrite (insert_id _ _ _ Hcompilers).
Qed.

(** X6.  [prepare] is idempotent: when it completes, preparing again
    completes and changes nothing. *)
Theorem prepare_idempotent (this : TestCafeConfiguration) :
  (prepare this).2 = Normal tt ->
  prepare (prepare this).1 = ((prepare this).1, Normal tt).
Proof.
  rewrite prepare_completes_as. intros Hdone.
  pose proof (preparedOptions_idem _ Hdone) as Hidem.
  rewrite <- prepare_options in Hidem.
  generalize dependent (prepare this).1. intros prepared Hidem.
  rewrite (prepare_run prepared), Hidem. cbn [fst snd].
  by rewrite with_options_same.
Qed.

End PreparedOptions.

(** *** More on the after-load normalization *)

Section Normalization.
Context `{Collaborators}.

(** Assigning a value creates no option. *)
Lemma stable_absent_assignValue (name key : string) (v : JsValue) :
  stable (fun m => m !! name = None) (assignValue key v).
Proof.
  intros this Habsent. destruct this; simpl in *. rewrite lookup_alter.
  case_decide; subst; by rewrite Habsent.
Qed.

Lemma stable_absent_prepareSslOptions (name : string) :
  stable (fun m => m !! name = None) _prepareSslOptions.
Proof.
  intros this Habsent. unfold _prepareSslOptions.
  destruct (_options this !! OPTION_NAMES.ssl); [|exact Habsent].
  revert this Habsent. apply (stable_bind (fun m => m !! name = None)); [apply stable_await|].
  intros resolved. apply stable_absent_assignValue.
Qed.

Lemma stable_absent_prepareReporters (name : string) :
  stable (fun m => m !! name = None) _prepareReporters.
Proof.
  intros this Habsent. unfold _prepareReporters.
  destruct (_options this !! OPTION_NAMES.reporter); [|exact Habsent].
  revert this Habsent. apply (stable_bind (fun m => m !! name = None)); [apply stable_await|].
  intros reporters. apply stable_absent_assignValue.
Qed.

Lemma stable_absent_ensureArrayOption (name key : string) :
  stable (fun m => m !! name = None) (_ensureArrayOption key).
Proof.
  intros this Habsent. unfold _ensureArrayOption.
  destruct (_options this !! key); [|exact Habsent].
  by apply stable_absent_assignValue.
Qed.

(** The steps of the normalization that follow the init-only flags. *)
Lemma past_init_flags_stable (I : gmap string Option -> Prop) :
  respects I OPTION_NAMES.filter ->
  respects I OPTION_NAMES.src ->
  respects I OPTION_NAMES.browsers ->
  respects I OPTION_NAMES.clientScripts ->
  respects I OPTION_NAMES.reporter ->
  stable I (_prepareFilterFn ;;
            _ensureArrayOption OPTION_NAMES.src ;;
            _ensureArrayOption OPTION_NAMES.browsers ;;
            _ensureArrayOption OPTION_NAMES.clientScripts ;;
            _prepareReporters).
Proof.
  intros Hfilter Hsrc Hbrowsers Hscripts Hreporter.
  apply stable_bind; [by apply stable_prepareFilterFn | intros _].
  apply stable_bind; [by apply stable_ensureArrayOption | intros _].
  apply stable_bind; [by apply stable_ensureArrayOption | intros _].
  apply stable_bind; [by apply stable_ensureArrayOption | intros _].
  by apply stable_prepareReporters.
Qed.

Lemma init_flag_names_apart (name : string) :
  name ∈ OPTION_INIT_FLAG_NAMES ->
  name <> OPTION_NAMES.ssl /\ name <> OPTION_NAMES.filter /\ name <> OPTION_NAMES.src /\
  name <> OPTION_NAMES.browsers /\ name <> OPTION_NAMES.clientScripts /\
  name <> OPTION_NAMES.reporter.
Proof.
  intros Hin. unfold OPTION_INIT_FLAG_NAMES in Hin.
  repeat (apply elem_of_cons in Hin as [->|Hin]); try by apply elem_of_nil in Hin.
  all: by repeat split.
Qed.

(** Past the SSL step, the normalization leaves each init-only flag a
    boolean. *)
Lemma lookup_normalized_init_flag (this : TestCafeConfiguration) (name : string) :
  (_prepareSslOptions this).2 = Normal tt ->
  name ∈ OPTION_INIT_FLAG_NAMES ->
  _options (_normalizeOptionsAfterLoad this).1 !! name =
    Some (mkOption (VBool (notnot (getOption name this)))
                   (default OptionSource.Configuration (source <$> _options this !! name))).
Proof.
  intros Hssl Hflag.
  destruct (init_flag_names_apart _ Hflag) as (Hne_ssl & Hne_filter & Hne_src & Hne_browsers &
                                               Hne_scripts & Hne_reporter).
  assert (Hkept : _options (_prepareSslOptions this).1 !! name = _options this !! name).
  { apply (stable_prepareSslOptions (fun m => m !! name = _options this !! name));
      [by apply respects_lookup_ne | done]. }
  unfold _normalizeOptionsAfterLoad, bind at 1.
  destruct (_prepareSslOptions this) as [s1 [[]|e]]; [|discriminate]. cbn [fst] in Hkept.
  unfold _prepareInitFlags.
  rewrite (bind_Normal _ _ _ _ _ (forEach_prepareFlag OPTION_INIT_FLAG_NAMES s1)).
  rewrite (past_init_flags_stable
             (fun m => m !! name =
                Some (mkOption (VBool (notnot (getOption name this)))
                               (default OptionSource.Configuration (source <$> _options this !! name)))));
    try (by apply respects_lookup_ne); [reflexivity|].
  cbn [_options with_options].
  rewrite (lookup_coercedFlags_in _ _ _ Hflag). unfold valueOf, getOption. by rewrite Hkept.
Qed.

(** X7.  Once the SSL step has completed, the after-load normalization
    leaves each of the five init-only flags a boolean, however the later
    steps complete: [!!v] for the value [v] the file gave ([false] if it
    named no such option), at the source of the loaded option. *)
Theorem normalization_coerces_init_flags (this : TestCafeConfiguration) (name : string) :
  (_prepareSslOptions this).2 = Normal tt ->
  name ∈ OPTION_INIT_FLAG_NAMES ->
  _options (_normalizeOptionsAfterLoad this).1 !! name =
    Some (mkOption (VBool (notnot (getOption name this)))
                   (default OptionSource.Configuration (source <$> _options this !! name))).
Proof. apply lookup_normalized_init_flag. Qed.

(** X8.  The after-load normalization removes no option and creates none
    but the filter and the five init-only flags: an ssl, src, browsers,
    clientScripts or reporter option (or any other) that the loaded set
    lacks is still lacking afterwards, however the normalization
    completes. *)
Theorem normalization_creates_only (this : TestCafeConfiguration) (name : string) :
  (is_Some (_options this !! name) -> is_Some (_options (_normalizeOptionsAfterLoad this).1 !! name)) /\
  (name ∉ OPTION_INIT_FLAG_NAMES ->
   name <> OPTION_NAMES.filter ->
   _options this !! name = None ->
   _options (_normalizeOptionsAfterLoad this).1 !! name = None).
Proof.
  split.
  - revert this. change (stable (fun m => is_Some (m !! name)) _normalizeOptionsAfterLoad).
    apply stable_bind; [apply stable_prepareSslOptions, respects_present | intros _].
    apply stable_bind.
    { apply stable_prepareInitFlags. repeat first [apply Forall_nil_2 | apply Forall_cons_2];
        apply respects_present. }
    intros _. apply past_init_flags_stable; apply respects_present.
  - intros Hflags Hfilter. revert this.
    change (stable (fun m => m !! name = None) _normalizeOptionsAfterLoad).
    apply stable_bind; [apply stable_absent_prepareSslOptions | intros _].
    apply stable_bind.
    { apply stable_prepareInitFlags. apply Forall_forall. intros key Hkey.
      apply respects_lookup_ne. by intros ->. }
    intros _.
    apply stable_bind; [apply stable_prepareFilterFn; by apply respects_lookup_ne | intros _].
    apply stable_bind; [apply stable_absent_ensureArrayOption | intros _].
    apply stable_bind; [apply stable_absent_ensureArrayOption | intros _].
    apply stable_bind; [apply stable_absent_ensureArrayOption | intros _].
    apply stable_absent_prepareReporters.
Qed.

End Normalization.

(** *** The start options *)

Section StartOptionsAfterLoad.
Context `{Collaborators}.

Lemma getOption_lookup (name : string) (this after : TestCafeConfiguration) :
  _options after !! name = _options this !! name -> getOption name after = getOption name this.
Proof. unfold getOption. by intros ->. Qed.

(** The steps of the normalization that follow the SSL step leave the
    option of a name outside their reach as it is. *)
Lemma past_ssl_preserves (name : string) :
  name ∉ OPTION_INIT_FLAG_NAMES ->
  name <> OPTION_NAMES.filter -> name <> OPTION_NAMES.src -> name <> OPTION_NAMES.browsers ->
  name <> OPTION_NAMES.clientScripts -> name <> OPTION_NAMES.reporter ->
  preserves name (_prepareInitFlags ;;
                  _prepareFilterFn ;;
                  _ensureArrayOption OPTION_NAMES.src ;;
                  _ensureArrayOption OPTION_NAMES.browsers ;;
                  _ensureArrayOption OPTION_NAMES.clientScripts ;;
                  _prepareReporters).
Proof.
  intros Hflags Hfilter Hsrc Hbrowsers Hscripts Hreporter.
  apply stable_preserves. intros found. apply stable_bind.
  - apply stable_prepareInitFlags. apply Forall_forall. intros key Hkey.
    apply respects_lookup_ne. by intros ->.
  - intros _. apply past_init_flags_stable; by apply respects_lookup_ne.
Qed.

(** X9.  After a normalization that ran to its end, the start options
    carry booleans for developmentMode, retryTestPages, cache and
    disableHttp2 ([!!v] for the loaded value [v]), under ssl what
    [getSSLOptions] made of the loaded ssl value ([undefined] when the file
    named none), and the loaded hostname and ports as they were. *)
Theorem startOptions_after_load (this after : TestCafeConfiguration) :
  _normalizeOptionsAfterLoad this = (after, Normal tt) ->
  let additional := StartOptions.options (startOptions after) in
  StartOptions.developmentMode additional = VBool (notnot (getOption OPTION_NAMES.developmentMode this)) /\
  StartOptions.retryTestPages additional = VBool (notnot (getOption OPTION_NAMES.retryTestPages this)) /\
  StartOptions.cache additional = VBool (notnot (getOption OPTION_NAMES.cache this)) /\
  StartOptions.disableHttp2 additional = VBool (notnot (getOption OPTION_NAMES.disableHttp2 this)) /\
  match _options this !! OPTION_NAMES.ssl with
  | Some sslOptions => getSSLOptions (value sslOptions) = Normal (StartOptions.ssl additional)
  | None => StartOptions.ssl additional = VUndefined
  end /\
  StartOptions.hostname (startOptions after) = getOption OPTION_NAMES_hostname this /\
  StartOptions.port1 (startOptions after) = getOption OPTION_NAMES_port1 this /\
  StartOptions.port2 (startOptions after) = getOption OPTION_NAMES_port2 this.
Proof.
  intros Hrun additional.
  assert (Hafter : after = (_normalizeOptionsAfterLoad this).1) by by rewrite Hrun.
  assert (Hssl : (_prepareSslOptions this).2 = Normal tt).
  { apply bind_inv_Normal in Hrun as (mid & [] & Hmid & _). by rewrite Hmid. }
  assert (Hflag : forall name, name ∈ OPTION_INIT_FLAG_NAMES ->
            getOption name after = VBool (notnot (getOption name this))).
  { intros name Hname. unfold getOption at 1.
    by rewrite Hafter, (lookup_normalized_init_flag _ _ Hssl Hname). }
  assert (Hplain : forall name, name ∉ OPTION_INIT_FLAG_NAMES ->
            name <> OPTION_NAMES.ssl ->
            name <> OPTION_NAMES.filter -> name <> OPTION_NAMES.src -> name <> OPTION_NAMES.browsers ->
            name <> OPTION_NAMES.clientScripts -> name <> OPTION_NAMES.reporter ->
            getOption name after = getOption name this).
  { intros name Hflags Hne_ssl Hfilter Hsrc Hbrowsers Hscripts Hreporter.
    apply getOption_lookup. rewrite Hafter.
    apply (stable_preserves name _normalizeOptionsAfterLoad). intros found.
    apply stable_bind; [apply stable_prepareSslOptions; by apply respects_lookup_ne | intros _].
    apply stable_bind.
    - apply stable_prepareInitFlags. apply Forall_forall. intros key Hkey.
      apply respects_lookup_ne. by intros ->.
    - intros _. apply past_init_flags_stable; by apply respects_lookup_ne. }
  assert (Hnot_flag : forall name,
            bool_decide (name ∈ OPTION_INIT_FLAG_NAMES) = false -> name ∉ OPTION_INIT_FLAG_NAMES).
  { intros name Hname Hin. by rewrite (bool_decide_eq_true_2 _ Hin) in Hname. }
  unfold additional, startOptions. cbn [StartOptions.options StartOptions.developmentMode
    StartOptions.retryTestPages StartOptions.cache StartOptions.disableHttp2 StartOptions.ssl
    StartOptions.hostname StartOptions.port1 StartOptions.port2].
  repeat split.
  - apply Hflag. unfold OPTION_INIT_FLAG_NAMES. set_solver.
  - apply Hflag. unfold OPTION_INIT_FLAG_NAMES. set_solver.
  - apply Hflag. unfold OPTION_INIT_FLAG_NAMES. set_solver.
  - apply Hflag. unfold OPTION_INIT_FLAG_NAMES. set_solver.
  - assert (Hkept : _options after !! OPTION_NAMES.ssl =
                    _options (_prepareSslOptions this).1 !! OPTION_NAMES.ssl).
    { rewrite Hafter. unfold _normalizeOptionsAfterLoad, bind at 1.
      destruct (_prepareSslOptions this) as [mid [[]|e]]; [|discriminate].
      apply past_ssl_preserves; try done. by apply Hnot_flag. }
    unfold getOption. rewrite Hkept. clear Hkept.
    unfold _prepareSslOptions in *.
    destruct (_options this !! OPTION_NAMES.ssl) as [sslOptions|] eqn:Hfound.
    + unfold bind, await in *.
      destruct (getSSLOptions (value sslOptions)) as [resolved|e]; [|discriminate].
      rewrite (assignValue_run _ _ _ _ Hfound). cbn [fst _options with_options].
      by rewrite lookup_insert_eq.
    + cbn [fst]. by rewrite Hfound.
  - apply Hplain; try done. by apply Hnot_flag.
  - apply Hplain; try done. by apply Hnot_flag.
  - apply Hplain; try done. by apply Hnot_flag.
Qed.

End StartOptionsAfterLoad.

(** *** The configuration file that is loaded *)

Section LoadedFile.
Context `{Collaborators}.

Lemma firstExisting_first (this : TestCafeConfiguration)
    (before : list string) (filePath : string) (after : list string) :
  _isExplicitConfig this = false ->
  Forall (fun earlier => fileExists earlier = false) before ->
  fileExists filePath = true ->
  firstExisting (before ++ filePath :: after) this = (this, Normal (Some filePath)).
Proof.
  intros Himplicit Hbefore Hfound. induction Hbefore as [|earlier before Hmissing _ IH]; simpl.
  - unfold bind at 1, _isConfigurationFileExists, bind, Configuration_isConfigurationFileExists, ret.
    by rewrite Hfound.
  - unfold bind at 1, _isConfigurationFileExists, bind, Configuration_isConfigurationFileExists, ret.
    rewrite Hmissing, Himplicit. simpl. exact IH.
Qed.

(** [init] once the search has settled on a file. *)
Lemma init_found (options : option Entries) (this : TestCafeConfiguration) (filePath : string) :
  firstExisting (_defaultPaths this) this = (this, Normal (Some filePath)) ->
  init options this =
    match readConfigurationFile filePath with
    | Normal (Some opts) =>
        (_normalizeOptionsAfterLoad ;; asyncMergeOptions options)
          (with_options (_fromObj opts) (with_filePath (Some filePath) this))
    | Normal None => asyncMergeOptions options (with_filePath (Some filePath) this)
    | Throw e => (with_filePath (Some filePath) this, Throw e)
    end.
Proof.
  intros Hfound. unfold init, bind at 1, Configuration_init, ret.
  unfold bind at 1, _load, bind at 1. rewrite Hfound.
  unfold bind at 1, modify, await.
  by destruct (readConfigurationFile filePath) as [[opts|]|e].
Qed.

(** The search depends on the option set in no way. *)
Lemma firstExisting_with_options (paths : list string) (m : gmap string Option)
    (this : TestCafeConfiguration) :
  firstExisting paths (with_options m this) =
    (with_options m (firstExisting paths this).1, (firstExisting paths this).2).
Proof.
  induction paths as [|filePath paths IH]; [reflexivity|]. simpl.
  assert (Hexists : forall this,
            _isConfigurationFileExists filePath this =
              (this, if negb (fileExists filePath) && _isExplicitConfig this
                     then Throw (GeneralError cannotFindTestcafeConfigurationFile filePath)
                     else Normal (fileExists filePath))).
  { intros that. unfold _isConfigurationFileExists, bind, Configuration_isConfigurationFileExists, ret, throw.
    by destruct (negb (fileExists filePath) && _isExplicitConfig that). }
  unfold bind. rewrite !Hexists. cbn [_isExplicitConfig with_options].
  destruct (negb (fileExists filePath) && _isExplicitConfig this); [reflexivity|].
  destruct (fileExists filePath); [reflexivity | exact IH].
Qed.

Lemma _load_with_options (m : gmap string Option) (this : TestCafeConfiguration) :
  _load (with_options m this) = (with_options m (_load this).1, (_load this).2).
Proof.
  unfold _load, bind. cbn [_defaultPaths with_options].
  rewrite firstExisting_with_options.
  destruct (firstExisting (_defaultPaths this) this) as [this' [[filePath|]|e]]; reflexivity.
Qed.

(** X10.  A resolver constructed without a path loads the first of the
    conventional files [FILENAMES] that exists, and no later one:
    [init] records its path and continues with what reading that file
    gave; the options it parsed replace the option set, are normalized and
    then merged with the runtime options; a read that yields nothing leaves
    the merge alone; a read that fails fails [init] with its error. *)
Theorem discovery_loads_first_existing
    (options : option Entries) (before : list string) (filePath : string) (after : list string) :
  FILENAMES = before ++ filePath :: after ->
  Forall (fun earlier => fileExists earlier = false) before ->
  fileExists filePath = true ->
  init options (new EmptyString) =
    match readConfigurationFile filePath with
    | Normal (Some opts) =>
        (_normalizeOptionsAfterLoad ;; asyncMergeOptions options)
          (with_options (_fromObj opts) (with_filePath (Some filePath) (new EmptyString)))
    | Normal None => asyncMergeOptions options (with_filePath (Some filePath) (new EmptyString))
    | Throw e => (with_filePath (Some filePath) (new EmptyString), Throw e)
    end.
Proof.
  intros Hnames Hbefore Hfound. apply init_found.
  change (_defaultPaths (new EmptyString)) with FILENAMES. rewrite Hnames.
  by apply firstExisting_first.
Qed.

(** X11.  A resolver constructed with an explicit path at which a file
    exists loads that file, whatever conventional files exist beside it:
    the options it parsed replace the option set, are normalized and then
    merged with the runtime options; a read that fails fails [init] with
    its error, the resolver left as constructed. *)
Theorem explicit_file_is_loaded (options : option Entries) (configFile : string) :
  configFile <> EmptyString ->
  fileExists configFile = true ->
  init options (new configFile) =
    match readConfigurationFile configFile with
    | Normal (Some opts) =>
        (_normalizeOptionsAfterLoad ;; asyncMergeOptions options)
          (with_options (_fromObj opts) (new configFile))
    | Normal None => asyncMergeOptions options (new configFile)
    | Throw e => (new configFile, Throw e)
    end.
Proof.
  intros Hgiven Hfound.
  assert (Htruthy : String.eqb configFile EmptyString = false) by by apply String.eqb_neq.
  assert (Hpaths : _defaultPaths (new configFile) = [configFile]).
  { unfold new. simpl. by rewrite Htruthy. }
  assert (Hsame : with_filePath (Some configFile) (new configFile) = new configFile).
  { unfold new. simpl. by rewrite Htruthy. }
  rewrite (init_found options (new configFile) configFile).
  - by rewrite Hsame.
  - rewrite Hpaths. simpl.
    unfold bind at 1, _isConfigurationFileExists, bind, Configuration_isConfigurationFileExists, ret.
    by rewrite Hfound.
Qed.

(** X12.  When [init] loads a configuration file with content, the options
    the instance held before play no part: they are replaced by those of
    the file, not merged with them. *)
Theorem loaded_file_replaces_options
    (options : option Entries) (this : TestCafeConfiguration) (m : gmap string Option) (opts : Entries) :
  (_load this).2 = Normal (Some opts) ->
  init options (with_options m this) = init options this.
Proof.
  intros Hloaded. unfold init, bind, Configuration_init, ret.
  rewrite _load_with_options.
  destruct (_load this) as [loaded [[found|]|e]]; try discriminate.
  reflexivity.
Qed.

End LoadedFile.

(** *** The filter and the reporters *)

Section FilterAndReporters.
Context `{Collaborators}.

(** X13.  The filter normalization does not undo what it did before it
    failed: when the filter value carries a test pattern that compiles and
    a fixture pattern that [getGrepOptions] rejects, [_prepareFilterFn]
    throws what [getGrepOptions] threw and leaves, under the filter option,
    the filter value with its test pattern already replaced by the compiled
    one. *)
Theorem filter_failure_keeps_compiled_test_grep
    (this : TestCafeConfiguration) (cls : ObjectClass) (props : gmap string JsValue)
    (src : OptionSource.t) (testGrep fixtureGrep grep : JsValue) (e : Error) :
  _options this !! OPTION_NAMES.filter = Some (mkOption (VObject cls props) src) ->
  props !! "testGrep" = Some testGrep ->
  ToBoolean testGrep = true ->
  props !! "fixtureGrep" = Some fixtureGrep ->
  ToBoolean fixtureGrep = true ->
  getGrepOptions OPTION_NAMES.filterTestGrep testGrep = Normal grep ->
  getGrepOptions OPTION_NAMES.filterFixtureGrep fixtureGrep = Throw e ->
  _prepareFilterFn this =
    (with_options
       (<[OPTION_NAMES.filter := mkOption (VObject cls (<["testGrep" := grep]> props)) src]> (_options this))
       this,
     Throw e).
Proof.
  intros Hfilter Htest Htest_truthy Hfixture Hfixture_truthy Hcompiled Hrejected.
  unfold _prepareFilterFn.
  rewrite (bind_Normal _ _ this this (mkOption (VObject cls props) src));
    [|unfold _ensureOption; by rewrite Hfilter].
  cbn [value not ToBoolean negb Get]. rewrite Htest. cbn [default from_option id].
  unfold await at 1. unfold bind at 1. rewrite Htest_truthy.
  rewrite bind_assoc. unfold await at 1. unfold bind at 1. rewrite Hcompiled.
  rewrite bind_assoc. cbn [Put]. unfold await at 1. unfold bind at 1.
  rewrite bind_assoc.
  rewrite (bind_Normal _ _ _ _ _ (assignValue_run _ _ _ _ Hfilter)).
  unfold ret at 1. unfold bind at 1.
  cbn [Get]. rewrite lookup_insert_ne by done. rewrite Hfixture. cbn [default from_option id].
  unfold await at 1. unfold bind at 1. rewrite Hfixture_truthy.
  rewrite bind_assoc. unfold await at 1. unfold bind at 1. rewrite Hrejected.
  reflexivity.
Qed.

(** X14.  A reporter option that holds a single reporter is normalized as
    the one-element list of that reporter: [_prepareReporters] completes
    the same way on both, and leaves the same instance when it completes
    normally.  When [prepareReporters] throws, the option keeps the value
    it had. *)
Theorem single_reporter_is_a_list (this : TestCafeConfiguration) (reporterOption : Option) :
  _options this !! OPTION_NAMES.reporter = Some reporterOption ->
  isArray (value reporterOption) = false ->
  let listed :=
    with_options
      (<[OPTION_NAMES.reporter := mkOption (array [value reporterOption]) (source reporterOption)]>
         (_options this)) this in
  (_prepareReporters this).2 = (_prepareReporters listed).2 /\
  ((_prepareReporters this).2 = Normal tt -> (_prepareReporters this).1 = (_prepareReporters listed).1) /\
  (forall e, (_prepareReporters this).2 = Throw e -> (_prepareReporters this).1 = this).
Proof.
  intros Hreporter Hsingle listed.
  assert (Hlisted : _options listed !! OPTION_NAMES.reporter =
                    Some (mkOption (array [value reporterOption]) (source reporterOption))).
  { unfold listed. cbn [_options with_options]. by rewrite lookup_insert_eq. }
  unfold _prepareReporters. rewrite Hreporter, Hlisted. cbn [value].
  unfold castArray. rewrite Hsingle. cbn [isArray array].
  unfold bind, await.
  destruct (prepareReporters _) as [reporters|e0].
  - rewrite (assignValue_run _ _ _ _ Hreporter), (assignValue_run _ _ _ _ Hlisted).
    split; [reflexivity|]. split; [|discriminate].
    intros _. unfold listed. cbn [fst _options with_options source].
    by rewrite insert_insert_eq.
  - split; [reflexivity|]. split; [discriminate|]. by intros e _.
Qed.

End FilterAndReporters.

(** *** The browsers after a merge *)

Section MergedBrowsers.
Context `{Collaborators}.

(** X15.  After an [asyncMergeOptions] that completed normally, a browsers
    option holds a list, whatever shape the merged value had: the
    expansions, in order, of the specifiers of the value the merge of the
    runtime options left there, each of which the pool resolved; the source
    of the option is the one the merge left. *)
Theorem merged_browsers_hold_a_list
    (options : option Entries) (this after : TestCafeConfiguration) (browsersOption : Option) :
  asyncMergeOptions options this = (after, Normal tt) ->
  _options after !! "browsers" = Some browsersOption ->
  exists merged,
    _options (mergeOptions (default [] options) this).1 !! "browsers" = Some merged /\
    Forall (fun s => fulfils (browserProviderPool_getBrowserInfo s)) (specifiers (value merged)) /\
    browsersOption = mkOption (array (resolved (specifiers (value merged)))) (source merged).
Proof.
  intros Hrun Hafter. rewrite asyncMergeOptions_run in Hrun. cbn zeta in Hrun.
  change (mergeOptions (default [] options) this).1
    with (fold_left mergeOption (default [] options) this).
  destruct (_options (fold_left mergeOption (default [] options) this) !! "browsers")
    as [merged|] eqn:Hmerged.
  - exists merged. split; [reflexivity|].
    unfold Promise_all in Hrun.
    destruct (firstRejection _) as [[t e]|] eqn:Hfirst; [discriminate|].
    apply firstRejection_None in Hfirst. rewrite Forall_map in Hfirst.
    split; [exact Hfirst|].
    injection Hrun as <-. cbn [_options with_options] in Hafter.
    rewrite lookup_insert_eq in Hafter. injection Hafter as <-.
    unfold resolved. by rewrite <- fulfilled_all.
  - injection Hrun as <-. congruence.
Qed.

End MergedBrowsers.

(** *** A failing SSL step *)

Section SslFailure.
Context `{Collaborators}.

(** X16.  When [getSSLOptions] fails on the loaded ssl value, the
    after-load normalization throws its error before it has changed
    anything: no init-only flag is coerced, no filter option is created,
    and in [init] the runtime options are not merged. *)
Theorem ssl_failure_aborts_normalization
    (this : TestCafeConfiguration) (sslOptions : Option) (e : Error) :
  _options this !! OPTION_NAMES.ssl = Some sslOptions ->
  getSSLOptions (value sslOptions) = Throw e ->
  _normalizeOptionsAfterLoad this = (this, Throw e) /\
  forall options, (_normalizeOptionsAfterLoad ;; asyncMergeOptions options) this = (this, Throw e).
Proof.
  intros Hssl Hfails.
  assert (Hstep : _prepareSslOptions this = (this, Throw e)).
  { unfold _prepareSslOptions. rewrite Hssl. unfold bind, await. by rewrite Hfails. }
  assert (Hrun : _normalizeOptionsAfterLoad this = (this, Throw e)).
  { unfold _normalizeOptionsAfterLoad, bind at 1. by rewrite Hstep. }
  split; [exact Hrun|]. intros options. unfold bind at 1. by rewrite Hrun.
Qed.

End SslFailure.

(** *** The properties above on sample instances *)

(** X1 on a debugMode given as the string "yes" at run time: [prepare]
    leaves [true], still directly set. *)
Lemma prepare_coerces_flags_witness :
  let H := sampleCollaborators [] in
  let this := holding {[ OPTION_NAMES.debugMode := mkOption (VString "yes") OptionSource.DirectlySet ]} in
  _options (prepare this).1 !! OPTION_NAMES.debugMode =
    Some (mkOption (VBool true) OptionSource.DirectlySet).
Proof.
  intros H this.
  assert (Hflag : OPTION_NAMES.debugMode ∈ OPTION_FLAG_NAMES) by repeat constructor.
  pose proof (prepare_coerces_flags (H := H) this OPTION_NAMES.debugMode Hflag) as Hcoerced.
  vm_compute in Hcoerced. vm_compute. exact Hcoerced.
Defined.

(** X2 on a hostname: [prepare] leaves it alone. *)
Lemma prepare_touches_only_witness :
  let H := sampleCollaborators [] in
  let this := holding {[ "hostname" := mkOption (VString "localhost") OptionSource.DirectlySet ]} in
  _options (prepare this).1 !! "hostname" =
    Some (mkOption (VString "localhost") OptionSource.DirectlySet).
Proof.
  intros H this.
  assert (Hflags : "hostname" ∉ OPTION_FLAG_NAMES) by (apply (bool_decide_unpack _); by vm_compute).
  assert (Hdefaults : "hostname" ∉ DEFAULTED_OPTION_NAMES) by (apply (bool_decide_unpack _); by vm_compute).
  assert (Hscreenshots : "hostname" <> OPTION_NAMES.screenshots) by discriminate.
  assert (Hcompilers : "hostname" <> OPTION_NAMES.compilerOptions) by discriminate.
  pose proof (proj2 (prepare_touches_only (H := H) this) "hostname"
                Hflags Hdefaults Hscreenshots Hcompilers) as Hkept.
  vm_compute in Hkept. vm_compute. exact Hkept.
Defined.

(** X3 on a speed that is set to [undefined]: [prepare] fills in the
    default speed. *)
Lemma prepare_fills_defaults_witness :
  let H := sampleCollaborators [] in
  let this := holding {[ OPTION_NAMES.speed := mkOption VUndefined OptionSource.DirectlySet ]} in
  _options (prepare this).1 !! OPTION_NAMES.speed =
    Some (mkOption (VNumber (S754_finite false 1 0)) OptionSource.Configuration).
Proof.
  intros H this.
  assert (Hentry : (OPTION_NAMES.speed, VNumber (S754_finite false 1 0)) ∈ DEFAULT_VALUES (H := H))
    by repeat constructor.
  pose proof (prepare_fills_defaults (H := H) this OPTION_NAMES.speed _ Hentry) as Hfilled.
  vm_compute in Hfilled. vm_compute. exact Hfilled.
Defined.

(** X5 on compiler options set at run time, without a type-config path:
    [prepare] keeps them. *)
Lemma prepare_without_tsConfigPath_witness :
  let H := sampleCollaborators [] in
  let given := mkOption (object {[ "typescript" := object {[ "strict" := VBool true ]} ]})
                 OptionSource.DirectlySet in
  let this := holding {[ OPTION_NAMES.compilerOptions := given ]} in
  _options (prepare this).1 !! OPTION_NAMES.compilerOptions = Some given.
Proof.
  intros H given this.
  assert (Hpath : ToBoolean (getOption OPTION_NAMES.tsConfigPath this) = false)
    by (vm_compute; reflexivity).
  assert (Hdone : (prepare this).2 = Normal tt) by (vm_compute; reflexivity).
  pose proof (prepare_without_tsConfigPath (H := H) this Hpath Hdone) as Hkept.
  vm_compute in Hkept. vm_compute. exact Hkept.
Defined.

(** X6 on an empty option set: a second [prepare] changes nothing. *)
Lemma prepare_idempotent_witness :
  let H := sampleCollaborators [] in
  prepare (prepare (holding ∅)).1 = ((prepare (holding ∅)).1, Normal tt).
Proof.
  intros H.
  assert (Hdone : (prepare (holding ∅)).2 = Normal tt) by (vm_compute; reflexivity).
  exact (prepare_idempotent (H := H) (holding ∅) Hdone).
Defined.

(** X7 on a loaded cache of 1: the normalization leaves [true]. *)
Lemma normalization_coerces_init_flags_witness :
  let H := sampleCollaborators [] in
  let this := holding (_fromObj [("cache", VNumber (S754_finite false 1 0))]) in
  _options (_normalizeOptionsAfterLoad this).1 !! OPTION_NAMES.cache =
    Some (mkOption (VBool true) OptionSource.Configuration).
Proof.
  intros H this.
  assert (Hssl : (_prepareSslOptions this).2 = Normal tt) by (vm_compute; reflexivity).
  assert (Hflag : OPTION_NAMES.cache ∈ OPTION_INIT_FLAG_NAMES) by repeat constructor.
  pose proof (normalization_coerces_init_flags (H := H) this OPTION_NAMES.cache Hssl Hflag) as Hcoerced.
  vm_compute in Hcoerced. vm_compute. exact Hcoerced.
Defined.

(** X8 on a loaded set that names src only: src is still there after the
    normalization, and no ssl option has appeared. *)
Lemma normalization_creates_only_witness :
  let H := sampleCollaborators [] in
  let this := holding (_fromObj [("src", VString "tests")]) in
  is_Some (_options (_normalizeOptionsAfterLoad this).1 !! OPTION_NAMES.src) /\
  _options (_normalizeOptionsAfterLoad this).1 !! OPTION_NAMES.ssl = None.
Proof.
  intros H this. split.
  - apply (proj1 (normalization_creates_only (H := H) this OPTION_NAMES.src)).
    vm_compute. eexists. reflexivity.
  - apply (proj2 (normalization_creates_only (H := H) this OPTION_NAMES.ssl)).
    + apply (bool_decide_unpack _). by vm_compute.
    + discriminate.
    + vm_compute. reflexivity.
Defined.

(** X9 on a loaded file that names ssl, cache and hostname. *)
Lemma startOptions_after_load_witness :
  let H := sampleCollaborators [] in
  let this := holding (_fromObj [("ssl", VString "key.pem"); ("cache", VNumber (S754_finite false 1 0));
                                 ("hostname", VString "localhost")]) in
  let started := startOptions (_normalizeOptionsAfterLoad this).1 in
  StartOptions.cache (StartOptions.options started) = VBool true /\
  StartOptions.developmentMode (StartOptions.options started) = VBool false /\
  StartOptions.hostname started = VString "localhost".
Proof.
  intros H this started.
  assert (Hrun : _normalizeOptionsAfterLoad this = ((_normalizeOptionsAfterLoad this).1, Normal tt))
    by (vm_compute; reflexivity).
  pose proof (startOptions_after_load (H := H) this _ Hrun)
    as (Hmode & _ & Hcache & _ & _ & Hhost & _).
  split; [|split].
  - vm_compute in Hcache. vm_compute. exact Hcache.
  - vm_compute in Hmode. vm_compute. exact Hmode.
  - vm_compute in Hhost. vm_compute. exact Hhost.
Defined.

(** X10 on a directory that holds .testcaferc.json and no .testcaferc.js:
    the JSON file is the one loaded. *)
Lemma discovery_loads_first_existing_witness :
  let H := sampleCollaborators [(".testcaferc.json", [("src", VString "tests")])] in
  _filePath (init None (new EmptyString)).1 = Some ".testcaferc.json" /\
  getOption OPTION_NAMES.src (init None (new EmptyString)).1 = array [VString "tests"].
Proof.
  intros H.
  assert (Hnames : FILENAMES = [".testcaferc.js"] ++ ".testcaferc.json" :: []) by reflexivity.
  assert (Hbefore : Forall (fun earlier => fileExists earlier = false) [".testcaferc.js"]).
  { apply Forall_cons_2; [vm_compute; reflexivity | apply Forall_nil_2]. }
  assert (Hfound : fileExists ".testcaferc.json" = true) by (vm_compute; reflexivity).
  rewrite (discovery_loads_first_existing (H := H) None _ _ _ Hnames Hbefore Hfound).
  split; vm_compute; reflexivity.
Defined.

(** X11 on an explicit ./config.json beside a conventional file: the
    explicit one is loaded. *)
Lemma explicit_file_is_loaded_witness :
  let H := sampleCollaborators [(".testcaferc.js", [("speed", VNumber (S754_finite false 1 (-1)))]);
                                ("./config.json", [("cache", VBool true)])] in
  _options (init None (new "./config.json")).1 !! OPTION_NAMES.speed = None /\
  getOption OPTION_NAMES.cache (init None (new "./config.json")).1 = VBool true.
Proof.
  intros H.
  assert (Hgiven : "./config.json" <> EmptyString) by discriminate.
  assert (Hfound : fileExists "./config.json" = true) by (vm_compute; reflexivity).
  rewrite (explicit_file_is_loaded (H := H) None "./config.json" Hgiven Hfound).
  split; vm_compute; reflexivity.
Defined.

(** X12 on an instance that holds a speed before [init] loads a file
    without one. *)
Lemma loaded_file_replaces_options_witness :
  let H := sampleCollaborators [("./config.json", [("cache", VBool true)])] in
  let held := {[ OPTION_NAMES.speed := mkOption (VNumber (S754_finite false 1 (-1))) OptionSource.DirectlySet ]} in
  init None (with_options held (new "./config.json")) = init None (new "./config.json").
Proof.
  intros H held.
  apply (loaded_file_replaces_options (H := H) None (new "./config.json") held [("cache", VBool true)]).
  vm_compute. reflexivity.
Defined.

(** X13 on the filter { testGrep: "login", fixtureGrep: "(" }: the call
    throws, and the test pattern is a regular expression already. *)
Lemma filter_failure_keeps_compiled_test_grep_witness :
  let H := rejectingGrep (sampleCollaborators []) in
  let compiled := VObject (ClassInstance "RegExp") {[ "source" := VString "login" ]} in
  let this := holding {[ OPTION_NAMES.filter :=
                mkOption (object {[ "testGrep" := VString "login"; "fixtureGrep" := VString "(" ]})
                         OptionSource.Configuration ]} in
  _prepareFilterFn this =
    (holding {[ OPTION_NAMES.filter :=
        mkOption (object {[ "testGrep" := compiled; "fixtureGrep" := VString "(" ]})
                 OptionSource.Configuration ]},
     Throw (ExternalError "getGrepOptions" OPTION_NAMES.filterFixtureGrep)).
Proof.
  intros H compiled this.
  pose proof (filter_failure_keeps_compiled_test_grep (H := H) this PlainObject
                {[ "testGrep" := VString "login"; "fixtureGrep" := VString "(" ]}
                OptionSource.Configuration (VString "login") (VString "(") compiled
                (ExternalError "getGrepOptions" OPTION_NAMES.filterFixtureGrep)) as Hkept.
  assert (Hrun := Hkept ltac:(vm_compute; reflexivity) ltac:(vm_compute; reflexivity)
                        ltac:(reflexivity) ltac:(vm_compute; reflexivity) ltac:(reflexivity)
                        ltac:(reflexivity) ltac:(reflexivity)).
  rewrite Hrun. vm_compute. reflexivity.
Defined.

(** X14 on the single reporter "spec". *)
Lemma single_reporter_is_a_list_witness :
  let H := sampleCollaborators [] in
  let this := holding {[ OPTION_NAMES.reporter := mkOption (VString "spec") OptionSource.Configuration ]} in
  let listed := holding {[ OPTION_NAMES.reporter :=
                  mkOption (array [VString "spec"]) OptionSource.Configuration ]} in
  (_prepareReporters this).2 = (_prepareReporters listed).2.
Proof.
  intros H this listed.
  assert (Hreporter : _options this !! OPTION_NAMES.reporter =
                      Some (mkOption (VString "spec") OptionSource.Configuration))
    by (vm_compute; reflexivity).
  pose proof (proj1 (single_reporter_is_a_list (H := H) this _ Hreporter eq_refl)) as Hsame.
  vm_compute in Hsame. vm_compute. exact Hsame.
Defined.

(** X15 on the runtime browsers "chrome": a list of its two targets. *)
Lemma merged_browsers_hold_a_list_witness :
  let H := sampleCollaborators [] in
  let options := Some [("browsers", VString "chrome")] in
  exists merged,
    _options (mergeOptions (default [] options) (holding ∅)).1 !! "browsers" = Some merged /\
    Forall (fun s => fulfils (browserProviderPool_getBrowserInfo s)) (specifiers (value merged)) /\
    mkOption (array [chromeStable; chromeBeta]) OptionSource.DirectlySet =
      mkOption (array (resolved (specifiers (value merged)))) (source merged).
Proof.
  intros H options.
  apply (merged_browsers_hold_a_list (H := H) options (holding ∅)
           (asyncMergeOptions options (holding ∅)).1).
  - vm_compute. reflexivity.
  - vm_compute. reflexivity.
Defined.

(** X16 on a loaded ssl of [null], which the sample [getSSLOptions]
    rejects. *)
Lemma ssl_failure_aborts_normalization_witness :
  let H := sampleCollaborators [] in
  let this := holding (_fromObj [("ssl", VNull); ("cache", VNumber (S754_finite false 1 0))]) in
  _normalizeOptionsAfterLoad this = (this, Throw (ExternalError "getSSLOptions" "no certificate")).
Proof.
  intros H this.
  apply (ssl_failure_aborts_normalization (H := H) this (mkOption VNull OptionSource.Configuration)).
  - vm_compute. reflexivity.
  - reflexivity.
Defined.

(** *** The typescript options *)

Section TypescriptOptions.
Context `{Collaborators}.

(** C1, as the code has it.  When [prepare] completes on an option set
    whose type-config path is set (truthy), the typescript entry of the
    compiler options becomes [Object.assign({ configPath }, existing)],
    where [existing] is the typescript entry the compiler options had: a
    plain object in which every field of the pre-existing typescript options
    keeps its value -- [configPath] included, if they had one -- and in
    which [configPath] is the type-config path only if they had none.  The
    compiler options are those of the option, or the defaults when the
    option is missing or holds a falsy value; the entries of the other
    compilers are kept, and so is the source of the option. *)
Theorem typescript_options_merge (this : TestCafeConfiguration) :
  ToBoolean (getOption OPTION_NAMES.tsConfigPath this) = true ->
  (prepare this).2 = Normal tt ->
  let tsConfigPath := getOption OPTION_NAMES.tsConfigPath this in
  let found := _options this !! OPTION_NAMES.compilerOptions in
  let compilers :=
    JS.or (default getDefaultCompilerOptions (value <$> found)) getDefaultCompilerOptions in
  exists existing updated,
    let merged := ownEnumerable existing ∪ {[ "configPath" := tsConfigPath ]} in
    Get compilers CustomizableCompilers_typescript = Normal existing /\
    Put compilers CustomizableCompilers_typescript (object merged) = Normal updated /\
    _options (prepare this).1 !! OPTION_NAMES.compilerOptions =
      Some (mkOption updated (default OptionSource.Configuration (source <$> found))) /\
    (forall cls entries, compilers = VObject cls entries ->
       existing = default VUndefined (entries !! CustomizableCompilers_typescript) /\
       updated = VObject cls (<[CustomizableCompilers_typescript := object merged]> entries)) /\
    (forall cls typescript, existing = VObject cls typescript ->
       merged = typescript ∪ {[ "configPath" := tsConfigPath ]}) /\
    (forall key v, ownEnumerable existing !! key = Some v -> merged !! key = Some v) /\
    (ownEnumerable existing !! "configPath" = None -> merged !! "configPath" = Some tsConfigPath) /\
    (forall key, key <> "configPath" -> merged !! key = ownEnumerable existing !! key) /\
    (forall compiler, compiler <> CustomizableCompilers_typescript ->
       Get updated compiler = Get compilers compiler).
Proof.
  intros Hpath Hdone tsConfigPath found compilers.
  rewrite prepare_completes_as in Hdone.
  pose proof (lookup_preparedOptions_compilers _ Hdone) as Hlookup.
  rewrite <- prepare_options in Hlookup.
  rewrite preparedOptions_completion in Hdone.
  destruct (preparedScreenshots _ _ _).2 as [[]|e]; [|discriminate].
  change (valueOf (_options this) OPTION_NAMES.tsConfigPath) with tsConfigPath in Hdone, Hlookup.
  fold found in Hdone, Hlookup.
  assert (Hvalue : value (default (mkOption getDefaultCompilerOptions OptionSource.Configuration) found) =
                   default getDefaultCompilerOptions (value <$> found)) by by destruct found.
  assert (Hsource : source (default (mkOption getDefaultCompilerOptions OptionSource.Configuration) found) =
                    default OptionSource.Configuration (source <$> found)) by by destruct found.
  rewrite Hvalue in Hdone, Hlookup. rewrite Hsource in Hlookup. clear Hvalue Hsource.
  unfold preparedCompilerOptions in Hdone, Hlookup. cbv zeta in Hdone, Hlookup.
  fold compilers in Hdone, Hlookup. unfold tsConfigPath at 1 in Hdone. unfold tsConfigPath at 1 in Hlookup.
  rewrite Hpath in Hdone, Hlookup. unfold Object_assign in Hdone, Hlookup.
  destruct (Get compilers CustomizableCompilers_typescript) as [existing|e] eqn:Hget; [|discriminate].
  destruct (Put compilers CustomizableCompilers_typescript _) as [updated|e] eqn:Hput; [|discriminate].
  exists existing, updated. cbv zeta.
  split; [reflexivity|]. split; [exact Hput|]. split; [exact Hlookup|].
  split; [|split; [|split; [|split; [|split]]]].
  - intros cls entries Hobject. rewrite Hobject in Hget, Hput. simpl in Hget, Hput.
    split; congruence.
  - by intros cls typescript ->.
  - intros key v Hkey. by apply lookup_union_Some_l.
  - intros Hnone. rewrite lookup_union_r by done. by rewrite lookup_singleton_eq.
  - intros key Hkey. rewrite lookup_union_l; [done|]. by rewrite lookup_singleton_ne.
  - intros compiler Hother. destruct compilers; simpl in Hput; try discriminate;
      injection Hput as <-; simpl; by rewrite lookup_insert_ne.
Qed.

End TypescriptOptions.

(** C1 on the typescript options { strict: true } and the type-config path
    "tsconfig.json": the entry is { strict: true, configPath:
    "tsconfig.json" }.  On an option set without compiler options, the
    entry of the defaults is { configPath: "tsconfig.json" }. *)
Lemma typescript_options_merge_witness :
  let H := sampleCollaborators [] in
  let path := mkOption (VString "tsconfig.json") OptionSource.DirectlySet in
  let this := holding {[ OPTION_NAMES.compilerOptions :=
                           mkOption (object {[ "typescript" := object {[ "strict" := VBool true ]} ]})
                                    OptionSource.DirectlySet;
                         OPTION_NAMES.tsConfigPath := path ]} in
  let bare := holding {[ OPTION_NAMES.tsConfigPath := path ]} in
  _options (prepare this).1 !! OPTION_NAMES.compilerOptions =
    Some (mkOption
            (object {[ "typescript" := object {[ "strict" := VBool true;
                                                 "configPath" := VString "tsconfig.json" ]} ]})
            OptionSource.DirectlySet) /\
  _options (prepare bare).1 !! OPTION_NAMES.compilerOptions =
    Some (mkOption
            (object {[ "typescript" := object {[ "configPath" := VString "tsconfig.json" ]} ]})
            OptionSource.Configuration).
Proof.
  intros H path this bare. split.
  - assert (Hpath : ToBoolean (getOption OPTION_NAMES.tsConfigPath this) = true) by reflexivity.
    assert (Hdone : (prepare this).2 = Normal tt) by (vm_compute; reflexivity).
    destruct (typescript_options_merge (H := H) this Hpath Hdone)
      as (existing & updated & Hget & Hput & Hlookup & _).
    vm_compute in Hget. injection Hget as <-.
    vm_compute in Hput. injection Hput as <-.
    vm_compute in Hlookup. vm_compute. exact Hlookup.
  - assert (Hpath : ToBoolean (getOption OPTION_NAMES.tsConfigPath bare) = true) by reflexivity.
    assert (Hdone : (prepare bare).2 = Normal tt) by (vm_compute; reflexivity).
    destruct (typescript_options_merge (H := H) bare Hpath Hdone)
      as (existing & updated & Hget & Hput & Hlookup & _).
    vm_compute in Hget. injection Hget as <-.
    vm_compute in Hput. injection Hput as <-.
    vm_compute in Hlookup. vm_compute. exact Hlookup.
Defined.

(** *** The after-load normalization, step by step *)

Section AfterLoadSteps.
Context `{Collaborators}.

Lemma bind_inv {A B} (c : M A) (k : A -> M B) (this after : TestCafeConfiguration) (r : Completion B) :
  bind c k this = (after, r) ->
  (exists mid x, c this = (mid, Normal x) /\ k x mid = (after, r)) \/
  (exists e, c this = (after, Throw e) /\ r = Throw e).
Proof.
  unfold bind. destruct (c this) as [mid [x|e]]; [eauto|].
  intros [= <- <-]. eauto.
Qed.

Lemma lookup_assignValue (name key : string) (v : JsValue) (this : TestCafeConfiguration) :
  _options (assignValue name v this).1 !! key =
    if decide (name = key)
    then (fun option => mkOption v (source option)) <$> _options this !! name
    else _options this !! key.
Proof. unfold assignValue, modify. cbn [fst _options with_options]. apply lookup_alter. Qed.

(** The SSL step. *)
Lemma _prepareSslOptions_effect (this after : TestCafeConfiguration) (r : Completion unit) :
  _prepareSslOptions this = (after, r) ->
  (forall name, name <> OPTION_NAMES.ssl -> _options after !! name = _options this !! name) /\
  match r with
  | Normal _ => sslNormalized (_options this) (_options after)
  | Throw e =>
      after = this /\
      exists sslOptions,
        _options this !! OPTION_NAMES.ssl = Some sslOptions /\ getSSLOptions (value sslOptions) = Throw e
  end.
Proof.
  unfold _prepareSslOptions, sslNormalized.
  destruct (_options this !! OPTION_NAMES.ssl) as [sslOptions|] eqn:Hfound.
  - unfold bind, await. destruct (getSSLOptions (value sslOptions)) as [resolved|e] eqn:Hresolved.
    + rewrite (assignValue_run _ _ _ _ Hfound). intros [= <- <-]. cbn [_options with_options]. split.
      * intros name Hname. by rewrite lookup_insert_ne.
      * exists resolved. by rewrite lookup_insert_eq.
    + intros [= <- <-]. split; [done|]. split; [done|]. by exists sslOptions.
  - intros [= <- <-]. by rewrite Hfound.
Qed.

(** The coercion of the init-only flags. *)
Lemma _prepareInitFlags_effect (this : TestCafeConfiguration) :
  exists after,
    _prepareInitFlags this = (after, Normal tt) /\
    (forall name, name ∉ OPTION_INIT_FLAG_NAMES -> _options after !! name = _options this !! name) /\
    initFlagsCoerced (_options this) (_options after).
Proof.
  eexists. split; [apply forEach_prepareFlag|]. cbn [_options with_options]. split.
  - intros name Hname. by apply lookup_coercedFlags_notin.
  - intros name Hname. by apply lookup_coercedFlags_in.
Qed.

(** The compilation of one pattern of the filter value, as the filter step
    runs it. *)
Lemma compiledGrep_step {B} (name key : string) (filterOptionValue : JsValue) (k : JsValue -> M B)
    (this : TestCafeConfiguration) (filterOption : Option) :
  _options this !! OPTION_NAMES.filter = Some filterOption ->
  exists mid found,
    _options mid !! OPTION_NAMES.filter = Some found /\ source found = source filterOption /\
    (pattern <- await (Get filterOptionValue key) ;;
     filterOptionValue <-
       (if ToBoolean pattern
        then grep <- await (getGrepOptions name pattern) ;;
             updated <- await (Put filterOptionValue key grep) ;;
             assignValue OPTION_NAMES.filter updated ;;
             ret updated
        else ret filterOptionValue) ;;
     k filterOptionValue) this =
    match compiledGrep name key filterOptionValue with
    | Normal filterOptionValue => k filterOptionValue mid
    | Throw e => (this, Throw e)
    end.
Proof.
  intros Hfound. unfold compiledGrep, bind, await, ret.
  destruct (Get filterOptionValue key) as [pattern|e]; [|by exists this, filterOption].
  destruct (ToBoolean pattern); [|by exists this, filterOption].
  destruct (getGrepOptions name pattern) as [grep|e]; [|by exists this, filterOption].
  destruct (Put filterOptionValue key grep) as [updated|e]; [|by exists this, filterOption].
  rewrite (assignValue_run _ _ _ _ Hfound).
  eexists _, _. split; [|split; [|reflexivity]].
  - cbn [_options with_options]. by rewrite lookup_insert_eq.
  - reflexivity.
Qed.

(** The filter step on a truthy filter value. *)
Lemma _prepareFilterFn_truthy (this : TestCafeConfiguration) (filterOption : Option) :
  _options this !! OPTION_NAMES.filter = Some filterOption ->
  ToBoolean (value filterOption) = true ->
  match filterPredicate (value filterOption) with
  | Normal filterFn =>
      (_prepareFilterFn this).2 = Normal tt /\
      _options (_prepareFilterFn this).1 !! OPTION_NAMES.filter =
        Some (mkOption filterFn (source filterOption))
  | Throw e => (_prepareFilterFn this).2 = Throw e
  end.
Proof.
  intros Hfound Htruthy.
  unfold _prepareFilterFn, filterPredicate.
  rewrite (bind_Normal _ _ this this filterOption); [|unfold _ensureOption; by rewrite Hfound].
  unfold JS.not. rewrite Htruthy. cbn [negb].
  edestruct (compiledGrep_step (B := unit) OPTION_NAMES.filterTestGrep "testGrep" (value filterOption))
    as (mid1 & found1 & Hfound1 & Hsource1 & ->); [exact Hfound|].
  destruct (compiledGrep OPTION_NAMES.filterTestGrep "testGrep" (value filterOption))
    as [compiled1|e]; [|reflexivity].
  edestruct (compiledGrep_step (B := unit) OPTION_NAMES.filterFixtureGrep "fixtureGrep" compiled1)
    as (mid2 & found2 & Hfound2 & Hsource2 & ->); [exact Hfound1|].
  destruct (compiledGrep OPTION_NAMES.filterFixtureGrep "fixtureGrep" compiled1)
    as [compiled2|e]; [|reflexivity].
  unfold bind, await.
  destruct (getFilterFn compiled2) as [filterFn|e]; [|reflexivity].
  rewrite (assignValue_run _ _ _ _ Hfound2). cbn [fst snd _options with_options].
  split; [reflexivity|]. rewrite lookup_insert_eq. by rewrite Hsource2, Hsource1.
Qed.

(** The filter step. *)
Lemma _prepareFilterFn_effect (this after : TestCafeConfiguration) (r : Completion unit) :
  _prepareFilterFn this = (after, r) ->
  (forall name, name <> OPTION_NAMES.filter -> _options after !! name = _options this !! name) /\
  match r with
  | Normal _ => filterNormalized (_options this) (_options after)
  | Throw e =>
      exists filterOption,
        _options this !! OPTION_NAMES.filter = Some filterOption /\
        ToBoolean (value filterOption) = true /\
        filterPredicate (value filterOption) = Throw e
  end.
Proof.
  intros Hrun. split.
  - intros name Hname. replace after with (_prepareFilterFn this).1 by by rewrite Hrun.
    apply (stable_preserves name _prepareFilterFn). intros found.
    apply stable_prepareFilterFn. by apply respects_lookup_ne.
  - unfold filterNormalized.
    destruct (_options this !! OPTION_NAMES.filter) as [filterOption|] eqn:Hfound.
    + destruct (ToBoolean (value filterOption)) eqn:Htruthy.
      * pose proof (_prepareFilterFn_truthy _ _ Hfound Htruthy) as Hstep. rewrite Hrun in Hstep.
        cbn [fst snd] in Hstep.
        destruct (filterPredicate (value filterOption)) as [filterFn|e] eqn:Hpredicate.
        -- destruct Hstep as [-> Hfilter]. eauto.
        -- rewrite Hstep. eauto.
      * revert Hrun. unfold _prepareFilterFn.
        rewrite (bind_Normal _ _ this this filterOption); [|unfold _ensureOption; by rewrite Hfound].
        unfold JS.not. rewrite Htruthy. cbn [negb]. by intros [= <- <-].
    + rewrite (_prepareFilterFn_absent _ Hfound) in Hrun. injection Hrun as <- <-.
      cbn [_options with_options]. by rewrite lookup_insert_eq.
Qed.

(** The array shape of one option. *)
Lemma _ensureArrayOption_effect (name : string) (this : TestCafeConfiguration) :
  exists after,
    _ensureArrayOption name this = (after, Normal tt) /\
    (forall key, key <> name -> _options after !! key = _options this !! key) /\
    _options after !! name =
      (fun option => mkOption (castArray (value option)) (source option)) <$> _options this !! name.
Proof.
  unfold _ensureArrayOption.
  destruct (_options this !! name) as [option|] eqn:Hfound.
  - rewrite (assignValue_run _ _ _ _ Hfound). eexists. split; [reflexivity|].
    cbn [_options with_options]. split.
    + intros key Hkey. by rewrite lookup_insert_ne.
    + by rewrite lookup_insert_eq.
  - exists this. by rewrite Hfound.
Qed.

(** The reporter step. *)
Lemma _prepareReporters_effect (this after : TestCafeConfiguration) (r : Completion unit) :
  _prepareReporters this = (after, r) ->
  (forall name, name <> OPTION_NAMES.reporter -> _options after !! name = _options this !! name) /\
  match r with
  | Normal _ => reporterNormalized (_options this) (_options after)
  | Throw e =>
      after = this /\
      exists reporterOption,
        _options this !! OPTION_NAMES.reporter = Some reporterOption /\
        prepareReporters (castArray (value reporterOption)) = Throw e
  end.
Proof.
  unfold _prepareReporters, reporterNormalized.
  destruct (_options this !! OPTION_NAMES.reporter) as [reporterOption|] eqn:Hfound.
  - unfold bind, await.
    destruct (prepareReporters (castArray (value reporterOption))) as [reporters|e] eqn:Hprepared.
    + rewrite (assignValue_run _ _ _ _ Hfound). intros [= <- <-]. cbn [_options with_options]. split.
      * intros name Hname. by rewrite lookup_insert_ne.
      * exists reporters. by rewrite lookup_insert_eq.
    + intros [= <- <-]. split; [done|]. split; [done|]. by exists reporterOption.
  - intros [= <- <-]. by rewrite Hfound.
Qed.

(** How far the after-load normalization got: it failed in the SSL step,
    or has done that step and the flags and failed in the filter step, or
    has done these and the array shapes and failed in the reporter step, or
    has done all five. *)
Lemma normalization_progress (loaded after : TestCafeConfiguration) (r : Completion unit) :
  _normalizeOptionsAfterLoad loaded = (after, r) ->
  (exists sslOptions e,
     r = Throw e /\ after = loaded /\
     _options loaded !! OPTION_NAMES.ssl = Some sslOptions /\
     getSSLOptions (value sslOptions) = Throw e) \/
  sslNormalized (_options loaded) (_options after) /\
  initFlagsCoerced (_options loaded) (_options after) /\
  ((exists filterOption e,
      r = Throw e /\
      _options loaded !! OPTION_NAMES.filter = Some filterOption /\
      ToBoolean (value filterOption) = true /\
      filterPredicate (value filterOption) = Throw e /\
      asLoaded (arrayOptionNames ++ [OPTION_NAMES.reporter]) (_options loaded) (_options after)) \/
   filterNormalized (_options loaded) (_options after) /\
   arrayShaped (_options loaded) (_options after) /\
   ((exists reporterOption e,
       r = Throw e /\
       _options loaded !! OPTION_NAMES.reporter = Some reporterOption /\
       prepareReporters (castArray (value reporterOption)) = Throw e /\
       _options after !! OPTION_NAMES.reporter = Some reporterOption) \/
    r = Normal tt /\ reporterNormalized (_options loaded) (_options after))).
Proof.
  intros Hrun. unfold _normalizeOptionsAfterLoad in Hrun.
  apply bind_inv in Hrun as [(s1 & [] & Hssl & Hrun)|(e & Hssl & ->)]; cycle 1.
  { apply _prepareSslOptions_effect in Hssl as (_ & -> & sslOptions & Hfound & Hthrow).
    left. by exists sslOptions, e. }
  right.
  apply _prepareSslOptions_effect in Hssl as (Fssl & Essl).
  destruct (_prepareInitFlags_effect s1) as (s2 & Hflags & Fflags & Eflags).
  rewrite (bind_Normal _ _ _ _ _ Hflags) in Hrun.
  assert (Hinit : forall name, name ∈ OPTION_INIT_FLAG_NAMES ->
            _options s2 !! name =
              Some (mkOption (VBool (notnot (valueOf (_options loaded) name)))
                      (default OptionSource.Configuration (source <$> _options loaded !! name)))).
  { intros name Hname. rewrite (Eflags name Hname).
    destruct (init_flag_names_apart _ Hname) as (Hne & _).
    unfold valueOf. by rewrite (Fssl name Hne). }
  assert (Hnot_flag : forall name,
            bool_decide (name ∈ OPTION_INIT_FLAG_NAMES) = false -> name ∉ OPTION_INIT_FLAG_NAMES).
  { intros name Hname Hin. by rewrite (bool_decide_eq_true_2 _ Hin) in Hname. }
  assert (Hplain : forall name, bool_decide (name ∈ OPTION_INIT_FLAG_NAMES) = false ->
            name <> OPTION_NAMES.ssl -> _options s2 !! name = _options loaded !! name).
  { intros name Hname Hne. rewrite (Fflags name) by by apply Hnot_flag. by apply Fssl. }
  assert (Hssl2 : sslNormalized (_options loaded) (_options s2)).
  { unfold sslNormalized in *. by rewrite (Fflags OPTION_NAMES.ssl) by by apply Hnot_flag. }
  clear Fssl Essl Fflags Eflags Hflags s1.
  apply bind_inv in Hrun as [(s3 & [] & Hfilter & Hrun)|(e & Hfilter & ->)]; cycle 1.
  { apply _prepareFilterFn_effect in Hfilter as (Ffilter & filterOption & Hfound & Htruthy & Hthrow).
    split; [|split; [|left]].
    - unfold sslNormalized in *. by rewrite Ffilter.
    - intros name Hname. destruct (init_flag_names_apart _ Hname) as (_ & Hne & _).
      rewrite Ffilter by done. by apply Hinit.
    - exists filterOption, e. rewrite Hplain in Hfound by done.
      repeat (split; [done|]). intros name Hname.
      unfold arrayOptionNames in Hname. cbn [app] in Hname.
      repeat (apply elem_of_cons in Hname as [->|Hname]); try by apply elem_of_nil in Hname.
      all: rewrite Ffilter by done; by apply Hplain. }
  apply _prepareFilterFn_effect in Hfilter as (Ffilter & Efilter).
  destruct (_ensureArrayOption_effect OPTION_NAMES.src s3) as (s4 & Hsrc & Fsrc & Esrc).
  rewrite (bind_Normal _ _ _ _ _ Hsrc) in Hrun.
  destruct (_ensureArrayOption_effect OPTION_NAMES.browsers s4) as (s5 & Hbrowsers & Fbrowsers & Ebrowsers).
  rewrite (bind_Normal _ _ _ _ _ Hbrowsers) in Hrun.
  destruct (_ensureArrayOption_effect OPTION_NAMES.clientScripts s5) as (s6 & Hscripts & Fscripts & Escripts).
  rewrite (bind_Normal _ _ _ _ _ Hscripts) in Hrun.
  apply _prepareReporters_effect in Hrun as (Freporter & Ereporter).
  assert (Hpast : forall name,
            name <> OPTION_NAMES.src -> name <> OPTION_NAMES.browsers ->
            name <> OPTION_NAMES.clientScripts -> name <> OPTION_NAMES.reporter ->
            _options after !! name = _options s3 !! name).
  { intros name ? ? ? ?. by rewrite Freporter, Fscripts, Fbrowsers, Fsrc. }
  assert (Hshaped : forall name, name ∈ arrayOptionNames ->
            _options s6 !! name =
              (fun option => mkOption (castArray (value option)) (source option)) <$>
                _options loaded !! name).
  { intros name Hname. unfold arrayOptionNames in Hname.
    repeat (apply elem_of_cons in Hname as [->|Hname]); try by apply elem_of_nil in Hname.
    - rewrite Fscripts, Fbrowsers, Esrc by done. by rewrite Ffilter, Hplain.
    - rewrite Fscripts, Ebrowsers, Fsrc by done. by rewrite Ffilter, Hplain.
    - rewrite Escripts, Fbrowsers, Fsrc by done. by rewrite Ffilter, Hplain. }
  assert (Hreporter6 : _options s6 !! OPTION_NAMES.reporter = _options loaded !! OPTION_NAMES.reporter).
  { rewrite Fscripts, Fbrowsers, Fsrc, Ffilter by done. by apply Hplain. }
  split; [|split; [|right; split; [|split]]].
  - unfold sslNormalized in *. by rewrite Hpast, Ffilter.
  - intros name Hname.
    destruct (init_flag_names_apart _ Hname) as (_ & ? & ? & ? & ? & ?).
    rewrite Hpast, Ffilter by done. by apply Hinit.
  - unfold filterNormalized in *. rewrite Hpast by done.
    by rewrite (Hplain OPTION_NAMES.filter) in Efilter.
  - intros name Hname. rewrite <- (Hshaped name Hname). apply Freporter.
    unfold arrayOptionNames in Hname.
    repeat (apply elem_of_cons in Hname as [->|Hname]); try by apply elem_of_nil in Hname.
    all: done.
  - destruct r as [[]|e].
    + right. split; [reflexivity|]. unfold reporterNormalized in *. by rewrite Hreporter6 in Ereporter.
    + left. destruct Ereporter as (-> & reporterOption & Hfound & Hthrow).
      exists reporterOption, e. rewrite Hreporter6 in Hfound. by rewrite Hreporter6.
Qed.

End AfterLoadSteps.

(** *** The merge of the runtime options *)

Lemma lookup_mergeOption (this : TestCafeConfiguration) (entry : string * JsValue) (name : string) :
  _options (mergeOption this entry) !! name =
    if decide (entry.1 = name)
    then Some (mkOption entry.2 OptionSource.DirectlySet)
    else _options this !! name.
Proof.
  destruct entry as [key v]. unfold mergeOption.
  cbn [_options with_overriddenOptions with_options fst snd]. apply lookup_insert.
Qed.

Lemma lookup_merged_notin (options : Entries) (this : TestCafeConfiguration) (name : string) :
  name ∉ options.*1 ->
  _options (fold_left mergeOption options this) !! name = _options this !! name.
Proof.
  revert this. induction options as [|entry options IH]; [done|].
  intros this Hname. rewrite fmap_cons in Hname. apply not_elem_of_cons in Hname as [Hne Hname].
  cbn [fold_left]. rewrite (IH _ Hname), lookup_mergeOption. by case_decide.
Qed.

Lemma lookup_merged_last (before later : Entries) (this : TestCafeConfiguration)
    (name : string) (v : JsValue) :
  name ∉ later.*1 ->
  _options (fold_left mergeOption (before ++ (name, v) :: later) this) !! name =
    Some (mkOption v OptionSource.DirectlySet).
Proof.
  intros Hname. rewrite fold_left_app. cbn [fold_left].
  rewrite (lookup_merged_notin _ _ _ Hname), lookup_mergeOption. cbn [fst snd]. by case_decide.
Qed.

Section AfterLoadOnce.
Context `{H : Collaborators}.

Lemma lookup_asyncMergeOptions (options : option Entries) (this : TestCafeConfiguration) (name : string) :
  name <> "browsers" ->
  _options (asyncMergeOptions options this).1 !! name =
    _options (fold_left mergeOption (default [] options) this) !! name.
Proof.
  intros Hname. rewrite asyncMergeOptions_run. cbv zeta.
  destruct (_options (fold_left mergeOption (default [] options) this) !! "browsers") as [o|];
    [|reflexivity].
  destruct (Promise_all _); [|reflexivity].
  cbn [fst _options with_options]. by rewrite lookup_insert_ne.
Qed.

(** C8.  [init] runs the after-load normalization once, on the options of
    the loaded file and before the merge of the runtime options, and only
    when a file was loaded; when none was, [init] is that merge alone.

    When the normalization completes, it has done its five steps to the
    loaded option set: (1) the SSL option holds what [getSSLOptions] made
    of the loaded value, (2) each init-only flag holds the boolean of the
    loaded value, (3) the filter option holds the predicate [getFilterFn]
    made of the loaded filter (its patterns compiled first), (4) src,
    browsers and clientScripts hold arrays, (5) the reporter option holds
    what [prepareReporters] made of the loaded reporters.  Each
    collaborator has seen the loaded value, which is to say that the step
    ran once.

    The order shows when a step fails.  If the normalization throws, then
    either [getSSLOptions] threw and nothing is normalized; or the SSL
    option and the flags are normalized, the filter step threw, and src,
    browsers, clientScripts and reporter are as loaded; or all of SSL,
    flags, filter and array shapes are normalized, [prepareReporters] threw
    and the reporter is as loaded.  The normalization is the sequence of
    the specification, and it touches no other option.

    The merge normalizes nothing: an option given at run time, other than
    browsers, is stored with the very value given, an option not given is
    left as it is, and the merge is the same under any other SSL, grep,
    filter and reporter normalizers. *)
Theorem after_load_normalization_runs_once
    (options : option Entries) (this loaded : TestCafeConfiguration) :
  init options this =
    match (Configuration_init ;; _load) this with
    | (found, Normal (Some opts)) =>
        (_normalizeOptionsAfterLoad ;; asyncMergeOptions options) (with_options (_fromObj opts) found)
    | (found, Normal None) => asyncMergeOptions options found
    | (failed, Throw e) => (failed, Throw e)
    end /\
  (forall after,
     _normalizeOptionsAfterLoad loaded = (after, Normal tt) ->
     sslNormalized (_options loaded) (_options after) /\
     initFlagsCoerced (_options loaded) (_options after) /\
     filterNormalized (_options loaded) (_options after) /\
     arrayShaped (_options loaded) (_options after) /\
     reporterNormalized (_options loaded) (_options after)) /\
  (forall after e,
     _normalizeOptionsAfterLoad loaded = (after, Throw e) ->
     (after = loaded /\
      exists sslOptions,
        _options loaded !! OPTION_NAMES.ssl = Some sslOptions /\
        getSSLOptions (value sslOptions) = Throw e) \/
     (sslNormalized (_options loaded) (_options after) /\
      initFlagsCoerced (_options loaded) (_options after) /\
      asLoaded (arrayOptionNames ++ [OPTION_NAMES.reporter]) (_options loaded) (_options after) /\
      exists filterOption,
        _options loaded !! OPTION_NAMES.filter = Some filterOption /\
        ToBoolean (value filterOption) = true /\
        filterPredicate (value filterOption) = Throw e) \/
     (sslNormalized (_options loaded) (_options after) /\
      initFlagsCoerced (_options loaded) (_options after) /\
      filterNormalized (_options loaded) (_options after) /\
      arrayShaped (_options loaded) (_options after) /\
      asLoaded [OPTION_NAMES.reporter] (_options loaded) (_options after) /\
      exists reporterOption,
        _options loaded !! OPTION_NAMES.reporter = Some reporterOption /\
        prepareReporters (castArray (value reporterOption)) = Throw e)) /\
  (forall sslOptions e,
     _options loaded !! OPTION_NAMES.ssl = Some sslOptions ->
     getSSLOptions (value sslOptions) = Throw e ->
     _normalizeOptionsAfterLoad loaded = (loaded, Throw e)) /\
  _normalizeOptionsAfterLoad loaded = afterLoadSequence loaded /\
  (forall name,
     name ∉ normalizedOptionNames ->
     _options (_normalizeOptionsAfterLoad loaded).1 !! name = _options loaded !! name) /\
  (forall current before name v later,
     default [] options = before ++ (name, v) :: later ->
     name ∉ later.*1 ->
     name <> "browsers" ->
     _options (asyncMergeOptions options current).1 !! name =
       Some (mkOption v OptionSource.DirectlySet)) /\
  (forall current name,
     name ∉ (default [] options).*1 ->
     name <> "browsers" ->
     _options (asyncMergeOptions options current).1 !! name = _options current !! name) /\
  (forall (others : Collaborators) current,
     (forall browser,
        browserProviderPool_getBrowserInfo (Collaborators := others) browser =
        browserProviderPool_getBrowserInfo (Collaborators := H) browser) ->
     asyncMergeOptions (H := others) options current = asyncMergeOptions (H := H) options current).
Proof.
  split; [|split; [|split; [|split; [|split; [|split; [|split; [|split]]]]]]].
  - unfold init, Configuration_init, bind, ret, modify.
    by destruct (_load this) as [found [[opts|]|e]].
  - intros after Hrun.
    apply normalization_progress in Hrun
      as [(? & ? & [=] & _)|(Hssl & Hflags & [(? & ? & [=] & _)|(Hfilter & Hshape & Hreporter)])].
    destruct Hreporter as [(? & ? & [=] & _)|[_ Hreporter]]. done.
  - intros after e Hrun.
    apply normalization_progress in Hrun
      as [(sslOptions & e' & [= <-] & -> & Hfound & Hthrow)
         |(Hssl & Hflags &
           [(filterOption & e' & [= <-] & Hfound & Htruthy & Hthrow & Hloaded)
           |(Hfilter & Hshape &
             [(reporterOption & e' & [= <-] & Hfound & Hthrow & Hkept)|[[=] _]])])].
    + left. eauto.
    + right. left. eauto 10.
    + right. right. repeat (split; [done|]). split; [|eauto].
      intros name Hname. apply elem_of_cons in Hname as [->|Hname]; [by rewrite Hkept | by apply elem_of_nil in Hname].
  - intros sslOptions e Hssl Hthrow.
    unfold _normalizeOptionsAfterLoad, bind at 1, _prepareSslOptions.
    rewrite Hssl. unfold bind, await. by rewrite Hthrow.
  - apply _normalizeOptionsAfterLoad_afterLoadSequence.
  - intros name Hname. unfold normalizedOptionNames, arrayOptionNames in Hname.
    apply not_elem_of_cons in Hname as [Hssl Hname].
    apply not_elem_of_app in Hname as [Hflags Hname].
    cbn [app] in Hname.
    apply not_elem_of_cons in Hname as [Hfilter Hname].
    apply not_elem_of_cons in Hname as [Hsrc Hname].
    apply not_elem_of_cons in Hname as [Hbrowsers Hname].
    apply not_elem_of_cons in Hname as [Hscripts Hname].
    apply not_elem_of_cons in Hname as [Hreporter _].
    apply (stable_preserves name _normalizeOptionsAfterLoad). intros found.
    apply stable_bind; [apply stable_prepareSslOptions; by apply respects_lookup_ne | intros _].
    apply stable_bind.
    + apply stable_prepareInitFlags. apply Forall_forall. intros key Hkey.
      apply respects_lookup_ne. by intros ->.
    + intros _. apply past_init_flags_stable; by apply respects_lookup_ne.
  - intros current before name v later Hgiven Hlast Hname.
    rewrite lookup_asyncMergeOptions, Hgiven by done. by apply lookup_merged_last.
  - intros current name Hgiven Hname.
    rewrite lookup_asyncMergeOptions by done. by apply lookup_merged_notin.
  - intros others current Hpool.
    rewrite (asyncMergeOptions_run (H := others)), (asyncMergeOptions_run (H := H)). simpl.
    destruct (_options (fold_left mergeOption (default [] options) current) !! "browsers") as [o|];
      [|reflexivity].
    replace (map (browserProviderPool_getBrowserInfo (Collaborators := others)) (specifiers (value o)))
      with (map (browserProviderPool_getBrowserInfo (Collaborators := H)) (specifiers (value o)));
      [reflexivity|].
    apply map_ext. intros browser. by rewrite Hpool.
Qed.

End AfterLoadOnce.

(** C8 on a .testcaferc.json that sets ssl, cache and src: [init]
    normalizes what the file holds, once, and then merges.  On a loaded set
    with ssl, cache, src and a reporter, the normalization leaves the
    certificate object, [true], the list of the one source and the list of
    the one reporter.  On a loaded set whose ssl the normalizer rejects,
    nothing is normalized.  A cache given as 1 at run time is stored as
    1. *)
Lemma after_load_normalization_runs_once_witness :
  let H := sampleCollaborators
             [(".testcaferc.json",
               [("ssl", VString "key.pem"); ("cache", VNumber (S754_finite false 1 0));
                ("src", VString "tests")])] in
  let loaded := holding (_fromObj [("ssl", VString "key.pem"); ("cache", VNumber (S754_finite false 1 0));
                                   ("src", VString "tests"); ("reporter", VString "spec")]) in
  let rejected := holding (_fromObj [("ssl", VNull); ("cache", VNumber (S754_finite false 1 0))]) in
  let given := Some [("cache", VNumber (S754_finite false 1 0)); ("src", VString "tests")] in
  init None (new EmptyString) =
    (_normalizeOptionsAfterLoad ;; asyncMergeOptions None)
      (with_options
         (_fromObj [("ssl", VString "key.pem"); ("cache", VNumber (S754_finite false 1 0));
                    ("src", VString "tests")])
         (with_filePath (Some ".testcaferc.json") (new EmptyString))) /\
  (_options (_normalizeOptionsAfterLoad loaded).1 !! OPTION_NAMES.ssl =
     Some (mkOption (object {[ "key" := VString "key.pem" ]}) OptionSource.Configuration) /\
   _options (_normalizeOptionsAfterLoad loaded).1 !! OPTION_NAMES.cache =
     Some (mkOption (VBool true) OptionSource.Configuration) /\
   _options (_normalizeOptionsAfterLoad loaded).1 !! OPTION_NAMES.filter =
     Some (mkOption VNull OptionSource.Configuration) /\
   _options (_normalizeOptionsAfterLoad loaded).1 !! OPTION_NAMES.src =
     Some (mkOption (array [VString "tests"]) OptionSource.Configuration) /\
   _options (_normalizeOptionsAfterLoad loaded).1 !! OPTION_NAMES.reporter =
     Some (mkOption (array [VString "spec"]) OptionSource.Configuration)) /\
  _normalizeOptionsAfterLoad rejected = (rejected, Throw (ExternalError "getSSLOptions" "no certificate")) /\
  _options (asyncMergeOptions given (holding ∅)).1 !! OPTION_NAMES.cache =
    Some (mkOption (VNumber (S754_finite false 1 0)) OptionSource.DirectlySet).
Proof.
  intros H loaded rejected given.
  split; [|split; [|split]].
  - pose proof (after_load_normalization_runs_once (H := H) None (new EmptyString) loaded)
      as (Hinit & _).
    assert (Hload : (Configuration_init ;; _load) (new EmptyString) =
      (with_filePath (Some ".testcaferc.json") (new EmptyString),
       Normal (Some [("ssl", VString "key.pem"); ("cache", VNumber (S754_finite false 1 0));
                     ("src", VString "tests")]))) by (vm_compute; reflexivity).
    rewrite Hload in Hinit. exact Hinit.
  - pose proof (after_load_normalization_runs_once (H := H) None (new EmptyString) loaded)
      as (_ & Hdone & _).
    assert (Hrun : _normalizeOptionsAfterLoad loaded =
                     ((_normalizeOptionsAfterLoad loaded).1, Normal tt)) by (vm_compute; reflexivity).
    destruct (Hdone _ Hrun) as (Hssl & Hflags & Hfilter & Hshape & Hreporter).
    assert (Hcache : OPTION_NAMES.cache ∈ initOnlyFlags) by repeat constructor.
    assert (Hsrc : OPTION_NAMES.src ∈ arrayOptionNames) by repeat constructor.
    specialize (Hflags _ Hcache). specialize (Hshape _ Hsrc).
    unfold sslNormalized in Hssl. unfold filterNormalized in Hfilter.
    unfold reporterNormalized in Hreporter.
    assert (Hloaded_ssl : _options loaded !! OPTION_NAMES.ssl =
              Some (mkOption (VString "key.pem") OptionSource.Configuration))
      by (vm_compute; reflexivity).
    assert (Hloaded_filter : _options loaded !! OPTION_NAMES.filter = None)
      by (vm_compute; reflexivity).
    assert (Hloaded_reporter : _options loaded !! OPTION_NAMES.reporter =
              Some (mkOption (VString "spec") OptionSource.Configuration))
      by (vm_compute; reflexivity).
    rewrite Hloaded_ssl in Hssl. rewrite Hloaded_filter in Hfilter.
    rewrite Hloaded_reporter in Hreporter.
    destruct Hssl as (resolved & Hresolved & Hssl).
    destruct Hreporter as (reporters & Hprepared & Hreporter).
    vm_compute in Hresolved. injection Hresolved as <-.
    vm_compute in Hprepared. injection Hprepared as <-.
    split; [|split; [|split; [|split]]].
    + vm_compute in Hssl. vm_compute. exact Hssl.
    + vm_compute in Hflags. vm_compute. exact Hflags.
    + vm_compute in Hfilter. vm_compute. exact Hfilter.
    + vm_compute in Hshape. vm_compute. exact Hshape.
    + vm_compute in Hreporter. vm_compute. exact Hreporter.
  - pose proof (after_load_normalization_runs_once (H := H) None (new EmptyString) rejected)
      as (_ & _ & _ & Hssl & _).
    apply (Hssl (mkOption VNull OptionSource.Configuration)).
    + vm_compute. reflexivity.
    + reflexivity.
  - pose proof (after_load_normalization_runs_once (H := H) given (new EmptyString) loaded)
      as (_ & _ & _ & _ & _ & _ & Hgiven & _).
    apply (Hgiven (holding ∅) [] OPTION_NAMES.cache _ [("src", VString "tests")]).
    + reflexivity.
    + apply (bool_decide_unpack _). by vm_compute.
    + discriminate.
Defined.
